(** * VenomMaps: scripts/scan_occurrence_metrics.py

    A shallow embedding of the occurrence scanner and the properties of
    its two ingestion paths (per-species delimited files, and one combined
    workbook).

    Modelling conventions.
    - A pandas column read with [dtype=str] is a list of cells, a cell
      being [Some text] or [None] (NaN).  Column operations are written
      as the source writes them, on whole columns.
    - Text is ASCII: [str.upper], [str.strip], [\s], [\w] and [re.I] are
      modelled on the ASCII range only.
    - A float64 of a column is an exact rational, an infinity or NaN:
      it is what [pd.to_numeric] gives.  The quotient behind a
      percentage is rounded to the nearest float64 as Python rounds a
      division of integers.
    - [pd.to_numeric] and [pd.to_datetime] (applied to one text) are
      parameters of the development: they are library code.  They act
      cell by cell.  An instant is a rational number of days since
      1970-01-01T00:00Z.
    - Python exceptions are values of an error monad.
    - A file is what the script can observe of it: whether reading it
      raises, and the table or the lines it holds.  How pandas parses the
      bytes of a file is not modelled; the values of a line-delimited
      object are taken to be texts or null.
    - pandas is read as in its 1.x releases ([str.split] with a
      positional count, parsing of dates cell by cell, an empty Series
      without a dtype being float64). *)

From Stdlib Require Import Bool Arith ZArith QArith Qpower Qround Qabs Lia Lqa List Sorted.
From Stdlib Require Import Permutation.
From Stdlib Require Import Ascii String.
Import ListNotations.

Set Implicit Arguments.

Local Close Scope Q_scope.
Local Open Scope string_scope.
Local Open Scope list_scope.

(** ** Python: exceptions and values that may be [None] *)

Module Py.

Inductive exn : Type :=
| AttributeError   (* a Series method called on None or on a float *)
| ValueError       (* unpacking a sequence of the wrong length *)
| OSError          (* open() failed: missing, unreadable, permission *)
| ParserError      (* pandas could not parse the file *)
| TypeError.       (* an operator applied to operands it has no rule for *)

Inductive result (A : Type) : Type :=
| Ok (a : A)
| Raise (e : exn).

Arguments Ok {A} a.
Arguments Raise {A} e.

Definition bind {A B} (m : result A) (f : A -> result B) : result B :=
  match m with
  | Ok a => f a
  | Raise e => Raise e
  end.

Definition is_ok {A} (m : result A) : bool :=
  match m with Ok _ => true | Raise _ => false end.

(** [o.method(...)] where [o] may be [None]. *)
Definition call {A B} (o : option A) (method : A -> B) : result B :=
  match o with
  | Some s => Ok (method s)
  | None => Raise AttributeError
  end.

End Py.

Import Py.

Notation "x <- m ;; k" := (Py.bind m (fun x => k))
  (at level 61, m at next level, right associativity).

(** ** Python [str] on ASCII text *)

Module Str.

Definition chars (s : string) : list ascii := list_ascii_of_string s.
Definition of_chars (l : list ascii) : string := string_of_list_ascii l.

Definition code (c : ascii) : nat := nat_of_ascii c.

Definition in_range (lo hi : nat) (c : ascii) : bool :=
  ((lo <=? code c) && (code c <=? hi))%nat.

Definition is_upper : ascii -> bool := in_range 65 90.
Definition is_lower : ascii -> bool := in_range 97 122.
Definition is_digit : ascii -> bool := in_range 48 57.

(** [str.isspace] on ASCII: TAB, LF, VT, FF, CR, FS, GS, RS, US, space. *)
Definition is_space (c : ascii) : bool := in_range 9 13 c || in_range 28 32 c.

(** [\w] *)
Definition is_word (c : ascii) : bool :=
  is_upper c || is_lower c || is_digit c || (code c =? 95)%nat.

Definition upper_char (c : ascii) : ascii :=
  if is_lower c then ascii_of_nat (code c - 32) else c.
Definition lower_char (c : ascii) : ascii :=
  if is_upper c then ascii_of_nat (code c + 32) else c.

Definition map_chars (f : ascii -> ascii) (s : string) : string :=
  of_chars (List.map f (chars s)).

Definition upper : string -> string := map_chars upper_char.
Definition lower : string -> string := map_chars lower_char.

(** [s.replace(a, b)] for one-character [a] and [b]. *)
Definition replace_char (a b : ascii) : string -> string :=
  map_chars (fun c => if Ascii.eqb c a then b else c).

Fixpoint lstrip_chars (l : list ascii) : list ascii :=
  match l with
  | c :: l' => if is_space c then lstrip_chars l' else l
  | [] => []
  end.

Definition strip (s : string) : string :=
  of_chars (rev (lstrip_chars (rev (lstrip_chars (chars s))))).

Fixpoint prefix_chars (p l : list ascii) : bool :=
  match p, l with
  | [], _ => true
  | a :: p', b :: l' => Ascii.eqb a b && prefix_chars p' l'
  | _ :: _, [] => false
  end.

Fixpoint contains_chars (p l : list ascii) : bool :=
  prefix_chars p l ||
  match l with
  | _ :: l' => contains_chars p l'
  | [] => false
  end.

(** [p in s] *)
Definition contains (p s : string) : bool := contains_chars (chars p) (chars s).

(** [s.endswith(p)] *)
Definition endswith (s p : string) : bool :=
  prefix_chars (rev (chars p)) (rev (chars s)).

(** [s.split(sep, 1)[0]] for a one-character separator. *)
Fixpoint before_chars (sep : ascii) (l : list ascii) : list ascii :=
  match l with
  | c :: l' => if Ascii.eqb c sep then [] else c :: before_chars sep l'
  | [] => []
  end.

Definition split_first (sep : ascii) (s : string) : string :=
  of_chars (before_chars sep (chars s)).

(** [x in {...}] for a set of strings. *)
Definition mem (x : string) (l : list string) : bool :=
  existsb (String.eqb x) l.

(** [" ".join(parts)] *)
Fixpoint join (sep : string) (parts : list string) : string :=
  match parts with
  | [] => ""
  | [p] => p
  | p :: rest => p ++ sep ++ join sep rest
  end.

End Str.

(** ** Python [re]: a backtracking matcher

    The matcher follows [re]'s priority order (alternatives left to
    right, greedy repetition), so that the first match found is the one
    [re.search], [re.sub] and [str.extract] use.  A position is the
    character before it (if any) and the text after it. *)

Module Re.

Inductive regex : Type :=
| Eps                               (* the empty pattern *)
| Chr (p : ascii -> bool)           (* one character of a class *)
| Seq (r1 r2 : regex)
| Alt (r1 r2 : regex)
| Star (r : regex)                  (* greedy [r*] *)
| Bol                               (* [^] *)
| Eol                               (* [$]: at the end, or before a final newline *)
| WordB.                            (* [\b] *)

Definition Opt (r : regex) : regex := Alt r Eps.       (* greedy [r?] *)
Definition Plus (r : regex) : regex := Seq r (Star r). (* greedy [r+] *)

Definition orelse {A} (a b : option A) : option A :=
  match a with Some _ => a | None => b end.

Definition newline : ascii := ascii_of_nat 10.

Definition word_before (prev : option ascii) : bool :=
  match prev with Some c => Str.is_word c | None => false end.
Definition word_after (s : list ascii) : bool :=
  match s with c :: _ => Str.is_word c | [] => false end.

Definition at_eol (s : list ascii) : bool :=
  match s with
  | [] => true
  | [c] => Ascii.eqb c newline
  | _ => false
  end.

(** [run r prev s k]: match [r] at the position [(prev, s)], then continue
    with [k]; the answer is the text left after the whole match. *)
Fixpoint run (r : regex) (prev : option ascii) (s : list ascii)
    (k : option ascii -> list ascii -> option (list ascii)) {struct r}
    : option (list ascii) :=
  match r with
  | Eps => k prev s
  | Chr p =>
      match s with
      | c :: s' => if p c then k (Some c) s' else None
      | [] => None
      end
  | Seq r1 r2 => run r1 prev s (fun prev' s' => run r2 prev' s' k)
  | Alt r1 r2 => orelse (run r1 prev s k) (run r2 prev s k)
  | Star r1 =>
      (fix loop (fuel : nat) (prev : option ascii) (s : list ascii)
         : option (list ascii) :=
         match fuel with
         | O => k prev s
         | S fuel' =>
             orelse
               (run r1 prev s (fun prev' s' =>
                  if (List.length s' <? List.length s)%nat then loop fuel' prev' s'
                  else None))
               (k prev s)
         end) (List.length s) prev s
  | Bol => match prev with None => k prev s | Some _ => None end
  | Eol => if at_eol s then k prev s else None
  | WordB => if xorb (word_before prev) (word_after s) then k prev s else None
  end.

(** A match starting exactly here: the text after it. *)
Definition match_here (r : regex) (prev : option ascii) (s : list ascii)
  : option (list ascii) :=
  run r prev s (fun _ rest => Some rest).

(** The leftmost match: the text before it, and the text after it. *)
Fixpoint find (r : regex) (prev : option ascii) (before s : list ascii)
  : option (list ascii * list ascii) :=
  match match_here r prev s with
  | Some rest => Some (rev before, rest)
  | None =>
      match s with
      | c :: s' => find r (Some c) (c :: before) s'
      | [] => None
      end
  end.

(** [bool(r.search(s))] *)
Definition search (r : regex) (s : string) : bool :=
  match find r None [] (Str.chars s) with Some _ => true | None => false end.

(** The text of the leftmost match ([str.extract] with one group around
    the whole pattern). *)
Definition extract (r : regex) (s : string) : option string :=
  let l := Str.chars s in
  match find r None [] l with
  | Some (before, rest) =>
      Some (Str.of_chars
              (firstn (List.length l - List.length before - List.length rest)
                      (skipn (List.length before) l)))
  | None => None
  end.

(** [re.sub(r, repl, s)] for a pattern that matches no empty text: every
    non-overlapping match, leftmost first, is replaced. *)
Fixpoint sub_chars (fuel : nat) (r : regex) (repl : list ascii)
    (prev : option ascii) (s : list ascii) : list ascii :=
  match fuel with
  | O => s
  | S fuel' =>
      match find r prev [] s with
      | Some (before, rest) =>
          let consumed := firstn (List.length s - List.length rest) s in
          before ++ repl ++
          sub_chars fuel' r repl (last (List.map Some consumed) prev) rest
      | None => s
      end
  end.

Definition sub (r : regex) (repl s : string) : string :=
  let l := Str.chars s in
  Str.of_chars (sub_chars (List.length l) r (Str.chars repl) None l).

(** Pattern syntax. *)
Definition chr (c : ascii) : regex := Chr (Ascii.eqb c).
(** One character, under [re.I]. *)
Definition chr_i (c : ascii) : regex :=
  Chr (fun x => Ascii.eqb (Str.lower_char x) (Str.lower_char c)).

Fixpoint seq_of (f : ascii -> regex) (l : list ascii) : regex :=
  match l with
  | [] => Eps
  | [c] => f c
  | c :: l' => Seq (f c) (seq_of f l')
  end.

(** A literal word, and a literal word under [re.I]. *)
Definition lit (s : string) : regex := seq_of chr (Str.chars s).
Definition lit_i (s : string) : regex := seq_of chr_i (Str.chars s).

Fixpoint alts (l : list regex) : regex :=
  match l with
  | [] => Chr (fun _ => false)
  | [r] => r
  | r :: l' => Alt r (alts l')
  end.

Definition digit : regex := Chr Str.is_digit.                        (* [\d] *)
Definition space : regex := Chr Str.is_space.                        (* [\s] *)
Definition dot : regex := Chr (fun c => negb (Ascii.eqb c newline)). (* [.] *)

End Re.

(** ** pandas: cells, columns, tables *)

Module Pd.

(** A cell of a column read with [dtype=str]: text, or NaN. *)
Definition cell : Type := option string.

(** float64 values, up to rounding. *)
Inductive float64 : Type :=
| NaN
| NegInf
| PosInf
| Fin (q : Q).

(** [a <= b]; false when either side is NaN. *)
Definition fle (a b : float64) : bool :=
  match a, b with
  | NaN, _ | _, NaN => false
  | NegInf, _ => true
  | _, PosInf => true
  | Fin x, Fin y => Qle_bool x y
  | _, _ => false
  end.

Definition of_Z (z : Z) : float64 := Fin (inject_Z z).

Definition is_nan (x : float64) : bool :=
  match x with NaN => true | _ => false end.

(** A timestamp (days since 1970-01-01T00:00Z), or NaT. *)
Definition datetime : Type := option Q.

Definition dt_ge (a : datetime) (t : Q) : bool :=
  match a with Some x => Qle_bool t x | None => false end.

(** Elementwise binary operation on two columns of one table. *)
Definition zipw {A B C} (f : A -> B -> C) (a : list A) (b : list B) : list C :=
  List.map (fun p => f (fst p) (snd p)) (combine a b).

Definition vand : list bool -> list bool -> list bool := zipw andb.
Definition vor : list bool -> list bool -> list bool := zipw orb.

(** [int(mask.sum())] *)
Definition vsum (m : list bool) : nat := List.length (List.filter (fun b => b) m).

Definition any (m : list bool) : bool := existsb (fun b => b) m.
Definition all (m : list bool) : bool := forallb (fun b => b) m.

(** [s.isin(tokens)]: NaN is in no set of texts. *)
Definition isin (tokens : list string) (s : list cell) : list bool :=
  List.map (fun c => match c with Some x => Str.mem x tokens | None => false end) s.

(** [s.fillna(v)] on a text column. *)
Definition fillna (v : string) (s : list cell) : list string :=
  List.map (fun c => match c with Some x => x | None => v end) s.

(** [s.ne("")] *)
Definition ne_empty (s : list string) : list bool :=
  List.map (fun x => negb (String.eqb x "")) s.

Definition notna {A} (s : list (option A)) : list bool :=
  List.map (fun c => match c with Some _ => true | None => false end) s.
Definition isna {A} (s : list (option A)) : list bool :=
  List.map (fun c => match c with Some _ => false | None => true end) s.

(** [dt.fillna(other)] on two timestamp columns. *)
Definition fill {A} (s other : list (option A)) : list (option A) :=
  zipw (fun a b => match a with Some _ => a | None => b end) s other.

Definition num_notna (s : list float64) : list bool :=
  List.map (fun x => negb (is_nan x)) s.

(** [s.between(lo, hi)], both ends included. *)
Definition between (lo hi : Q) (s : list float64) : list bool :=
  List.map (fun x => fle (Fin lo) x && fle x (Fin hi)) s.

(** [s <= v] and [s >= v] *)
Definition num_le (v : Q) (s : list float64) : list bool :=
  List.map (fun x => fle x (Fin v)) s.
Definition num_ge (v : Q) (s : list float64) : list bool :=
  List.map (fun x => fle (Fin v) x) s.

(** A table: its header and its rows.  A row shorter than the header
    has NaN in the columns it lacks. *)
Record DataFrame : Type := {
  columns : list string;
  rows : list (list cell)
}.

Definition cell_at (j : nat) (r : list cell) : cell := nth j r None.

Fixpoint index_of (name : string) (l : list string) : option nat :=
  match l with
  | [] => None
  | c :: l' =>
      if String.eqb c name then Some O
      else option_map S (index_of name l')
  end.

Definition column_at (df : DataFrame) (j : nat) : list cell :=
  List.map (cell_at j) (rows df).

(** [df.get(name)]: the column, or [None] when the header lacks it. *)
Definition get (df : DataFrame) (name : string) : option (list cell) :=
  option_map (column_at df) (index_of name (columns df)).

(** [name in df.columns] *)
Definition has_column (df : DataFrame) (name : string) : bool :=
  Str.mem name (columns df).

(** [len(df)] *)
Definition len (df : DataFrame) : nat := List.length (rows df).

End Pd.

Import Pd.

(** ** Calendar *)

(** Days from 1970-01-01 to the civil date [y-m-d] (proleptic Gregorian). *)
Definition days_from_civil (y m d : Z) : Z :=
  let y' := if (m <=? 2)%Z then (y - 1)%Z else y in
  let era := (y' / 400)%Z in
  let yoe := (y' - era * 400)%Z in
  let mp := if (m <=? 2)%Z then (m + 9)%Z else (m - 3)%Z in
  let doy := ((153 * mp + 2) / 5 + d - 1)%Z in
  let doe := (yoe * 365 + yoe / 4 - yoe / 100 + doy)%Z in
  (era * 146097 + doe - 719468)%Z.

Definition Timestamp (y m d : Z) : Q := inject_Z (days_from_civil y m d).

(** The value of a text of decimal digits. *)
Fixpoint digits_value (acc : Z) (l : list ascii) : option Z :=
  match l with
  | [] => Some acc
  | c :: l' =>
      if Str.is_digit c
      then digits_value (acc * 10 + Z.of_nat (Str.code c - 48))%Z l'
      else None
  end.

(** ** Constants of the script *)

Definition US_COUNTRY_TOKENS : list string :=
  ["US"; "USA"; "United States"; "United States of America"].

Definition GBIF_BAD_ISSUES : list string :=
  ["ZERO_COORDINATE"; "COORDINATE_OUT_OF_RANGE"; "COUNTRY_COORDINATE_MISMATCH";
   "COUNTRY_MISMATCH"; "RECORDED_DATE_INVALID"; "RECORDED_DATE_MISMATCH"].

(** [\b(zoo|captive|captiv(e|ity)|pet\s?store|collection|terrarium|museum\s?display)\b], [re.I] *)
Definition CAPTIVE_HINTS : Re.regex :=
  Re.Seq Re.WordB
    (Re.Seq
       (Re.alts
          [Re.lit_i "zoo";
           Re.lit_i "captive";
           Re.Seq (Re.lit_i "captiv") (Re.Alt (Re.lit_i "e") (Re.lit_i "ity"));
           Re.Seq (Re.lit_i "pet") (Re.Seq (Re.Opt Re.space) (Re.lit_i "store"));
           Re.lit_i "collection";
           Re.lit_i "terrarium";
           Re.Seq (Re.lit_i "museum") (Re.Seq (Re.Opt Re.space) (Re.lit_i "display"))])
       Re.WordB).

Definition DATE_PRIORITIES : list string :=
  ["eventDate"; "verbatimEventDate"; "observed_on"; "time_observed_at";
   "observation_date"; "ObservationDate"; "dateObserved"; "date_observed";
   "date_collected"; "collectionDate"; "verbatim_date"; "date"; "Date"].

(** [(event|observ(ed|ation)?|collect(ed|ion)?|time).*date|^date$], [re.I] *)
Definition DATE_REGEX : Re.regex :=
  Re.Alt
    (Re.Seq
       (Re.alts
          [Re.lit_i "event";
           Re.Seq (Re.lit_i "observ")
                  (Re.Opt (Re.Alt (Re.lit_i "ed") (Re.lit_i "ation")));
           Re.Seq (Re.lit_i "collect")
                  (Re.Opt (Re.Alt (Re.lit_i "ed") (Re.lit_i "ion")));
           Re.lit_i "time"])
       (Re.Seq (Re.Star Re.dot) (Re.lit_i "date")))
    (Re.Seq Re.Bol (Re.Seq (Re.lit_i "date") Re.Eol)).

(** [\.(csv|tsv|txt|ndjson)(\.gz)?$], [re.I]: the names of source files. *)
Definition SOURCE_EXT : Re.regex :=
  Re.Seq (Re.chr ".")
    (Re.Seq
       (Re.alts [Re.lit_i "csv"; Re.lit_i "tsv"; Re.lit_i "txt"; Re.lit_i "ndjson"])
       (Re.Seq (Re.Opt (Re.Seq (Re.chr ".") (Re.lit_i "gz"))) Re.Eol)).

(** [((?:19|20)\d{2})]: a year in free text. *)
Definition YEAR_IN_TEXT : Re.regex :=
  Re.Seq (Re.Alt (Re.lit "19") (Re.lit "20")) (Re.Seq Re.digit Re.digit).

(** [\s+] *)
Definition WHITESPACE_RUN : Re.regex := Re.Plus Re.space.

Definition BUCKETS : list string :=
  ["HumanObservation"; "Observation"; "MachineObservation";
   "PreservedSpecimen"; "FossilSpecimen"; "Other"].

Definition CAPTIVE_MEANS : list string := ["captive"; "managed"; "captive/managed"].

(** The headers [scan_tabular_files] takes from every batch (lines 159-174). *)
Definition STREAM_COLUMNS : list string :=
  ["countryCode"; "country"; "decimalLatitude"; "decimalLongitude";
   "eventDate"; "year"; "month"; "day"; "basisOfRecord"; "establishmentMeans";
   "issues"; "mediaType"; "associatedMedia"; "occurrenceRemarks"; "locality";
   "habitat"; "coordinateUncertaintyInMeters"].

(** ** Per-value classification *)

Definition basis_bucket (val : string) : string :=
  let v := Str.strip val in
  if Str.mem v ["HumanObservation"; "Observation"; "MachineObservation";
                "PreservedSpecimen"; "FossilSpecimen"]
  then v
  else
    let su := Str.replace_char "-" "_" (Str.replace_char " " "_" (Str.upper v)) in
    if Str.contains "HUMAN" su then "HumanObservation"
    else if Str.contains "MACHINE" su then "MachineObservation"
    else if Str.contains "FOSSIL" su then "FossilSpecimen"
    else if Str.contains "PRESERVED" su || Str.contains "SPECIMEN" su
         then "PreservedSpecimen"
    else if Str.contains "OBSERVATION" su then "Observation"
    else "Other".

(** [any(code in s for code in GBIF_BAD_ISSUES)] *)
Definition issue_flagged (s : string) : bool :=
  existsb (fun code => Str.contains code s) GBIF_BAD_ISSUES.

(** ** Aggregates *)

(** The counter dict ([overall], and [sp] for one species).  The nested
    dict [basis_counts] keeps its insertion order. *)
Record Counters : Type := {
  total_records : nat;
  usa_records : nat;
  dated_any : nat;
  dated_full : nat;
  post_2010 : nat;
  basis_counts : list (string * nat);
  captive_flagged : nat;
  valid_coords : nat;
  uncertainty_le_2km : nat;
  gbif_issue_flagged : nat;
  has_media : nat
}.

Definition zero_basis_counts : list (string * nat) :=
  [("HumanObservation", 0); ("Observation", 0); ("MachineObservation", 0);
   ("PreservedSpecimen", 0); ("FossilSpecimen", 0); ("Other", 0)].

(** The dict literal that initialises [overall]. *)
Definition overall_init (n : nat) : Counters := {|
  total_records := n; usa_records := 0; dated_any := 0; dated_full := 0;
  post_2010 := 0; basis_counts := zero_basis_counts;
  captive_flagged := 0; valid_coords := 0; uncertainty_le_2km := 0;
  gbif_issue_flagged := 0; has_media := 0
|}.

(** [d[k]], 0 standing for a missing key (the six keys are always there). *)
Fixpoint dict_get (k : string) (d : list (string * nat)) : nat :=
  match d with
  | [] => 0
  | (k', v) :: d' => if String.eqb k' k then v else dict_get k d'
  end.

(** [d[k] += n] *)
Fixpoint dict_add (k : string) (n : nat) (d : list (string * nat))
  : list (string * nat) :=
  match d with
  | [] => []
  | (k', v) :: d' =>
      if String.eqb k' k then (k', v + n) :: d' else (k', v) :: dict_add k n d'
  end.

(** [sum(d.values())] *)
Definition dict_total (d : list (string * nat)) : nat :=
  fold_right (fun kv acc => snd kv + acc) 0 d.

(** The per-record columns both paths compute before counting. *)
Record Masks : Type := {
  m_us : list bool;
  m_dated_any : list bool;
  m_dated_full : list bool;
  m_post2010 : list bool;
  m_bucket : list string;
  m_valid : list bool;
  m_unc2k : list bool;
  m_gbad : list bool;
  m_captive : list bool;
  m_has_media : list bool
}.

(** [int((flag & us).sum())] *)
Definition count_in (us flag : list bool) : nat := vsum (vand flag us).

(** [int(((b == k) & us).sum())] *)
Definition count_bucket (us : list bool) (b : list string) (k : string) : nat :=
  vsum (vand (List.map (fun x => String.eqb x k) b) us).

(** The loop over the six bucket names. *)
Definition add_buckets (us : list bool) (b : list string)
    (d : list (string * nat)) : list (string * nat) :=
  fold_left (fun d k => dict_add k (count_bucket us b k) d) BUCKETS d.

(** Lines 204-216 for one of the two dicts: every counter but
    [total_records] grows by the count over the records of [us]. *)
Definition accumulate (us : list bool) (m : Masks) (c : Counters) : Counters := {|
  total_records := total_records c;
  usa_records := usa_records c + vsum us;
  dated_any := dated_any c + count_in us (m_dated_any m);
  dated_full := dated_full c + count_in us (m_dated_full m);
  post_2010 := post_2010 c + count_in us (m_post2010 m);
  basis_counts := add_buckets us (m_bucket m) (basis_counts c);
  captive_flagged := captive_flagged c + count_in us (m_captive m);
  valid_coords := valid_coords c + count_in us (m_valid m);
  uncertainty_le_2km := uncertainty_le_2km c + count_in us (m_unc2k m);
  gbif_issue_flagged := gbif_issue_flagged c + count_in us (m_gbad m);
  has_media := has_media c + count_in us (m_has_media m)
|}.

Definition add_total (n : nat) (c : Counters) : Counters := {|
  total_records := total_records c + n;
  usa_records := usa_records c; dated_any := dated_any c;
  dated_full := dated_full c; post_2010 := post_2010 c;
  basis_counts := basis_counts c; captive_flagged := captive_flagged c;
  valid_coords := valid_coords c; uncertainty_le_2km := uncertainty_le_2km c;
  gbif_issue_flagged := gbif_issue_flagged c; has_media := has_media c
|}.

(** Python's [round(x, 4)] on the exact quotient: to the nearest multiple
    of 1/10000, a tie going to the even one. *)
Definition round_half_even (q : Q) : Z :=
  let f := Qfloor q in
  let r := (q - inject_Z f)%Q in
  match Qcompare r (1 # 2) with
  | Lt => f
  | Gt => (f + 1)%Z
  | Eq => if Z.even f then f else (f + 1)%Z
  end.

Definition round4 (q : Q) : Q :=
  (inject_Z (round_half_even (q * inject_Z 10000)) / inject_Z 10000)%Q.

(** [floor(log2(q))] of a positive [q]: the exponent of its float64. *)
Definition binade (q : Q) : Z :=
  let d := (Z.log2 (Qnum q) - Z.log2 (Zpos (Qden q)))%Z in
  if Qle_bool (2 ^ d)%Q q then d else (d - 1)%Z.

(** [a / b] on two integers that are not negative: the float64 nearest
    to the quotient [q], a tie going to the even mantissa.  The mantissa
    has 53 bits, and below [2 ** -1022] the step [2 ** -1074].  (A
    quotient of [2 ** 1024] or more raises OverflowError; the quotient
    of a counter by [usa_records or 1] is at most 1.) *)
Definition float64_of (q : Q) : Q :=
  match Qnum q with
  | Zpos _ =>
      let e := Z.max (binade q) (-1022) in
      (inject_Z (round_half_even (q * 2 ^ (52 - e))) * 2 ^ (e - 52))%Q
  | _ => 0%Q
  end.

(** [round(count / denom, 4)]: the division gives a float64, and [round]
    rounds the exact value of that float64 to four decimals, a tie
    going to the even digit; the result prints as that decimal. *)
Definition pct (count denom : nat) : Q :=
  round4 (float64_of (inject_Z (Z.of_nat count) / inject_Z (Z.of_nat denom))%Q).

(** One row of the per-species result. *)
Record SpeciesRow : Type := {
  species_id : string;
  counts : Counters;
  pct_dated_any : Q;
  pct_dated_full : Q;
  pct_post_2010 : Q;
  pct_uncertainty_le_2km : Q;
  pct_captive_flagged : Q
}.

(** [x or 1] *)
Definition or_one (x : nat) : nat := match x with O => 1 | _ => x end.

Definition finalize (sid : string) (sp : Counters) : SpeciesRow :=
  let denom := or_one (usa_records sp) in {|
    species_id := sid;
    counts := sp;
    pct_dated_any := pct (dated_any sp) denom;
    pct_dated_full := pct (dated_full sp) denom;
    pct_post_2010 := pct (post_2010 sp) denom;
    pct_uncertainty_le_2km := pct (uncertainty_le_2km sp) denom;
    pct_captive_flagged := pct (captive_flagged sp) denom
  |}.

(** ** Source files *)

(** One line of a line-delimited file.  [json_normalize] makes a one-row
    table of an object, and of an array of objects a table with one row
    for each element under the keys of all of them (of the empty array a
    table without columns and rows); any other line that is not blank
    raises in [json.loads] or in [json_normalize] and is malformed.  The
    values are taken to be texts or null. *)
Inductive NdLine : Type :=
| Blank
| Malformed
| Object (keys : list string) (values : list cell)
| Array (keys : list string) (records : list (list cell)).

(** An entry below the occurrence directory, as the script can observe it. *)
Record SourceFile : Type := {
  path : list string;              (* its components; the last is its name *)
  is_file : bool;
  read_error : option exn;         (* opening or parsing it raises *)
  text_lines : list NdLine;        (* read as line-delimited objects *)
  delimited : ascii -> DataFrame;  (* read by [pd.read_csv] with a separator *)
  workbook : DataFrame             (* read by [pd.read_excel] *)
}.

Definition name (f : SourceFile) : string := last (path f) "".

(** [OCC_DIR]: [None] when the directory does not exist. *)
Definition Directory : Type := option (list SourceFile).

Definition chunksize : nat := 200 * 1000.

(** The rows of one file in batches of [n]. *)
Fixpoint batches (fuel n : nat) (l : list (list cell)) : list (list (list cell)) :=
  match fuel, l with
  | _, [] => []
  | O, _ => [l]
  | S fuel', _ => firstn n l :: batches fuel' n (skipn n l)
  end.

(** [pd.read_csv(..., chunksize=200000)]: a table without rows still
    gives one (empty) batch. *)
Definition csv_chunks (df : DataFrame) : list DataFrame :=
  match rows df with
  | [] => [df]
  | l => List.map (fun b => {| columns := columns df; rows := b |})
                  (batches (List.length l) chunksize l)
  end.

Definition tab : ascii := ascii_of_nat 9.

Fixpoint ndjson_chunks (lines : list NdLine) : list DataFrame :=
  match lines with
  | [] => []
  | Blank :: rest => ndjson_chunks rest
  | Malformed :: rest => ndjson_chunks rest
  | Object keys values :: rest =>
      {| columns := keys; rows := [values] |} :: ndjson_chunks rest
  | Array keys records :: rest =>
      {| columns := keys; rows := records |} :: ndjson_chunks rest
  end.

Definition read_table (f : SourceFile) : result (list DataFrame) :=
  let name := Str.lower (name f) in
  match read_error f with
  | Some e => Raise e
  | None =>
      if Str.endswith name ".ndjson" || Str.endswith name ".ndjson.gz"
      then Ok (ndjson_chunks (text_lines f))
      else
        let sep := if Str.endswith name ".tsv" || Str.endswith name ".tsv.gz"
                   then tab else ","%char in
        Ok (csv_chunks (delimited f sep))
  end.

(** ** Order of paths and of texts *)

Fixpoint path_leb (a b : list string) : bool :=
  match a, b with
  | [], _ => true
  | _ :: _, [] => false
  | x :: a', y :: b' =>
      match String.compare x y with
      | Lt => true
      | Gt => false
      | Eq => path_leb a' b'
      end
  end.

(** Stable insertion into an ascending list. *)
Fixpoint insert_by {A} (leb : A -> A -> bool) (x : A) (l : list A) : list A :=
  match l with
  | [] => [x]
  | y :: l' => if leb x y then x :: l else y :: insert_by leb x l'
  end.

(** [sorted(l)]; with [leb] reversed it is [sorted(l, reverse=True)].
    Equal elements keep their order. *)
Definition sorted_by {A} (leb : A -> A -> bool) (l : list A) : list A :=
  fold_right (insert_by leb) [] l.

(** ** The streaming path: one file per species *)

Section Scan.

(** [pd.to_numeric(text, errors="coerce")] and
    [pd.to_datetime(text, errors="coerce", utc=True)] on one text. *)
Variable to_numeric : string -> float64.
Variable to_datetime : string -> datetime.

Definition numeric_cell (c : cell) : float64 :=
  match c with Some s => to_numeric s | None => NaN end.
Definition datetime_cell (c : cell) : datetime :=
  match c with Some s => to_datetime s | None => None end.

(** [pd.to_numeric(s, errors="coerce")] on a column. *)
Definition to_numeric_col (s : list cell) : list float64 :=
  List.map numeric_cell s.
(** [pd.to_datetime(s, errors="coerce", utc=True)] on a column. *)
Definition to_datetime_col (s : list cell) : list datetime :=
  List.map datetime_cell s.

(** [pd.to_numeric(chunk.get(name), errors="coerce")]: of [None] it is
    the float nan, which has no Series method; that is [None] here. *)
Definition get_numeric (chunk : DataFrame) (name : string)
  : option (list float64) :=
  option_map to_numeric_col (get chunk name).

(** A Series about to receive a method call. *)
Definition series {A} (o : option A) : result A := call o (fun s => s).

Definition T2010 : Q := Timestamp 2010 1 1.

(** [remarks.fillna("") + " " + locality.fillna("") + " " + habitat.fillna("")] *)
Definition text_blob (remarks locality habitat : list cell) : list string :=
  let add := zipw String.append in
  let add_text (s : list string) (x : string) :=
    List.map (fun a => String.append a x) s in
  add (add_text (add (add_text (fillna "" remarks) " ") (fillna "" locality)) " ")
      (fillna "" habitat).

(** Lines 159-202 of [scan_tabular_files]: the columns of one batch. *)
Definition chunk_masks (chunk : DataFrame) : result Masks :=
  let cc := get chunk "countryCode" in
  let cn := get chunk "country" in
  let lat := get_numeric chunk "decimalLatitude" in
  let lon := get_numeric chunk "decimalLongitude" in
  let ev := get chunk "eventDate" in
  let year := get_numeric chunk "year" in
  let month := get_numeric chunk "month" in
  let day := get_numeric chunk "day" in
  let basis := get chunk "basisOfRecord" in
  let estm := get chunk "establishmentMeans" in
  let issues := get chunk "issues" in
  let mediaType := get chunk "mediaType" in
  let assocMed := get chunk "associatedMedia" in
  let remarks := get chunk "occurrenceRemarks" in
  let locality := get chunk "locality" in
  let habitat := get chunk "habitat" in
  let unc := get_numeric chunk "coordinateUncertaintyInMeters" in
  cc <- series cc ;;
  cn <- series cn ;;
  lat <- series lat ;;
  lon <- series lon ;;
  let us_mask :=
    vor (vor (isin US_COUNTRY_TOKENS cc) (isin US_COUNTRY_TOKENS cn))
        (vand (between (18 # 1) (72 # 1) lat)
              (between (- (359 # 2)) (- (66 # 1)) lon)) in
  ev <- series ev ;;
  year <- series year ;;
  let dated_any :=
    vor (ne_empty (List.map Str.strip (fillna "" ev))) (num_notna year) in
  let full_from_ev := notna (to_datetime_col ev) in
  month <- series month ;;
  day <- series day ;;
  let full_from_parts :=
    vand (vand (num_notna year) (num_notna month)) (num_notna day) in
  let dated_full := vor full_from_ev full_from_parts in
  let ev_parsed := to_datetime_col ev in
  let post2010 :=
    vor (List.map (fun t => dt_ge t T2010) ev_parsed)
        (num_ge (2010 # 1) year) in
  basis <- series basis ;;
  let b := List.map basis_bucket (fillna "Other" basis) in
  let valid :=
    vand (between (- (90 # 1)) (90 # 1) lat)
         (between (- (180 # 1)) (180 # 1) lon) in
  unc <- series unc ;;
  let unc2k := vand (num_notna unc) (num_le (2000 # 1) unc) in
  issues <- series issues ;;
  let gbad := List.map issue_flagged (List.map Str.upper (fillna "" issues)) in
  estm <- series estm ;;
  let captive :=
    List.map (fun s => Str.mem s CAPTIVE_MEANS)
             (List.map Str.lower (fillna "" estm)) in
  remarks <- series remarks ;;
  locality <- series locality ;;
  habitat <- series habitat ;;
  let blob := text_blob remarks locality habitat in
  let captive := vor captive (List.map (Re.search CAPTIVE_HINTS) blob) in
  mediaType <- series mediaType ;;
  assocMed <- series assocMed ;;
  let has_media_flag :=
    vor (ne_empty (fillna "" mediaType)) (ne_empty (fillna "" assocMed)) in
  Ok {| m_us := us_mask; m_dated_any := dated_any; m_dated_full := dated_full;
        m_post2010 := post2010; m_bucket := b; m_valid := valid;
        m_unc2k := unc2k; m_gbad := gbad; m_captive := captive;
        m_has_media := has_media_flag |}.

(** The body of [for chunk in read_table(f)] on the pair [(sp, overall)]. *)
Definition scan_chunk (chunk : DataFrame) (st : Counters * Counters)
  : result (Counters * Counters) :=
  let n := len chunk in
  let overall := add_total n (snd st) in
  let sp := add_total n (fst st) in
  m <- chunk_masks chunk ;;
  Ok (accumulate (m_us m) m sp, accumulate (m_us m) m overall).

Fixpoint scan_chunks (chunks : list DataFrame) (st : Counters * Counters)
  : result (Counters * Counters) :=
  match chunks with
  | [] => Ok st
  | chunk :: rest => st' <- scan_chunk chunk st ;; scan_chunks rest st'
  end.

(** [{k: (v.copy() if isinstance(v, dict) else 0) for k, v in overall.items()}]:
    the numbers start at 0, the nested dict is a copy of the one [overall]
    holds at that moment. *)
Definition new_species (overall : Counters) : Counters := {|
  total_records := 0; usa_records := 0; dated_any := 0; dated_full := 0;
  post_2010 := 0; basis_counts := basis_counts overall;
  captive_flagged := 0; valid_coords := 0; uncertainty_le_2km := 0;
  gbif_issue_flagged := 0; has_media := 0
|}.

(** The body of [for f in sorted(files)] on [(species_rows, overall)]. *)
Definition scan_file (f : SourceFile) (st : list SpeciesRow * Counters)
  : result (list SpeciesRow * Counters) :=
  let sid := Re.sub SOURCE_EXT "" (name f) in
  let sp := new_species (snd st) in
  chunks <- read_table f ;;
  st' <- scan_chunks chunks (sp, snd st) ;;
  Ok (fst st ++ [finalize sid (fst st')], snd st').

Fixpoint scan_files (files : list SourceFile) (st : list SpeciesRow * Counters)
  : result (list SpeciesRow * Counters) :=
  match files with
  | [] => Ok st
  | f :: rest => st' <- scan_file f st ;; scan_files rest st'
  end.

(** What [scan_tabular_files] returns: the bare empty list of its early
    [return []], or the pair [species_rows, overall]. *)
Inductive TabularResult : Type :=
| EmptyList
| Pair (species_rows : list SpeciesRow) (overall : Counters).

Definition is_source (f : SourceFile) : bool :=
  is_file f && Re.search SOURCE_EXT (name f).

Definition scan_tabular_files (dir : Directory) : result TabularResult :=
  match dir with
  | None => Ok EmptyList
  | Some entries =>
      let files := List.filter is_source entries in
      st <- scan_files
              (sorted_by (fun a b => path_leb (path a) (path b)) files)
              ([], overall_init 0) ;;
      Ok (Pair (fst st) (snd st))
  end.

(** ** The combined-workbook path *)

(** [OCC_DIR.glob("*.xlsx")]: the entries directly in the directory. *)
Definition is_workbook (f : SourceFile) : bool :=
  (List.length (path f) =? 1)%nat && Str.endswith (name f) ".xlsx".

Definition count_if {A} (p : A -> bool) (l : list A) : nat :=
  List.length (List.filter p l).

(** [score_excel]: the pair [(score, len(cols))]. *)
Definition score_excel (f : SourceFile) : Z * Z :=
  match read_error f with
  | Some _ => (-1, 0)%Z
  | None =>
      let cols := columns (workbook f) in
      let score := (5 * Z.of_nat (count_if (fun k => Str.mem k cols) DATE_PRIORITIES))%Z in
      let score := (score + Z.of_nat (count_if (Re.search DATE_REGEX) cols))%Z in
      let score :=
        (score + 2 * Z.of_nat
           (count_if (fun k => existsb (fun c => String.eqb (Str.lower c) k) cols)
                     ["year"; "month"; "day"]))%Z in
      (score, Z.of_nat (List.length cols))
  end.

(** Order of Python tuples of two integers. *)
Definition key_leb (a b : Z * Z) : bool :=
  (fst a <? fst b)%Z || ((fst a =? fst b)%Z && (snd a <=? snd b)%Z).

(** Two keys with the same score and the same column count. *)
Definition key_eqb (a b : Z * Z) : bool :=
  (fst a =? fst b)%Z && (snd a =? snd b)%Z.

(** [sorted(((score_excel(p), p) for p in excel_paths), key=lambda x: x[0], reverse=True)] *)
Definition rank (excel_paths : list SourceFile) : list ((Z * Z) * SourceFile) :=
  sorted_by (fun a b => key_leb (fst b) (fst a))
            (List.map (fun p => (score_excel p, p)) excel_paths).

(** Lines 258-260: the workbook that is loaded. *)
Definition select (ranked : list ((Z * Z) * SourceFile)) : option SourceFile :=
  match ranked with
  | [] => None
  | (k0, p0) :: rest =>
      match rest with
      | (k1, p1) :: _ =>
          if Str.endswith (name p0) "_clean.xlsx" && key_leb k0 k1
          then Some p1 else Some p0
      | [] => Some p0
      end
  end.

(** [col = {c.lower(): c for c in df.columns}] then [col.get(key)]: of
    the headers equal to [key] in lower case, the last one. *)
Fixpoint col_lookup (key : string) (cols : list string) : option string :=
  match cols with
  | [] => None
  | c :: cols' =>
      match col_lookup key cols' with
      | Some c' => Some c'
      | None => if String.eqb (Str.lower c) key then Some c else None
      end
  end.

(** [df[c]] for a header [c] of [df]. *)
Definition getitem (df : DataFrame) (c : string) : list cell :=
  match get df c with
  | Some s => s
  | None => repeat None (len df)
  end.

(** [getcol]: the first alias the header has, else a column of
    [None]. *)
Fixpoint getcol (df : DataFrame) (names : list string) : list cell :=
  match names with
  | [] => repeat None (len df)
  | n :: names' =>
      match col_lookup (Str.lower n) (columns df) with
      | Some c => getitem df c
      | None => getcol df names'
      end
  end.

(** The candidate date columns. *)
Definition candidates (df : DataFrame) : list string :=
  let cand := List.filter (fun k => Str.mem k (columns df)) DATE_PRIORITIES in
  fold_left
    (fun cand c =>
       if negb (Str.mem c cand) && Re.search DATE_REGEX c
       then cand ++ [c] else cand)
    (columns df) cand.

Definition EXCEL_EPOCH : Q := Timestamp 1899 12 30.

(** [base + pd.to_timedelta(num.where(serial_ok), unit="D")] on one cell. *)
Definition serial_date (x : float64) : datetime :=
  if fle (Fin (50 # 1)) x && fle x (Fin (60000 # 1))
  then match x with
       | Fin q => Some (EXCEL_EPOCH + q)%Q
       | _ => None
       end
  else None.

(** One candidate column [s]: text, then range start, then serial number. *)
Definition parse_candidate (s : list cell) : list datetime :=
  let parsed := to_datetime_col s in
  let needs_range :=
    vand (isna parsed) (List.map (Str.contains "/") (fillna "" s)) in
  let parsed :=
    if any needs_range
    then fill parsed
           (List.map to_datetime (List.map (Str.split_first "/") (fillna "" s)))
    else parsed in
  let serial_dt := List.map serial_date (to_numeric_col s) in
  fill parsed serial_dt.

(** The loop over the candidates, with its [break]. *)
Fixpoint resolve_dates (df : DataFrame) (cand : list string)
    (dt : list datetime) : list datetime :=
  match cand with
  | [] => dt
  | c :: cand' =>
      let dt := fill dt (parse_candidate (getitem df c)) in
      if all (notna dt) then dt else resolve_dates df cand' dt
  end.

Definition TEXT_COLUMNS : list string :=
  ["voucher"; "flag_detailed"; "issue"; "issues"; "locality"; "Remarks"; "remarks"].

(** [astype(str)] on a cell. *)
Definition astype_str (c : cell) : string :=
  match c with Some s => s | None => "nan" end.

(** [df[text_cols].astype(str).fillna("").agg(" ".join, axis=1)] *)
Definition joined_text (df : DataFrame) (text_cols : list string) : list string :=
  List.map
    (fun r =>
       Str.join " "
         (List.map
            (fun c => match index_of c (columns df) with
                      | Some j => astype_str (cell_at j r)
                      | None => "nan"
                      end)
            text_cols))
    (rows df).

(** [pd.to_datetime(year, format="%Y", utc=True)] on an extracted year. *)
Definition year_start (y : option string) : datetime :=
  match y with
  | Some s =>
      match digits_value 0 (Str.chars s) with
      | Some v => Some (Timestamp v 1 1)
      | None => None
      end
  | None => None
  end.

(** Lines 335-347: dates and years sniffed from free text. *)
Definition sniff_dates (df : DataFrame) (dt : list datetime) : list datetime :=
  if any (isna dt) then
    let text_cols := List.filter (has_column df) TEXT_COLUMNS in
    match text_cols with
    | [] => dt
    | _ =>
        let txt := joined_text df text_cols in
        let parsed_txt := List.map to_datetime txt in
        let years := List.map (Re.extract YEAR_IN_TEXT) txt in
        let year_dt := List.map year_start years in
        fill (fill dt parsed_txt) year_dt
    end
  else dt.

(** The resolved date column [dt] of a workbook. *)
Definition excel_dates (df : DataFrame) : list datetime :=
  sniff_dates df (resolve_dates df (candidates df) (repeat None (len df))).

(** [species_id]: the species text, stripped, runs of whitespace made [_]. *)
Definition excel_species_id (df : DataFrame) : list string :=
  List.map (fun s => Re.sub WHITESPACE_RUN "_" (Str.strip s))
    (fillna ""
       (getcol df ["final_species"; "taxonomy_updated_species"; "scientific_name";
                   "ScientificName"; "species"; "Species"])).

(** Lines 275-360 of [scan_excel_combined]: the columns of the workbook,
    as they are computed when no line raises.  On a workbook without
    data rows lines 356-358 can raise; [scan_excel_combined] below tests
    for that with [empty_fallback_error] before it uses the columns. *)
Definition excel_masks (df : DataFrame) : Masks :=
  let country := getcol df ["country"; "countryCode"] in
  let lat := to_numeric_col (getcol df ["decimalLatitude"; "latitude"]) in
  let lon := to_numeric_col (getcol df ["decimalLongitude"; "longitude"]) in
  let year := to_numeric_col (getcol df ["year"]) in
  let month := to_numeric_col (getcol df ["month"]) in
  let day := to_numeric_col (getcol df ["day"]) in
  let basis := getcol df ["basisOfRecord"; "source"; "Source"; "datasetName"; "Dataset"] in
  let estm := getcol df ["establishmentMeans"] in
  let issues := getcol df ["issues"; "issue"] in
  let mediaType := getcol df ["mediaType"; "associatedMedia"] in
  let remarks := getcol df ["occurrenceRemarks"; "remarks"; "Remarks"] in
  let locality := getcol df ["locality"; "Locality"] in
  let habitat := getcol df ["habitat"; "Habitat"] in
  let unc := to_numeric_col (getcol df ["coordinateUncertaintyInMeters"; "accuracy_m"]) in
  let us_mask :=
    vor (isin US_COUNTRY_TOKENS country)
        (vand (between (18 # 1) (72 # 1) lat)
              (between (- (359 # 2)) (- (66 # 1)) lon)) in
  let dt := excel_dates df in
  let dated_any := vor (notna dt) (num_notna year) in
  let full_from_parts :=
    vand (vand (num_notna year) (num_notna month)) (num_notna day) in
  let dated_full := vor (notna dt) full_from_parts in
  let post2010 :=
    vor (List.map (fun t => dt_ge t T2010) dt) (num_ge (2010 # 1) year) in
  let b := List.map basis_bucket (fillna "Other" basis) in
  let valid :=
    vand (between (- (90 # 1)) (90 # 1) lat)
         (between (- (180 # 1)) (180 # 1) lon) in
  let unc2k := vand (num_notna unc) (num_le (2000 # 1) unc) in
  let gbad := List.map issue_flagged (List.map Str.upper (fillna "" issues)) in
  let captive :=
    List.map (fun s => Str.mem s CAPTIVE_MEANS)
             (List.map Str.lower (fillna "" estm)) in
  let blob := text_blob remarks locality habitat in
  let captive := vor captive (List.map (Re.search CAPTIVE_HINTS) blob) in
  let has_media_flag := ne_empty (fillna "" mediaType) in
  {| m_us := us_mask; m_dated_any := dated_any; m_dated_full := dated_full;
     m_post2010 := post2010; m_bucket := b; m_valid := valid;
     m_unc2k := unc2k; m_gbad := gbad; m_captive := captive;
     m_has_media := has_media_flag |}.

(** The keys of [grouped.groups]: the distinct species, in order. *)
Definition group_keys (ids : list string) : list string :=
  sorted_by String.leb (nodup string_dec ids).

(** The body of the loop over the groups: the row of one species. *)
Definition excel_species_row (m : Masks) (ids : list string) (sid : string)
  : SpeciesRow :=
  let i := List.map (fun x => String.eqb x sid) ids in
  let us := vand (m_us m) i in
  finalize sid (accumulate us m (overall_init (vsum i))).

(** Lines 261-406 on the loaded workbook, when no line raises. *)
Definition scan_workbook (df : DataFrame) : list SpeciesRow * Counters :=
  let m := excel_masks df in
  let ids := excel_species_id df in
  let overall := accumulate (m_us m) m (overall_init (len df)) in
  (List.map (excel_species_row m ids) (group_keys ids), overall).

(** No alias of [names] is a header: [getcol] gives its fallback
    [pd.Series([None]*len(df))]. *)
Definition falls_back (df : DataFrame) (names : list string) : bool :=
  forallb
    (fun n =>
       match col_lookup (Str.lower n) (columns df) with
       | Some _ => false
       | None => true
       end)
    names.

(** Lines 356-358 on a workbook without data rows.  The fallback of
    [getcol] is then [pd.Series([])], which pandas 1.x makes a float64
    Series: it has no [.str] accessor ([issues], line 356, and [estm],
    line 357, raise AttributeError) and a text cannot be added to it
    ([remarks], line 358, raises TypeError).  A column the workbook has
    holds texts, also when it is empty, and a fallback of one row or
    more holds [None] objects, which [fillna] makes texts. *)
Definition empty_fallback_error (df : DataFrame) : option exn :=
  match rows df with
  | _ :: _ => None
  | [] =>
      if falls_back df ["issues"; "issue"] then Some AttributeError
      else if falls_back df ["establishmentMeans"] then Some AttributeError
      else if falls_back df ["occurrenceRemarks"; "remarks"; "Remarks"]
           then Some TypeError
      else None
  end.

Definition scan_excel_combined (dir : list SourceFile)
  : result (list SpeciesRow * option Counters) :=
  let excel_paths := List.filter is_workbook dir in
  match select (rank excel_paths) with
  | None => Ok ([], None)
  | Some p =>
      match read_error p with
      | Some e => Raise e
      | None =>
          match empty_fallback_error (workbook p) with
          | Some e => Raise e
          | None =>
              let r := scan_workbook (workbook p) in
              Ok (fst r, Some (snd r))
          end
      end
  end.

(** ** The dispatcher *)

(** What a run leaves behind: nothing but the message that no occurrence
    file was found, or the two result files. *)
Inductive Outcome : Type :=
| NoInput
| Wrote (by_species : list SpeciesRow) (overall : Counters).

(** [rows, overall = scan_tabular_files()] *)
Definition unpack (r : TabularResult) : result (list SpeciesRow * Counters) :=
  match r with
  | EmptyList => Raise ValueError
  | Pair species_rows overall => Ok (species_rows, overall)
  end.

Definition sort_values (rows : list SpeciesRow) : list SpeciesRow :=
  sorted_by (fun a b => String.leb (species_id a) (species_id b)) rows.

Definition main (dir : Directory) : result Outcome :=
  r <- scan_tabular_files dir ;;
  ro <- unpack r ;;
  match fst ro with
  | _ :: _ => Ok (Wrote (sort_values (fst ro)) (snd ro))
  | [] =>
      ro <- scan_excel_combined (match dir with Some l => l | None => [] end) ;;
      match snd ro with
      | None => Ok NoInput
      | Some overall => Ok (Wrote (sort_values (fst ro)) overall)
      end
  end.

(** ** The classification of one record

    The flags of one record, read off the column expressions above: the
    columns of [chunk_masks] and [excel_masks] are these functions applied
    to every row (shown below). *)

Record Flags : Type := {
  inUS : bool;
  hasAnyDate : bool;
  hasFullDate : bool;
  isPost2010 : bool;
  basisBucket : string;
  validCoordinates : bool;
  uncertaintyWithin2km : bool;
  hasQualityIssue : bool;
  isCaptiveOrigin : bool;
  hasMedia : bool
}.

Definition masks_of (l : list Flags) : Masks := {|
  m_us := List.map inUS l;
  m_dated_any := List.map hasAnyDate l;
  m_dated_full := List.map hasFullDate l;
  m_post2010 := List.map isPost2010 l;
  m_bucket := List.map basisBucket l;
  m_valid := List.map validCoordinates l;
  m_unc2k := List.map uncertaintyWithin2km l;
  m_gbad := List.map hasQualityIssue l;
  m_captive := List.map isCaptiveOrigin l;
  m_has_media := List.map hasMedia l
|}.

(** The cell of row [r] under the header [name]. *)
Definition field (df : DataFrame) (r : list cell) (name : string) : cell :=
  match index_of name (columns df) with
  | Some j => cell_at j r
  | None => None
  end.

(** The cell of row [r] that [getcol] resolves for a list of aliases. *)
Fixpoint alias (df : DataFrame) (r : list cell) (names : list string) : cell :=
  match names with
  | [] => None
  | n :: names' =>
      match col_lookup (Str.lower n) (columns df) with
      | Some c => field df r c
      | None => alias df r names'
      end
  end.

Definition text_or (v : string) (c : cell) : string :=
  match c with Some x => x | None => v end.

Definition us_token (c : cell) : bool :=
  match c with Some x => Str.mem x US_COUNTRY_TOKENS | None => false end.

Definition within (lo hi : Q) (x : float64) : bool :=
  fle (Fin lo) x && fle x (Fin hi).

Definition known (x : float64) : bool := negb (is_nan x).

Definition resolved (t : datetime) : bool :=
  match t with Some _ => true | None => false end.

Definition blob_of (remarks locality habitat : cell) : string :=
  String.append
    (String.append
       (String.append (String.append (text_or "" remarks) " ")
                      (text_or "" locality)) " ")
    (text_or "" habitat).

Definition captive_of (estm remarks locality habitat : cell) : bool :=
  Str.mem (Str.lower (text_or "" estm)) CAPTIVE_MEANS ||
  Re.search CAPTIVE_HINTS (blob_of remarks locality habitat).

(** One record of the streaming path; [f] gives its cell under a header. *)
Definition stream_flags (f : string -> cell) : Flags :=
  let lat := numeric_cell (f "decimalLatitude") in
  let lon := numeric_cell (f "decimalLongitude") in
  let year := numeric_cell (f "year") in
  let month := numeric_cell (f "month") in
  let day := numeric_cell (f "day") in
  let unc := numeric_cell (f "coordinateUncertaintyInMeters") in
  let ev := f "eventDate" in {|
    inUS :=
      (us_token (f "countryCode") || us_token (f "country")) ||
      (within (18 # 1) (72 # 1) lat && within (- (359 # 2)) (- (66 # 1)) lon);
    hasAnyDate :=
      negb (String.eqb (Str.strip (text_or "" ev)) "") || known year;
    hasFullDate :=
      resolved (datetime_cell ev) || (known year && known month && known day);
    isPost2010 := dt_ge (datetime_cell ev) T2010 || fle (Fin (2010 # 1)) year;
    basisBucket := basis_bucket (text_or "Other" (f "basisOfRecord"));
    validCoordinates :=
      within (- (90 # 1)) (90 # 1) lat && within (- (180 # 1)) (180 # 1) lon;
    uncertaintyWithin2km := known unc && fle unc (Fin (2000 # 1));
    hasQualityIssue := issue_flagged (Str.upper (text_or "" (f "issues")));
    isCaptiveOrigin :=
      captive_of (f "establishmentMeans") (f "occurrenceRemarks")
                 (f "locality") (f "habitat");
    hasMedia :=
      negb (String.eqb (text_or "" (f "mediaType")) "") ||
      negb (String.eqb (text_or "" (f "associatedMedia")) "")
  |}.

(** One record of the workbook path; [g] gives its cell under a list of
    aliases, [dt] is the date resolved for it. *)
Definition excel_flags (g : list string -> cell) (dt : datetime) : Flags :=
  let lat := numeric_cell (g ["decimalLatitude"; "latitude"]) in
  let lon := numeric_cell (g ["decimalLongitude"; "longitude"]) in
  let year := numeric_cell (g ["year"]) in
  let month := numeric_cell (g ["month"]) in
  let day := numeric_cell (g ["day"]) in
  let unc := numeric_cell (g ["coordinateUncertaintyInMeters"; "accuracy_m"]) in {|
    inUS :=
      us_token (g ["country"; "countryCode"]) ||
      (within (18 # 1) (72 # 1) lat && within (- (359 # 2)) (- (66 # 1)) lon);
    hasAnyDate := resolved dt || known year;
    hasFullDate := resolved dt || (known year && known month && known day);
    isPost2010 := dt_ge dt T2010 || fle (Fin (2010 # 1)) year;
    basisBucket :=
      basis_bucket
        (text_or "Other"
           (g ["basisOfRecord"; "source"; "Source"; "datasetName"; "Dataset"]));
    validCoordinates :=
      within (- (90 # 1)) (90 # 1) lat && within (- (180 # 1)) (180 # 1) lon;
    uncertaintyWithin2km := known unc && fle unc (Fin (2000 # 1));
    hasQualityIssue := issue_flagged (Str.upper (text_or "" (g ["issues"; "issue"])));
    isCaptiveOrigin :=
      captive_of (g ["establishmentMeans"])
                 (g ["occurrenceRemarks"; "remarks"; "Remarks"])
                 (g ["locality"; "Locality"]) (g ["habitat"; "Habitat"]);
    hasMedia := negb (String.eqb (text_or "" (g ["mediaType"; "associatedMedia"])) "")
  |}.

(** The rows of a workbook, each with the date resolved for it. *)
Definition dated_rows (df : DataFrame) : list (datetime * list cell) :=
  combine (excel_dates df) (rows df).

(** ** One table read by both paths *)

(** A table under the seventeen headers of the streaming path: it can be
    a batch of a per-species file and it can be the combined workbook. *)
Definition stream_table (rows : list (list cell)) : DataFrame :=
  {| columns := STREAM_COLUMNS; rows := rows |}.



End Scan.

(** ** Sample parsers

    Two small instances of the parameters, used to run the scanner on
    concrete tables: plain decimal numerals ([-12.5]) and ISO calendar
    dates ([2015-06-01]); every other text is NaN, respectively NaT, as
    under [errors="coerce"]. *)

Module Sample.

Fixpoint pow10 (n : nat) : Z :=
  match n with O => 1%Z | S n' => (10 * pow10 n')%Z end.

Definition unsigned_decimal (l : list ascii) : float64 :=
  let int_part := Str.before_chars "." l in
  let frac_part := skipn (S (List.length int_part)) l in
  match int_part with
  | [] => NaN
  | _ =>
      match digits_value 0 int_part, digits_value 0 frac_part with
      | Some i, Some f =>
          Fin (inject_Z i +
               inject_Z f / inject_Z (pow10 (List.length frac_part)))%Q
      | _, _ => NaN
      end
  end.

Definition to_numeric (s : string) : float64 :=
  match Str.chars s with
  | "-"%char :: l =>
      match unsigned_decimal l with
      | Fin q => Fin (- q)%Q
      | x => x
      end
  | l => unsigned_decimal l
  end.

Definition to_datetime (s : string) : datetime :=
  match Str.chars s with
  | [y1; y2; y3; y4; "-"%char; m1; m2; "-"%char; d1; d2] =>
      match digits_value 0 [y1; y2; y3; y4],
            digits_value 0 [m1; m2], digits_value 0 [d1; d2] with
      | Some y, Some m, Some d =>
          if ((1 <=? m) && (m <=? 12) && (1 <=? d) && (d <=? 31))%Z
          then Some (Timestamp y m d) else None
      | _, _, _ => None
      end
  | _ => None
  end.

End Sample.

(** ** The record in row [i] of the columns *)

(** Entry [i] of every column of [m] is the flag of [fl]. *)
Definition row_of (m : Masks) (i : nat) (fl : Flags) : Prop :=
  nth_error (m_us m) i = Some (inUS fl) /\
  nth_error (m_dated_any m) i = Some (hasAnyDate fl) /\
  nth_error (m_dated_full m) i = Some (hasFullDate fl) /\
  nth_error (m_post2010 m) i = Some (isPost2010 fl) /\
  nth_error (m_bucket m) i = Some (basisBucket fl) /\
  nth_error (m_valid m) i = Some (validCoordinates fl) /\
  nth_error (m_unc2k m) i = Some (uncertaintyWithin2km fl) /\
  nth_error (m_gbad m) i = Some (hasQualityIssue fl) /\
  nth_error (m_captive m) i = Some (isCaptiveOrigin fl) /\
  nth_error (m_has_media m) i = Some (hasMedia fl).

(** ** The specification's reading of the flags *)

Module Spec.

(** A value that lies in the closed interval [[lo, hi]]. *)
Definition in_interval (lo hi : Q) (x : float64) : Prop :=
  exists q, x = Fin q /\ (lo <= q)%Q /\ (q <= hi)%Q.

(** A country field that matches the set of US tokens. *)
Definition US_token (c : cell) : Prop :=
  exists x, c = Some x /\ In x US_COUNTRY_TOKENS.

(** Geographic membership: the country code or the country name is a US
    token, or latitude lies in [18.0, 72.0] and longitude in
    [-179.5, -66.0]. *)
Definition InUS (code name : cell) (lat lon : float64) : Prop :=
  US_token code \/ US_token name \/
  (in_interval (18 # 1) (72 # 1) lat /\
   in_interval (- (359 # 2)) (- (66 # 1)) lon).

(** A header that is the alias [n] when case is ignored. *)
Definition same_ignoring_case (n c : string) : bool :=
  String.eqb (Str.lower c) (Str.lower n).

(** The header the workbook path reads for a field: of the first alias
    that some header equals when case is ignored, the last such
    header. *)
Fixpoint resolved_header (cols names : list string) : option string :=
  match names with
  | [] => None
  | n :: names' =>
      match rev (List.filter (same_ignoring_case n) cols) with
      | h :: _ => Some h
      | [] => resolved_header cols names'
      end
  end.

(** The value of a record in that column; missing when no alias is a
    header. *)
Definition resolved_cell (df : DataFrame) (r : list cell) (names : list string)
  : cell :=
  match resolved_header (columns df) names with
  | Some h => field df r h
  | None => None
  end.

(** Geographic membership in the workbook path: the one country column
    that is resolved holds a US token, or the coordinates lie in the
    box. *)
Definition InUS_workbook (country : cell) (lat lon : float64) : Prop :=
  US_token country \/
  (in_interval (18 # 1) (72 # 1) lat /\
   in_interval (- (359 # 2)) (- (66 # 1)) lon).

(** The five US-scoped counters behind the percentages stay within
    [usa_records]. *)
Definition us_scoped (c : Counters) : Prop :=
  dated_any c <= usa_records c /\ dated_full c <= usa_records c /\
  post_2010 c <= usa_records c /\ uncertainty_le_2km c <= usa_records c /\
  captive_flagged c <= usa_records c.

(** The exact quotient [count / max(usa_records, 1)]. *)
Definition quotient (count usa : nat) : Q :=
  (inject_Z (Z.of_nat count) / inject_Z (Z.of_nat (Nat.max usa 1)))%Q.

(** The five percentage fields of a row, each with its counter. *)
Definition percentages (row : SpeciesRow) : list (Q * nat) :=
  [(pct_dated_any row, dated_any (counts row));
   (pct_dated_full row, dated_full (counts row));
   (pct_post_2010 row, post_2010 (counts row));
   (pct_uncertainty_le_2km row, uncertainty_le_2km (counts row));
   (pct_captive_flagged row, captive_flagged (counts row))].

(** A percentage field: the float64 of the quotient rounded to four
    decimal places; within 0.00005 and the rounding of the float64
    ([2 ** -53] at most) of the quotient, in [0, 1], and 0 when there is
    no US record. *)
Definition rounded_percentage (usa : nat) (field : Q * nat) : Prop :=
  fst field = round4 (float64_of (quotient (snd field) usa)) /\
  (Qabs (fst field - quotient (snd field) usa) <= (1 # 20000) + 2 ^ (-53))%Q /\
  (0 <= fst field)%Q /\ (fst field <= 1)%Q /\
  (usa = 0 -> (fst field == 0)%Q).

Definition finalized (row : SpeciesRow) : Prop :=
  Forall (rounded_percentage (usa_records (counts row))) (percentages row).

End Spec.

(** ** Sample tables *)

Module Example.

(** A readable file with the given name and table. *)
Definition file (name : string) (table : DataFrame) : SourceFile := {|
  path := [name]; is_file := true; read_error := None; text_lines := [];
  delimited := fun _ => table; workbook := table
|}.

(** A file that cannot be opened. *)
Definition locked (name : string) : SourceFile := {|
  path := [name]; is_file := true; read_error := Some OSError; text_lines := [];
  delimited := fun _ => {| columns := []; rows := [] |};
  workbook := {| columns := []; rows := [] |}
|}.

(** A table with the seventeen headers of the streaming path. *)
Definition table (rows : list (list cell)) : DataFrame := stream_table rows.

(** A record with a country code and an event date, all else missing. *)
Definition record (countryCode eventDate : cell) : list cell :=
  [countryCode; None; None; None; eventDate; None; None; None; None; None;
   None; None; None; None; None; None; None].

(** A record located by coordinates only. *)
Definition located (lat lon : string) : list cell :=
  [None; None; Some lat; Some lon; None; None; None; None; None; None;
   None; None; None; None; None; None; None].

(** A US record with a basis of record and a year. *)
Definition observed (basis : string) (year : cell) : list cell :=
  [Some "US"; None; None; None; None; year; None; None; Some basis; None;
   None; None; None; None; None; None; None].

(** A table that lacks the [countryCode] header. *)
Definition no_country_code : DataFrame :=
  {| columns := ["eventDate"; "year"]; rows := [[Some "2015-06-01"; Some "2015"]] |}.

(** A record with a country name and an event date, all else missing. *)
Definition named (country eventDate : cell) : list cell :=
  [None; country; None; None; eventDate; None; None; None; None; None;
   None; None; None; None; None; None; None].



(** A directory of two species files: one US record, then an empty table. *)
Definition two_species : Directory :=
  Some [file "a.csv" (table [observed "HumanObservation" None]);
        file "b.csv" (table [])].

(** A species with three US records, one of them with a year. *)
Definition three_records : Directory :=
  Some [file "a.csv" (table [observed "HumanObservation" (Some "2015");
                             observed "HumanObservation" None;
                             observed "HumanObservation" None])].

(** A readable file followed by one that cannot be opened. *)
Definition one_locked : Directory :=
  Some [file "a.csv" (table [observed "HumanObservation" None]); locked "b.csv"].

(** A workbook whose only date information is a year in its remarks. *)
Definition year_in_remarks : DataFrame :=
  {| columns := ["species"; "remarks"];
     rows := [[Some "Crotalus atrox"; Some "seen 1987"]] |}.

(** A workbook whose date column holds a serial number. *)
Definition serial_workbook : DataFrame :=
  {| columns := ["species"; "eventDate"];
     rows := [[Some "Crotalus atrox"; Some "42370"]] |}.

(** Three records: country US without coordinates, and two without
    country at (40.0, -75.0) and at (40.0, 10.0). *)
Definition three_places : DataFrame :=
  table [record (Some "US") None; located "40.0" "-75.0"; located "40.0" "10.0"].

(** Two workbooks with the same score; the cleaned one has one more column. *)
Definition cleaned_workbook : SourceFile :=
  file "records_clean.xlsx" {| columns := ["eventDate"; "flag"]; rows := [] |}.
Definition raw_workbook : SourceFile :=
  file "records.xlsx" {| columns := ["eventDate"]; rows := [] |}.

(** Three workbooks with the same header, two of them cleaned. *)
Definition three_workbooks : list SourceFile :=
  [file "x_clean.xlsx" {| columns := ["eventDate"]; rows := [] |};
   file "y_clean.xlsx" {| columns := ["eventDate"]; rows := [] |};
   file "z.xlsx" {| columns := ["eventDate"]; rows := [] |}].

End Example.

(** ** Sums over the species rows *)

(** [sum(row[k] for row in rows)] for one counter [k]. *)
Definition sum_rows (f : Counters -> nat) (rows : list SpeciesRow) : nat :=
  fold_right (fun row acc => f (counts row) + acc) 0 rows.

(** The eight flag counters, which are scoped to the US records. *)
Definition US_COUNTERS : list (Counters -> nat) :=
  [dated_any; dated_full; post_2010; captive_flagged; valid_coords;
   uncertainty_le_2km; gbif_issue_flagged; has_media].

(** A dict whose US records are among its records and whose flag
    counters are among its US records. *)
Definition within_totals (c : Counters) : Prop :=
  usa_records c <= total_records c /\
  Forall (fun f => f c <= usa_records c) US_COUNTERS.

(** The numeric counters of the dict. *)
Definition NUMBERS : list (Counters -> nat) :=
  [total_records; usa_records; dated_any; dated_full; post_2010;
   captive_flagged; valid_coords; uncertainty_le_2km; gbif_issue_flagged;
   has_media].

(** What a batch that has its columns adds to a counter dict: its
    records, counted through their flags. *)
Definition count_flags (fl : list Flags) (c : Counters) : Counters :=
  accumulate (List.map inUS fl) (masks_of fl) (add_total (List.length fl) c).

(** The extensions that [SOURCE_EXT] spells, in lower case. *)
Definition EXTENSIONS : list string :=
  [".csv"; ".tsv"; ".txt"; ".ndjson";
   ".csv.gz"; ".tsv.gz"; ".txt.gz"; ".ndjson.gz"].

(** A text without a full stop. *)
Definition no_dot (s : string) : bool :=
  forallb (fun c => negb (Ascii.eqb c ".")) (Str.chars s).

(** The rows [json_normalize] makes of a line. *)
Definition line_records (l : NdLine) : nat :=
  match l with
  | Object _ _ => 1
  | Array _ records => List.length records
  | Blank | Malformed => 0
  end.

(** The records of a line-delimited file. *)
Definition records_in (lines : list NdLine) : nat :=
  list_sum (List.map line_records lines).


(** ** The row-level helpers

    A value [row.get(key)] can give for a row read with [dtype=str]:
    [None] when the row has no such key, the float nan, or a text. *)
Inductive value : Type :=
| Absent
| NaNValue
| Text (s : string).

(** [str(v or "")]: nan is truthy and prints as [nan]. *)
Definition str_or_empty (v : value) : string :=
  match v with
  | Absent => ""
  | NaNValue => "nan"
  | Text s => s
  end.

(** [gbif_issue_flagged(row)] (the name without suffix is the counter). *)
Definition gbif_issue_flagged_row (row : string -> value) : bool :=
  issue_flagged (Str.upper (str_or_empty (row "issues"))).

(** [pd.notna(v)] *)
Definition notna_value (v : value) : bool :=
  match v with Text _ => true | _ => false end.

(** [has_any_date(row)] *)
Definition has_any_date (row : string -> value) : bool :=
  negb (String.eqb (Str.strip (str_or_empty (row "eventDate"))) "") ||
  notna_value (row "year").

(** The cell a column read with [dtype=str] holds for a value. *)
Definition cell_of (v : value) : cell :=
  match v with Text s => Some s | _ => None end.

(** A text in which every run of whitespace has become one underscore;
    [in_run] says that the character before was whitespace. *)
Fixpoint underscored (in_run : bool) (l : list ascii) : list ascii :=
  match l with
  | [] => []
  | c :: l' =>
      if Str.is_space c
      then if in_run then underscored true l'
           else "_"%char :: underscored true l'
      else c :: underscored false l'
  end.

(** The species text of the records of a workbook, missing made empty. *)
Definition species_text (df : DataFrame) : list string :=
  fillna ""
    (getcol df ["final_species"; "taxonomy_updated_species"; "scientific_name";
                "ScientificName"; "species"; "Species"]).

(** A text without whitespace. *)
Definition no_space (l : list ascii) : bool :=
  forallb (fun c => negb (Str.is_space c)) l.

(** A row whose percentages of fully dated and of recent records are at
    most its percentage of dated records. *)
Definition percentages_nested (row : SpeciesRow) : Prop :=
  (pct_dated_full row <= pct_dated_any row)%Q /\
  (pct_post_2010 row <= pct_dated_any row)%Q.

(** A dict in which the fully dated and the recent US records are among
    the dated ones. *)
Definition dates_nested (c : Counters) : Prop :=
  dated_full c <= dated_any c /\ post_2010 c <= dated_any c.

(** The same of the flags of one record. *)
Definition dated_if_full_or_recent (fl : Flags) : Prop :=
  (hasFullDate fl = true -> hasAnyDate fl = true) /\
  (isPost2010 fl = true -> hasAnyDate fl = true).

(** * Properties *)

(** ** Columns of one table *)

Lemma zipw_map {A B C X} (f : A -> B -> C) (g : X -> A) (h : X -> B) (l : list X) :
  zipw f (List.map g l) (List.map h l) = List.map (fun x => f (g x) (h x)) l.
Proof.
  unfold zipw. induction l as [|x l IH]; simpl; [reflexivity|].
  now rewrite IH.
Qed.

Lemma zipw_length {A B C} (f : A -> B -> C) (a : list A) (b : list B) :
  List.length a = List.length b -> List.length (zipw f a b) = List.length a.
Proof.
  intros H. unfold zipw. rewrite length_map, length_combine, <- H.
  apply Nat.min_id.
Qed.

Lemma zipw_nth_error {A B C} (f : A -> B -> C) (a : list A) (b : list B) i x y :
  nth_error a i = Some x -> nth_error b i = Some y ->
  nth_error (zipw f a b) i = Some (f x y).
Proof.
  revert b i. induction a as [|a0 a IH]; intros [|b0 b] [|i]; simpl;
    try discriminate.
  - intros [= ->] [= ->]. reflexivity.
  - intros Ha Hb. apply (IH b i Ha Hb).
Qed.

(** [fill] keeps what is already resolved. *)
Lemma fill_nth_error_some {A} (s other : list (option A)) i x :
  List.length s = List.length other ->
  nth_error s i = Some (Some x) -> nth_error (fill s other) i = Some (Some x).
Proof.
  intros Hlen Hs.
  destruct (nth_error other i) as [y|] eqn:Ho.
  - unfold fill. now rewrite (zipw_nth_error _ _ _ _ Hs Ho).
  - apply nth_error_None in Ho.
    assert (i < List.length s) by (apply nth_error_Some; congruence). lia.
Qed.

Lemma fill_nth_error_none {A} (s other : list (option A)) i y :
  nth_error s i = Some None -> nth_error other i = Some y ->
  nth_error (fill s other) i = Some y.
Proof.
  intros Hs Ho. unfold fill. now rewrite (zipw_nth_error _ _ _ _ Hs Ho).
Qed.

Lemma fill_length {A} (s other : list (option A)) :
  List.length s = List.length other -> List.length (fill s other) = List.length s.
Proof. apply zipw_length. Qed.

Lemma repeat_as_map {A B} (x : B) (l : list A) :
  repeat x (List.length l) = List.map (fun _ => x) l.
Proof. induction l; simpl; congruence. Qed.

(** A column taken by name is the field of every row. *)
Lemma get_as_map (df : DataFrame) (name : string) (s : list cell) :
  get df name = Some s -> s = List.map (fun r => field df r name) (rows df).
Proof.
  unfold get, field, column_at.
  destruct (index_of name (columns df)); simpl; [|discriminate].
  now intros [= <-].
Qed.

Lemma getitem_as_map (df : DataFrame) (c : string) :
  getitem df c = List.map (fun r => field df r c) (rows df).
Proof.
  unfold getitem, get, field, column_at, len.
  destruct (index_of c (columns df)); simpl; [reflexivity|].
  apply repeat_as_map.
Qed.

Lemma getcol_as_map (df : DataFrame) (names : list string) :
  getcol df names = List.map (fun r => alias df r names) (rows df).
Proof.
  induction names as [|n names IH]; simpl.
  - apply repeat_as_map.
  - destruct (col_lookup (Str.lower n) (columns df)); [apply getitem_as_map|exact IH].
Qed.

Lemma getitem_length (df : DataFrame) (c : string) :
  List.length (getitem df c) = len df.
Proof. rewrite getitem_as_map. apply length_map. Qed.

Lemma vsum_vand_le (flag us : list bool) : vsum (vand flag us) <= vsum us.
Proof.
  unfold vsum, vand, zipw. revert us.
  induction flag as [|b flag IH]; intros [|u us]; simpl; try lia.
  specialize (IH us). destruct b, u; simpl; lia.
Qed.

(** ** The columns are the record flags of every row *)

Section Rows.

Variable N : string -> float64.   (* pd.to_numeric *)
Variable P : string -> datetime.  (* pd.to_datetime *)

Ltac columns_to_rows :=
  cbv beta zeta delta
    [vor vand isin between ne_empty fillna num_notna num_ge num_le notna
     text_blob to_numeric_col to_datetime_col];
  repeat (rewrite ?map_map, ?zipw_map).

Lemma chunk_masks_rows (chunk : DataFrame) (m : Masks) :
  chunk_masks N P chunk = Ok m ->
  m = masks_of (List.map (fun r => stream_flags N P (field chunk r)) (rows chunk)).
Proof.
  unfold chunk_masks, get_numeric, series, call.
  repeat match goal with
         | |- context [get chunk ?n] =>
             let E := fresh "E" in
             destruct (get chunk n) eqn:E; cbn [Py.bind option_map];
             [apply get_as_map in E; subst|discriminate]
         end.
  intros [= <-]. unfold masks_of.
  f_equal; columns_to_rows; apply map_ext; intros r; reflexivity.
Qed.

Lemma map_fst_combine {A B} (a : list A) (b : list B) :
  List.length a = List.length b -> List.map fst (combine a b) = a.
Proof.
  revert b. induction a as [|x a IH]; intros [|y b]; simpl; try discriminate;
    [reflexivity|].
  intros [= H]. now rewrite IH.
Qed.

Lemma map_snd_combine {A B} (a : list A) (b : list B) :
  List.length a = List.length b -> List.map snd (combine a b) = b.
Proof.
  revert b. induction a as [|x a IH]; intros [|y b]; simpl; try discriminate;
    [reflexivity|].
  intros [= H]. now rewrite IH.
Qed.

Lemma parse_candidate_length (s : list cell) :
  List.length (parse_candidate N P s) = List.length s.
Proof.
  unfold parse_candidate, to_numeric_col, to_datetime_col, fillna.
  cbv zeta. unfold datetime.
  destruct (any _); repeat (rewrite ?fill_length, ?length_map; try reflexivity).
Qed.

Lemma resolve_dates_length (df : DataFrame) (cand : list string) (dt : list datetime) :
  List.length dt = len df ->
  List.length (resolve_dates N P df cand dt) = len df.
Proof.
  revert dt. induction cand as [|c cand IH]; intros dt Hdt; simpl; [exact Hdt|].
  assert (List.length (fill dt (parse_candidate N P (getitem df c))) = len df) as H.
  { unfold datetime in *. rewrite fill_length; [exact Hdt|].
    now rewrite parse_candidate_length, getitem_length. }
  destruct (all _); [exact H|apply IH, H].
Qed.

Lemma sniff_dates_length (df : DataFrame) (dt : list datetime) :
  List.length dt = len df -> List.length (sniff_dates P df dt) = len df.
Proof.
  intros Hdt. unfold sniff_dates.
  destruct (any _); [|exact Hdt].
  destruct (List.filter _ _); [exact Hdt|].
  unfold joined_text. cbv zeta. unfold datetime in *.
  repeat (rewrite ?fill_length, ?length_map; try exact Hdt; try reflexivity).
Qed.

Lemma excel_dates_length (df : DataFrame) :
  List.length (excel_dates N P df) = len df.
Proof.
  unfold excel_dates. apply sniff_dates_length, resolve_dates_length, repeat_length.
Qed.

Lemma excel_masks_rows (df : DataFrame) :
  excel_masks N P df =
  masks_of (List.map (fun p => excel_flags N (alias df (snd p)) (fst p))
                     (dated_rows N P df)).
Proof.
  unfold excel_masks, dated_rows. rewrite !getcol_as_map.
  pose proof (excel_dates_length df) as Hlen. unfold len in Hlen.
  pose proof (map_fst_combine _ _ Hlen) as Hd.
  pose proof (map_snd_combine _ _ Hlen) as Hr.
  remember (combine (excel_dates N P df) (rows df)) as L eqn:HL.
  clear HL Hlen. rewrite <- Hd, <- Hr. clear Hd Hr.
  unfold masks_of.
  f_equal; columns_to_rows; apply map_ext; intros r; reflexivity.
Qed.

End Rows.

(** ** Missing input, missing columns, unreadable files *)

Section Failures.

Variable N : string -> float64.   (* pd.to_numeric *)
Variable P : string -> datetime.  (* pd.to_datetime *)

(** An existing directory without source files and without workbooks
    ends in the message that no occurrence file was found. *)
Lemma main_no_files (entries : list SourceFile) :
  List.filter is_source entries = [] ->
  List.filter is_workbook entries = [] ->
  main N P (Some entries) = Ok NoInput.
Proof.
  intros Hs Hw. unfold main, scan_tabular_files, scan_excel_combined.
  rewrite Hs, Hw. reflexivity.
Qed.

(** C4 (code defect): when the occurrence directory does not exist,
    [scan_tabular_files] returns the bare list [[]] and the unpacking
    [rows, overall = scan_tabular_files()] in [main] raises ValueError:
    the run does not end with the empty-result message. *)
Theorem main_without_directory_raises :
  scan_tabular_files N P None = Ok EmptyList /\
  unpack EmptyList = Raise ValueError /\
  main N P None = Raise ValueError.
Proof. repeat split. Qed.

(** C2 (code defect): in the streaming path a batch whose header lacks
    one of the seventeen headers makes [chunk.get] return [None], and the
    first Series method called on it raises AttributeError. *)
Theorem chunk_masks_missing_column (chunk : DataFrame) (name : string) :
  In name STREAM_COLUMNS ->
  get chunk name = None ->
  chunk_masks N P chunk = Raise AttributeError.
Proof.
  intros Hin Hnone. unfold chunk_masks, get_numeric, series, call.
  repeat match goal with
         | |- context [get chunk ?n] =>
             destruct (get chunk n) eqn:?; cbn [Py.bind option_map];
             [|reflexivity]
         end.
  exfalso. simpl in Hin.
  repeat (destruct Hin as [<-|Hin]; [congruence|]). exact Hin.
Qed.

(** The workbook path, for comparison: a field none of whose aliases is
    a header is an all-missing column. *)
Lemma getcol_missing (df : DataFrame) (names : list string) :
  (forall n, In n names -> col_lookup (Str.lower n) (columns df) = None) ->
  getcol df names = repeat None (len df).
Proof.
  induction names as [|n names IH]; intros H; simpl; [reflexivity|].
  rewrite (H n (or_introl eq_refl)). apply IH.
  intros n' Hn'. apply H. now right.
Qed.

(** A workbook record none of whose fields resolves to a column has
    every flag false and the bucket Other. *)
Lemma excel_flags_all_missing :
  excel_flags N (fun _ => None) None =
  {| inUS := false; hasAnyDate := false; hasFullDate := false;
     isPost2010 := false; basisBucket := "Other"; validCoordinates := false;
     uncertaintyWithin2km := false; hasQualityIssue := false;
     isCaptiveOrigin := false; hasMedia := false |}.
Proof. vm_compute. reflexivity. Qed.

Lemma scan_files_unreadable (files : list SourceFile) (f : SourceFile) (e : exn)
    (st : list SpeciesRow * Counters) :
  In f files -> read_error f = Some e ->
  exists e', scan_files N P files st = Raise e'.
Proof.
  revert st. induction files as [|a files IH]; intros st Hin He; [contradiction|].
  simpl. destruct Hin as [->|Hin].
  - unfold scan_file, read_table. rewrite He. simpl. now exists e.
  - destruct (scan_file N P a st) as [st'|e'] eqn:Ha; simpl.
    + now apply IH.
    + now exists e'.
Qed.

Lemma insert_by_In {A} (leb : A -> A -> bool) (x y : A) (l : list A) :
  In y (insert_by leb x l) <-> y = x \/ In y l.
Proof.
  induction l as [|z l IH]; simpl; [intuition|].
  destruct (leb x z); simpl; rewrite ?IH; intuition.
Qed.

Lemma sorted_by_In {A} (leb : A -> A -> bool) (y : A) (l : list A) :
  In y (sorted_by leb l) <-> In y l.
Proof.
  unfold sorted_by. induction l as [|x l IH]; simpl; [reflexivity|].
  rewrite insert_by_In, IH. intuition.
Qed.

Lemma ndjson_chunks_app (l1 l2 : list NdLine) :
  ndjson_chunks (l1 ++ l2) = ndjson_chunks l1 ++ ndjson_chunks l2.
Proof.
  induction l1 as [|[| |k v|k v] l1 IH]; simpl; rewrite ?IH; reflexivity.
Qed.

(** C3 (amended): a malformed or blank line of a line-delimited file is
    skipped and the other lines are read as if it were not there; but no
    handler surrounds the reading of a file: when a source file of the
    directory cannot be read, [scan_tabular_files] and [main] raise, and
    no result is produced for any file. *)
Theorem unreadable_file_aborts_run (entries : list SourceFile) (f : SourceFile)
    (e : exn) :
  In f entries -> is_source f = true -> read_error f = Some e ->
  (exists e', scan_tabular_files N P (Some entries) = Raise e') /\
  (exists e', main N P (Some entries) = Raise e') /\
  (forall l1 l2,
     ndjson_chunks (l1 ++ Malformed :: l2) = ndjson_chunks (l1 ++ l2) /\
     ndjson_chunks (l1 ++ Blank :: l2) = ndjson_chunks (l1 ++ l2)).
Proof.
  intros Hin Hsrc He.
  assert (exists e', scan_tabular_files N P (Some entries) = Raise e') as [e' H].
  { unfold scan_tabular_files.
    destruct (@scan_files_unreadable
                (sorted_by (fun a b => path_leb (path a) (path b))
                           (List.filter is_source entries))
                f e ([], overall_init 0)) as [e' H'].
    - apply sorted_by_In, filter_In. now split.
    - exact He.
    - exists e'. now rewrite H'. }
  split; [now exists e'|]. split.
  - exists e'. unfold main. now rewrite H.
  - intros l1 l2. rewrite !ndjson_chunks_app. split; reflexivity.
Qed.

End Failures.

(** ** Geographic membership *)

Lemma mem_In (x : string) (l : list string) : Str.mem x l = true <-> In x l.
Proof.
  unfold Str.mem. rewrite existsb_exists. split.
  - intros [y [Hy E]]. apply String.eqb_eq in E. now subst.
  - intros H. exists x. split; [exact H|apply String.eqb_refl].
Qed.

Lemma us_token_spec (c : cell) : us_token c = true <-> Spec.US_token c.
Proof.
  unfold us_token, Spec.US_token. destruct c as [x|].
  - rewrite mem_In. split.
    + intros H. now exists x.
    + intros [y [[= <-] H]]. exact H.
  - split; [discriminate|]. intros [y [H _]]. discriminate.
Qed.

Lemma within_spec (lo hi : Q) (x : float64) :
  within lo hi x = true <-> Spec.in_interval lo hi x.
Proof.
  unfold within, Spec.in_interval. destruct x as [| | |q]; simpl.
  1-3: split; [discriminate|intros [q [H _]]; discriminate].
  rewrite andb_true_iff, !Qle_bool_iff. split.
  - intros [H1 H2]. now exists q.
  - intros [q' [[= <-] H]]. exact H.
Qed.

Section Geography.

Variable N : string -> float64.   (* pd.to_numeric *)
Variable P : string -> datetime.  (* pd.to_datetime *)

Lemma stream_inUS_spec (f : string -> cell) :
  inUS (stream_flags N P f) = true <->
  Spec.InUS (f "countryCode") (f "country")
            (numeric_cell N (f "decimalLatitude"))
            (numeric_cell N (f "decimalLongitude")).
Proof.
  unfold Spec.InUS. simpl.
  rewrite !orb_true_iff, andb_true_iff, !us_token_spec, !within_spec. tauto.
Qed.

Lemma excel_inUS_spec (g : list string -> cell) (dt : datetime) :
  inUS (excel_flags N g dt) = true <->
  Spec.InUS (g ["country"; "countryCode"]) (g ["country"; "countryCode"])
            (numeric_cell N (g ["decimalLatitude"; "latitude"]))
            (numeric_cell N (g ["decimalLongitude"; "longitude"])).
Proof.
  unfold Spec.InUS. simpl.
  rewrite !orb_true_iff, andb_true_iff, !us_token_spec, !within_spec. tauto.
Qed.

(** The date resolved for row [i] of a workbook. *)
Lemma dated_rows_nth (df : DataFrame) (i : nat) (r : list cell) :
  nth_error (rows df) i = Some r ->
  exists dt, nth_error (excel_dates N P df) i = Some dt /\
             nth_error (dated_rows N P df) i = Some (dt, r).
Proof.
  intros Hr. pose proof (excel_dates_length N P df) as Hlen. unfold len in Hlen.
  destruct (nth_error (excel_dates N P df) i) as [dt|] eqn:Hd.
  - exists dt. split; [reflexivity|]. unfold dated_rows.
    revert Hd Hr. clear Hlen. generalize (excel_dates N P df) (rows df).
    induction i as [|i IH]; intros [|d ds] [|x xs]; simpl; try discriminate.
    + now intros [= ->] [= ->].
    + apply IH.
  - apply nth_error_None in Hd.
    assert (i < List.length (rows df)) by (apply nth_error_Some; congruence). lia.
Qed.

(** [col] holds, for a header in lower case, the last header that has
    this form. *)
Lemma col_lookup_last (n : string) (cols : list string) :
  col_lookup (Str.lower n) cols
  = hd_error (rev (List.filter (Spec.same_ignoring_case n) cols)).
Proof.
  induction cols as [|c cols IH]; [reflexivity|].
  cbn [col_lookup List.filter]. rewrite IH. unfold Spec.same_ignoring_case at 2.
  destruct (rev (List.filter (Spec.same_ignoring_case n) cols)) as [|h l] eqn:E.
  - destruct (String.eqb (Str.lower c) (Str.lower n)); [|now rewrite E].
    cbn [rev]. now rewrite E.
  - destruct (String.eqb (Str.lower c) (Str.lower n)); [|now rewrite E].
    cbn [rev]. now rewrite E.
Qed.

Lemma alias_resolved (df : DataFrame) (r : list cell) (names : list string) :
  alias df r names = Spec.resolved_cell df r names.
Proof.
  unfold Spec.resolved_cell. induction names as [|n names IH]; [reflexivity|].
  cbn [alias Spec.resolved_header]. rewrite col_lookup_last.
  destruct (rev (List.filter (Spec.same_ignoring_case n) (columns df))) as [|h l];
    cbn [hd_error]; [exact IH|reflexivity].
Qed.

Lemma excel_inUS_workbook_spec (g : list string -> cell) (dt : datetime) :
  inUS (excel_flags N g dt) = true <->
  Spec.InUS_workbook (g ["country"; "countryCode"])
                     (numeric_cell N (g ["decimalLatitude"; "latitude"]))
                     (numeric_cell N (g ["decimalLongitude"; "longitude"])).
Proof.
  unfold Spec.InUS_workbook. simpl.
  rewrite !orb_true_iff, andb_true_iff, !us_token_spec, !within_spec. tauto.
Qed.

(** C10 (amended): in the streaming path a record is in the US exactly
    when its country code or its country name is one of the US tokens,
    or its latitude lies in [18.0, 72.0] and its longitude in
    [-179.5, -66.0].  In the workbook path the country is one column:
    the header that is [country] when case is ignored if there is one
    (the last such), else the one that is [countryCode]; a record is in
    the US exactly when that column holds a US token or its coordinates
    (resolved the same way from their aliases) lie in the box.  A
    record with country US and no coordinates is in the US, one without
    country at (40.0, -75.0) is, and one at (40.0, 10.0) is not. *)
Theorem inUS_iff_token_or_box :
  (forall chunk m i r,
     chunk_masks N P chunk = Ok m ->
     nth_error (rows chunk) i = Some r ->
     exists b, nth_error (m_us m) i = Some b /\
       (b = true <->
        Spec.InUS (field chunk r "countryCode") (field chunk r "country")
                  (numeric_cell N (field chunk r "decimalLatitude"))
                  (numeric_cell N (field chunk r "decimalLongitude")))) /\
  (forall df i r,
     nth_error (rows df) i = Some r ->
     exists b, nth_error (m_us (excel_masks N P df)) i = Some b /\
       (b = true <->
        Spec.InUS_workbook
          (Spec.resolved_cell df r ["country"; "countryCode"])
          (numeric_cell N (Spec.resolved_cell df r ["decimalLatitude"; "latitude"]))
          (numeric_cell N
             (Spec.resolved_cell df r ["decimalLongitude"; "longitude"])))) /\
  (forall name, Spec.InUS (Some "US") name NaN NaN) /\
  Spec.InUS_workbook (Some "US") NaN NaN /\
  Spec.InUS None None (Fin (40 # 1)) (Fin (- (75 # 1))) /\
  Spec.InUS_workbook None (Fin (40 # 1)) (Fin (- (75 # 1))) /\
  ~ Spec.InUS None None (Fin (40 # 1)) (Fin (10 # 1)) /\
  ~ Spec.InUS_workbook None (Fin (40 # 1)) (Fin (10 # 1)).
Proof.
  assert (Spec.in_interval (18 # 1) (72 # 1) (Fin (40 # 1)) /\
          Spec.in_interval (- (359 # 2)) (- (66 # 1)) (Fin (- (75 # 1)))) as Hbox.
  { split; [exists (40 # 1)%Q|exists (- (75 # 1))%Q];
      (split; [reflexivity|split; discriminate]). }
  assert (~ Spec.in_interval (- (359 # 2)) (- (66 # 1)) (Fin (10 # 1))) as Hout.
  { intros [q [[= <-] [_ H]]]. apply H. reflexivity. }
  repeat match goal with |- _ /\ _ => split end.
  - intros chunk m i r Hm Hr.
    rewrite (chunk_masks_rows N P chunk Hm). simpl. rewrite map_map.
    exists (inUS (stream_flags N P (field chunk r))). split.
    + exact (map_nth_error
               (fun x => inUS (stream_flags N P (field chunk x))) i _ Hr).
    + apply stream_inUS_spec.
  - intros df i r Hr.
    rewrite excel_masks_rows. simpl. rewrite map_map.
    destruct (dated_rows_nth df i Hr) as [dt [_ Hdr]].
    exists (inUS (excel_flags N (alias df r) dt)). split.
    + exact (map_nth_error
               (fun p => inUS (excel_flags N (alias df (snd p)) (fst p))) i _ Hdr).
    + rewrite <- !alias_resolved. apply excel_inUS_workbook_spec.
  - intros name. left. exists "US". split; [reflexivity|]. simpl. tauto.
  - left. exists "US". split; [reflexivity|]. simpl. tauto.
  - right. right. exact Hbox.
  - right. exact Hbox.
  - intros [[x [H _]]|[[x [H _]]|[_ H]]]; try discriminate. exact (Hout H).
  - intros [[x [H _]]|[_ H]]; try discriminate. exact (Hout H).
Qed.

End Geography.

(** ** Choice of the workbook *)

Section Sorting.

Context {A : Type} (leb : A -> A -> bool).
Hypothesis leb_total : forall a b, leb a b = false -> leb b a = true.

Let R (a b : A) : Prop := leb a b = true.

Lemma insert_by_sorted (x : A) (l : list A) :
  Sorted R l -> Sorted R (insert_by leb x l).
Proof.
  induction l as [|y l IH]; intros Hs; simpl.
  - repeat constructor.
  - destruct (leb x y) eqn:E.
    + constructor; [exact Hs|]. constructor. exact E.
    + inversion Hs as [|? ? Hs' Hhd]; subst.
      constructor; [apply IH, Hs'|].
      destruct l as [|z l]; simpl.
      * constructor. apply leb_total, E.
      * destruct (leb x z); constructor.
        -- apply leb_total, E.
        -- inversion Hhd; assumption.
Qed.

Lemma sorted_by_sorted (l : list A) : Sorted R (sorted_by leb l).
Proof.
  unfold sorted_by. induction l as [|x l IH]; simpl; [constructor|].
  apply insert_by_sorted, IH.
Qed.

End Sorting.

Lemma key_leb_refl (k : Z * Z) : key_leb k k = true.
Proof. unfold key_leb. rewrite Z.eqb_refl, Z.leb_refl. apply orb_true_r. Qed.

Lemma key_leb_total (a b : Z * Z) : key_leb a b = false -> key_leb b a = true.
Proof.
  unfold key_leb. destruct a as [s1 n1], b as [s2 n2]. simpl.
  rewrite orb_false_iff, andb_false_iff, orb_true_iff, andb_true_iff.
  rewrite !Z.ltb_ge, Z.ltb_lt, Z.eqb_neq, Z.eqb_eq, Z.leb_gt, Z.leb_le. lia.
Qed.

Lemma key_leb_trans (a b c : Z * Z) :
  key_leb a b = true -> key_leb b c = true -> key_leb a c = true.
Proof.
  unfold key_leb. destruct a as [s1 n1], b as [s2 n2], c as [s3 n3]. simpl.
  rewrite !orb_true_iff, !andb_true_iff, !Z.ltb_lt, !Z.eqb_eq, !Z.leb_le. lia.
Qed.

Lemma key_leb_antisym (a b : Z * Z) :
  key_leb a b = true -> key_leb b a = key_eqb a b.
Proof.
  unfold key_leb, key_eqb. destruct a as [s1 n1], b as [s2 n2]. simpl.
  rewrite orb_true_iff, andb_true_iff, Z.ltb_lt, Z.eqb_eq, Z.leb_le.
  intros H.
  destruct (Z.ltb_spec s2 s1), (Z.eqb_spec s2 s1), (Z.leb_spec n2 n1),
    (Z.eqb_spec s1 s2), (Z.eqb_spec n1 n2); simpl; try reflexivity; lia.
Qed.

Lemma rank_In (files : list SourceFile) (k : Z * Z) (p : SourceFile) :
  In (k, p) (rank files) <-> In p files /\ k = score_excel p.
Proof.
  unfold rank. rewrite sorted_by_In, in_map_iff. split.
  - intros [f [[= <- <-] Hf]]. now split.
  - intros [Hp ->]. now exists p.
Qed.

(** What [select] loads, by the ranking: the first of the ranking has
    the highest key and is loaded, except that when its name ends in
    [_clean.xlsx] and the second of the ranking has the same key, the
    second is loaded. *)
Lemma select_first_unless_clean_tie (files : list SourceFile) :
  match rank files with
  | [] => files = [] /\ select (rank files) = None
  | (k0, p0) :: rest =>
      In p0 files /\ k0 = score_excel p0 /\
      Forall (fun f => key_leb (score_excel f) k0 = true) files /\
      select (rank files) =
      Some match rest with
           | (k1, p1) :: _ =>
               if Str.endswith (name p0) "_clean.xlsx" && key_eqb k1 k0
               then p1 else p0
           | [] => p0
           end
  end.
Proof.
  pose proof (sorted_by_sorted (fun a b : (Z * Z) * SourceFile => key_leb (fst b) (fst a))
                (fun a b => key_leb_total (fst b) (fst a))
                (List.map (fun p => (score_excel p, p)) files)) as Hs.
  fold (rank files) in Hs.
  pose proof (rank_In files) as Hin.
  destruct (rank files) as [|[k0 p0] rest] eqn:E.
  - split; [|reflexivity].
    destruct files as [|f files]; [reflexivity|].
    exfalso. apply (proj2 (Hin (score_excel f) f)). split; [now left|reflexivity].
  - destruct (proj1 (Hin k0 p0) (or_introl eq_refl)) as [Hp0 Hk0].
    split; [exact Hp0|]. split; [exact Hk0|]. split.
    + apply Sorted_StronglySorted in Hs.
      * apply StronglySorted_inv in Hs. destruct Hs as [_ Hall].
        apply Forall_forall. intros f Hf.
        destruct (proj2 (Hin (score_excel f) f) (conj Hf eq_refl)) as [Heq|Hr].
        -- injection Heq as -> _.
           unfold key_leb. rewrite Z.eqb_refl, Z.leb_refl. apply orb_true_r.
        -- rewrite Forall_forall in Hall. apply (Hall _ Hr).
      * intros a b c Hab Hbc. simpl in *. eapply key_leb_trans; eassumption.
    + destruct rest as [|[k1 p1] rest']; [reflexivity|].
      clear Hk0 Hp0 Hin E.
      inversion Hs as [|? ? _ Hhd]; subst. inversion Hhd as [|? ? H01]; subst.
      cbn [fst] in H01. unfold select.
      rewrite (key_leb_antisym k1 k0 H01).
      now destruct (_ && _).
Qed.

(** C9 (code defect): line 260 loads the second of the ranking without
    looking at its name, and the test of line 259 compares the whole
    key (score, column count), not the score.  So a cleaned workbook is
    loaded although a workbook that is not cleaned has a score as high:
    of two cleaned workbooks and one that is not, all with the same
    key and listed in this order, the second cleaned one is loaded; and
    of a cleaned workbook and another one with the same score, the
    cleaned one having more columns, the cleaned one is loaded in
    whichever order the directory lists the two. *)
Theorem cleaned_workbook_loaded_against_preference (c c' r : SourceFile) :
  Str.endswith (name c) "_clean.xlsx" = true ->
  Str.endswith (name c') "_clean.xlsx" = true ->
  Str.endswith (name r) "_clean.xlsx" = false ->
  (score_excel c = score_excel c' -> score_excel c' = score_excel r ->
   select (rank [c; c'; r]) = Some c') /\
  (fst (score_excel c) = fst (score_excel r) ->
   (snd (score_excel r) < snd (score_excel c))%Z ->
   select (rank [c; r]) = Some c /\ select (rank [r; c]) = Some c).
Proof.
  intros Hc Hc' _. split.
  - intros E1 E2. unfold rank.
    cbn [List.map sorted_by fold_right insert_by fst].
    rewrite E1, E2, !key_leb_refl. cbn [insert_by fst]. rewrite key_leb_refl.
    cbn [select]. now rewrite Hc, key_leb_refl.
  - intros Hs Hn.
    assert (key_leb (score_excel r) (score_excel c) = true) as Hrc.
    { unfold key_leb. rewrite Hs, Z.eqb_refl.
      rewrite (proj2 (Z.leb_le _ _)) by lia. apply orb_true_r. }
    assert (key_leb (score_excel c) (score_excel r) = false) as Hcr.
    { unfold key_leb. rewrite Hs, Z.ltb_irrefl, Z.eqb_refl.
      now rewrite (proj2 (Z.leb_gt _ _)) by lia. }
    unfold rank. cbn [List.map sorted_by fold_right insert_by fst].
    rewrite Hrc, Hcr. cbn [select]. rewrite Hc, Hcr. split; reflexivity.
Qed.

(** ** Percentages *)

Lemma round_half_even_close (q : Q) :
  (q - (1 # 2) <= inject_Z (round_half_even q))%Q /\
  (inject_Z (round_half_even q) <= q + (1 # 2))%Q.
Proof.
  unfold round_half_even.
  pose proof (Qfloor_le q) as Hlo. pose proof (Qlt_floor q) as Hhi.
  rewrite inject_Z_plus in Hhi. change (inject_Z 1) with 1%Q in Hhi.
  set (f := Qfloor q) in *.
  destruct (Qcompare (q - inject_Z f) (1 # 2)) eqn:E.
  - apply Qeq_alt in E.
    destruct (Z.even f); rewrite ?inject_Z_plus; change (inject_Z 1) with 1%Q;
      split; lra.
  - apply Qlt_alt in E. split; lra.
  - apply Qgt_alt in E. rewrite inject_Z_plus. change (inject_Z 1) with 1%Q.
    split; lra.
Qed.

Section FloatRounding.

Local Open Scope Q_scope.

Lemma pow2_pos (e : Z) : 0 < 2 ^ e.
Proof. apply Qpower_0_lt. reflexivity. Qed.

Lemma pow2_add (a b : Z) : 2 ^ (a + b) == 2 ^ a * 2 ^ b.
Proof. apply Qpower_plus. discriminate. Qed.

Lemma pow2_succ (a : Z) : 2 ^ (a + 1) == 2 * 2 ^ a.
Proof. rewrite pow2_add. change (2 ^ 1) with 2. ring. Qed.

Lemma pow2_mono (a b : Z) : (a <= b)%Z -> 2 ^ a <= 2 ^ b.
Proof. intros H. apply Qpower_le_compat_l; [exact H|discriminate]. Qed.

Lemma pow2_Z (n : Z) : (0 <= n)%Z -> 2 ^ n == inject_Z (2 ^ n).
Proof. intros H. now rewrite Zpower_Qpower. Qed.

Lemma log2_bounds (n : Z) :
  (0 < n)%Z -> 2 ^ Z.log2 n <= inject_Z n /\ inject_Z n < 2 * 2 ^ Z.log2 n.
Proof.
  intros H. destruct (Z.log2_spec n H) as [H1 H2].
  pose proof (Z.log2_nonneg n) as H0.
  rewrite <- pow2_succ, !pow2_Z by lia. rewrite <- Zle_Qle, <- Zlt_Qlt.
  split; [exact H1|]. now rewrite <- Z.add_1_r in H2.
Qed.

Lemma binade_spec (q : Q) :
  0 < q -> 2 ^ binade q <= q /\ q < 2 ^ (binade q + 1).
Proof.
  intros Hq. destruct q as [a b].
  assert (0 < a)%Z as Ha.
  { unfold Qlt in Hq. simpl in Hq. lia. }
  destruct (log2_bounds Ha) as [A1 A2].
  destruct (@log2_bounds (Zpos b) eq_refl) as [B1 B2].
  unfold binade. cbn [Qnum Qden].
  set (la := Z.log2 a) in *. set (lb := Z.log2 (Zpos b)) in *.
  assert (2 ^ (la - lb) * 2 ^ lb == 2 ^ la) as HD.
  { rewrite <- pow2_add. now replace (la - lb + lb)%Z with la by lia. }
  assert ((a # b) * inject_Z (Zpos b) == inject_Z a) as Hab.
  { rewrite (Qmake_Qdiv a b). field. discriminate. }
  pose proof (pow2_pos (la - lb)) as PD. pose proof (pow2_pos lb) as PB.
  pose proof (pow2_pos la) as PA.
  set (q := a # b) in *. set (B := inject_Z (Zpos b)) in *.
  set (A := inject_Z a) in *. set (D := 2 ^ (la - lb)) in *.
  set (X := 2 ^ lb) in *. set (Y := 2 ^ la) in *.
  destruct (Qle_bool D q) eqn:T.
  - apply Qle_bool_iff in T. split; [exact T|].
    rewrite pow2_succ. fold D.
    apply Qnot_le_lt. intros C.
    assert (2 * D * B <= q * B) as C1 by (apply Qmult_le_compat_r; lra).
    assert (D * X <= D * B) as C2 by (apply Qmult_le_l; lra).
    lra.
  - assert (q < D) as T'.
    { apply Qnot_le_lt. intros C. apply Qle_bool_iff in C. congruence. }
    assert (2 ^ (la - lb - 1 + 1) == D) as E1.
    { unfold D. now replace (la - lb - 1 + 1)%Z with (la - lb)%Z by lia. }
    split.
    + pose proof (pow2_succ (la - lb - 1)) as S1. rewrite E1 in S1.
      set (H := 2 ^ (la - lb - 1)) in *.
      apply Qnot_lt_le. intros C.
      assert (q * B < H * B) as C1 by (apply Qmult_lt_compat_r; lra).
      assert (H * B < H * (2 * X)) as C2.
      { apply Qmult_lt_l; [|lra]. unfold H. apply pow2_pos. }
      assert (D * X == 2 * (H * X)) as C3 by (rewrite S1; ring).
      lra.
    + now rewrite E1.
Qed.

Lemma round_half_even_between (q : Q) :
  (Qfloor q <= round_half_even q <= Qfloor q + 1)%Z.
Proof.
  unfold round_half_even. destruct (Qcompare _ _); [destruct (Z.even _)| |]; lia.
Qed.

Lemma round_half_even_mono (q1 q2 : Q) :
  q1 <= q2 -> (round_half_even q1 <= round_half_even q2)%Z.
Proof.
  intros H. pose proof (Qfloor_resp_le _ _ H) as Hf.
  destruct (Z.eq_dec (Qfloor q1) (Qfloor q2)) as [E|E].
  - unfold round_half_even. rewrite <- E.
    set (f := Qfloor q1) in *.
    destruct (Qcompare (q1 - inject_Z f) (1 # 2)) eqn:C1;
      destruct (Qcompare (q2 - inject_Z f) (1 # 2)) eqn:C2;
      try (destruct (Z.even f)); try lia;
      rewrite <- ?Qeq_alt, <- ?Qlt_alt, <- ?Qgt_alt in *; exfalso; lra.
  - pose proof (round_half_even_between q1). pose proof (round_half_even_between q2).
    lia.
Qed.

Lemma round_half_even_Z (z : Z) : round_half_even (inject_Z z) = z.
Proof.
  unfold round_half_even. rewrite Qfloor_Z.
  assert (inject_Z z - inject_Z z < 1 # 2) as H by lra.
  destruct (Qcompare (inject_Z z - inject_Z z) (1 # 2)) eqn:C; [|reflexivity|].
  - apply Qeq_alt in C. lra.
  - apply Qgt_alt in C. lra.
Qed.

(** The float64 of a positive [q], by its exponent. *)
Lemma float64_of_pos (q : Q) :
  0 < q ->
  float64_of q
  = inject_Z (round_half_even (q * 2 ^ (52 - Z.max (binade q) (-1022))))
    * 2 ^ (Z.max (binade q) (-1022) - 52).
Proof.
  intros H. unfold float64_of. destruct q as [[|a|a] b]; try reflexivity;
    unfold Qlt in H; simpl in H; lia.
Qed.

Lemma float64_of_nonpos (q : Q) : q <= 0 -> float64_of q = 0.
Proof.
  intros H. unfold float64_of. destruct q as [[|a|a] b]; try reflexivity.
  unfold Qle in H. simpl in H. lia.
Qed.

Lemma float64_of_nonneg (q : Q) : 0 <= float64_of q.
Proof.
  destruct (Qlt_le_dec 0 q) as [H|H].
  - rewrite (float64_of_pos H).
    apply Qmult_le_0_compat; [|apply Qlt_le_weak, pow2_pos].
    change 0 with (inject_Z 0). rewrite <- Zle_Qle.
    rewrite <- (round_half_even_Z 0). apply round_half_even_mono.
    apply Qmult_le_0_compat; [lra|apply Qlt_le_weak, pow2_pos].
  - rewrite (float64_of_nonpos H). lra.
Qed.

(** On one grid, rounding keeps the order. *)
Lemma grid_mono (q1 q2 : Q) (e : Z) :
  q1 <= q2 ->
  inject_Z (round_half_even (q1 * 2 ^ (52 - e))) * 2 ^ (e - 52)
  <= inject_Z (round_half_even (q2 * 2 ^ (52 - e))) * 2 ^ (e - 52).
Proof.
  intros H. apply Qmult_le_compat_r; [|apply Qlt_le_weak, pow2_pos].
  rewrite <- Zle_Qle. apply round_half_even_mono.
  apply Qmult_le_compat_r; [exact H|apply Qlt_le_weak, pow2_pos].
Qed.

(** A value below [2 ^ (e + 1)] rounds, on the grid of [e], to at most
    that power; a value from [2 ^ e] on rounds to at least this one. *)
Lemma grid_upper (q : Q) (e : Z) :
  q <= 2 ^ (e + 1) ->
  inject_Z (round_half_even (q * 2 ^ (52 - e))) * 2 ^ (e - 52) <= 2 ^ (e + 1).
Proof.
  intros H.
  assert (2 ^ (e + 1) == inject_Z (2 ^ 53) * 2 ^ (e - 52)) as E.
  { rewrite <- (pow2_Z (n := 53)) by lia. rewrite <- pow2_add.
    now replace (53 + (e - 52))%Z with (e + 1)%Z by lia. }
  rewrite E. apply Qmult_le_compat_r; [|apply Qlt_le_weak, pow2_pos].
  rewrite <- Zle_Qle. rewrite <- (round_half_even_Z (2 ^ 53)).
  apply round_half_even_mono.
  rewrite <- (pow2_Z (n := 53)) by lia.
  assert (2 ^ 53 == 2 ^ (e + 1) * 2 ^ (52 - e)) as E2.
  { rewrite <- pow2_add. now replace (e + 1 + (52 - e))%Z with 53%Z by lia. }
  rewrite E2. apply Qmult_le_compat_r; [exact H|apply Qlt_le_weak, pow2_pos].
Qed.

Lemma grid_lower (q : Q) (e : Z) :
  2 ^ e <= q ->
  2 ^ e <= inject_Z (round_half_even (q * 2 ^ (52 - e))) * 2 ^ (e - 52).
Proof.
  intros H.
  assert (2 ^ e == inject_Z (2 ^ 52) * 2 ^ (e - 52)) as E.
  { rewrite <- (pow2_Z (n := 52)) by lia. rewrite <- pow2_add.
    now replace (52 + (e - 52))%Z with e by lia. }
  rewrite E at 1. apply Qmult_le_compat_r; [|apply Qlt_le_weak, pow2_pos].
  rewrite <- Zle_Qle. rewrite <- (round_half_even_Z (2 ^ 52)).
  apply round_half_even_mono.
  rewrite <- (pow2_Z (n := 52)) by lia.
  assert (2 ^ 52 == 2 ^ e * 2 ^ (52 - e)) as E2.
  { rewrite <- pow2_add. now replace (e + (52 - e))%Z with 52%Z by lia. }
  rewrite E2. apply Qmult_le_compat_r; [exact H|apply Qlt_le_weak, pow2_pos].
Qed.

Lemma binade_mono (q1 q2 : Q) : 0 < q1 -> q1 <= q2 -> (binade q1 <= binade q2)%Z.
Proof.
  intros H1 H.
  destruct (binade_spec H1) as [L1 _].
  destruct (@binade_spec q2) as [_ U2]; [lra|].
  assert (2 ^ binade q1 < 2 ^ (binade q2 + 1)) as C by lra.
  apply Qpower_lt_compat_l_inv in C; [lia|reflexivity].
Qed.

Lemma float64_of_mono (q1 q2 : Q) : q1 <= q2 -> float64_of q1 <= float64_of q2.
Proof.
  intros H. destruct (Qlt_le_dec 0 q1) as [H1|H1].
  - assert (0 < q2) as H2 by lra.
    rewrite (float64_of_pos H1), (float64_of_pos H2).
    pose proof (binade_mono H1 H) as Hb.
    destruct (binade_spec H1) as [L1 U1]. destruct (binade_spec H2) as [L2 U2].
    set (e1 := binade q1) in *. set (e2 := binade q2) in *.
    destruct (Z.eq_dec (Z.max e1 (-1022)) (Z.max e2 (-1022))) as [E|E].
    + rewrite E. now apply grid_mono.
    + assert (Z.max e1 (-1022) + 1 <= e2 /\ Z.max e2 (-1022) = e2)%Z as [Hlt ->] by lia.
      apply Qle_trans with (2 ^ (Z.max e1 (-1022) + 1)).
      * apply grid_upper. apply Qle_trans with (2 ^ (e1 + 1)); [lra|].
        apply pow2_mono. lia.
      * apply Qle_trans with (2 ^ e2); [now apply pow2_mono|].
        now apply grid_lower.
  - rewrite (float64_of_nonpos H1). apply float64_of_nonneg.
Qed.

Lemma float64_of_unit (q : Q) : 0 <= q -> q <= 1 -> 0 <= float64_of q /\ float64_of q <= 1.
Proof.
  intros H0 H1. split; [apply float64_of_nonneg|].
  destruct (Qlt_le_dec 0 q) as [H|H]; [|rewrite (float64_of_nonpos H); lra].
  rewrite (float64_of_pos H). destruct (binade_spec H) as [L U].
  assert (binade q <= 0)%Z as Hb.
  { assert (2 ^ binade q < 2 ^ 1) as C by (change (2 ^ 1) with 2; lra).
    apply Qpower_lt_compat_l_inv in C; [lia|reflexivity]. }
  set (e := Z.max (binade q) (-1022)) in *.
  assert (e <= 0)%Z as He by lia.
  assert (1 == inject_Z (2 ^ (52 - e)) * 2 ^ (e - 52)) as E.
  { rewrite <- pow2_Z by lia. rewrite <- pow2_add.
    now replace (52 - e + (e - 52))%Z with 0%Z by lia. }
  apply Qle_trans with (inject_Z (2 ^ (52 - e)) * 2 ^ (e - 52)); [|rewrite <- E; lra].
  apply Qmult_le_compat_r; [|apply Qlt_le_weak, pow2_pos].
  rewrite <- Zle_Qle. rewrite <- (round_half_even_Z (2 ^ (52 - e))).
  apply round_half_even_mono. rewrite <- pow2_Z by lia.
  apply Qle_trans with (1 * 2 ^ (52 - e)); [|lra].
  apply Qmult_le_compat_r; [exact H1|apply Qlt_le_weak, pow2_pos].
Qed.

(** The float64 of a quotient in [0, 1] is within [2 ^ -53] of it. *)
Lemma float64_of_close (q : Q) :
  0 <= q -> q <= 1 -> Qabs (float64_of q - q) <= 2 ^ (-53).
Proof.
  intros H0 H1. destruct (Qlt_le_dec 0 q) as [H|H].
  - rewrite (float64_of_pos H). destruct (binade_spec H) as [L U].
    assert (binade q <= 0)%Z as Hb.
    { assert (2 ^ binade q < 2 ^ 1) as C by (change (2 ^ 1) with 2; lra).
      apply Qpower_lt_compat_l_inv in C; [lia|reflexivity]. }
    set (e := Z.max (binade q) (-1022)) in *.
    assert (e <= 0)%Z as He by lia.
    destruct (round_half_even_close (q * 2 ^ (52 - e))) as [C1 C2].
    set (m := inject_Z (round_half_even (q * 2 ^ (52 - e)))) in *.
    pose proof (pow2_pos (e - 52)) as PE.
    assert (2 ^ (52 - e) * 2 ^ (e - 52) == 1) as E.
    { rewrite <- pow2_add. now replace (52 - e + (e - 52))%Z with 0%Z by lia. }
    assert (2 ^ (e - 52) <= 2 * 2 ^ (-53)) as Hs.
    { rewrite <- pow2_succ. apply pow2_mono. lia. }
    set (s := 2 ^ (e - 52)) in *. set (t := 2 ^ (52 - e)) in *.
    assert ((q * t - (1 # 2)) * s <= m * s) as D1
      by (apply Qmult_le_compat_r; lra).
    assert (m * s <= (q * t + (1 # 2)) * s) as D2
      by (apply Qmult_le_compat_r; lra).
    assert (q * t * s == q) as D3.
    { rewrite <- Qmult_assoc, E. ring. }
    apply Qabs_Qle_condition. split; lra.
  - rewrite (float64_of_nonpos H).
    assert (q == 0) as -> by lra.
    apply Qabs_Qle_condition. pose proof (pow2_pos (-53)). split; lra.
Qed.

End FloatRounding.

Lemma round4_close (q : Q) : (Qabs (round4 q - q) <= 1 # 20000)%Q.
Proof.
  unfold round4. destruct (round_half_even_close (q * inject_Z 10000)) as [H1 H2].
  set (z := inject_Z (round_half_even (q * inject_Z 10000))) in *.
  change (inject_Z 10000) with (10000 # 1)%Q in *.
  apply Qabs_Qle_condition. split.
  - setoid_replace (z / (10000 # 1) - q)%Q with ((z - q * (10000 # 1)) / (10000 # 1))%Q
      by field.
    apply Qle_shift_div_l; [reflexivity|]. lra.
  - setoid_replace (z / (10000 # 1) - q)%Q with ((z - q * (10000 # 1)) / (10000 # 1))%Q
      by field.
    apply Qle_shift_div_r; [reflexivity|]. lra.
Qed.

Lemma round4_unit (q : Q) : (0 <= q)%Q -> (q <= 1)%Q ->
  (0 <= round4 q)%Q /\ (round4 q <= 1)%Q.
Proof.
  intros H0 H1. unfold round4.
  destruct (round_half_even_close (q * inject_Z 10000)) as [Hlo Hhi].
  set (z := round_half_even (q * inject_Z 10000)) in *.
  change (inject_Z 10000) with (10000 # 1)%Q in *.
  assert (0 <= z <= 10000)%Z as Hz.
  { split.
    - assert (- (1 # 2) <= inject_Z z)%Q as H by lra.
      unfold Qle, inject_Z in H; simpl in H. lia.
    - assert (inject_Z z <= 10000 + (1 # 2))%Q as H by lra.
      unfold Qle, inject_Z in H; simpl in H. lia. }
  split.
  - apply Qle_shift_div_l; [reflexivity|].
    rewrite Qmult_0_l. change 0%Q with (inject_Z 0). rewrite <- Zle_Qle. lia.
  - apply Qle_shift_div_r; [reflexivity|].
    rewrite Qmult_1_l. change (10000 # 1)%Q with (inject_Z 10000).
    rewrite <- Zle_Qle. lia.
Qed.

Lemma or_one_max (x : nat) : or_one x = Nat.max x 1.
Proof. destruct x as [|[|x]]; simpl; reflexivity. Qed.

Lemma quotient_unit (count usa : nat) :
  count <= usa ->
  (0 <= Spec.quotient count usa)%Q /\ (Spec.quotient count usa <= 1)%Q.
Proof.
  intros Hle. unfold Spec.quotient.
  assert (0 < inject_Z (Z.of_nat (Nat.max usa 1)))%Q as Hpos.
  { change 0%Q with (inject_Z 0). rewrite <- Zlt_Qlt. lia. }
  split.
  - apply Qle_shift_div_l; [exact Hpos|].
    rewrite Qmult_0_l. change 0%Q with (inject_Z 0). rewrite <- Zle_Qle. lia.
  - apply Qle_shift_div_r; [exact Hpos|].
    rewrite Qmult_1_l. rewrite <- Zle_Qle. lia.
Qed.

Lemma pct_rounded (count usa : nat) :
  count <= usa ->
  Spec.rounded_percentage usa (pct count (or_one usa), count).
Proof.
  intros Hle. unfold Spec.rounded_percentage, pct. cbn [fst snd].
  rewrite or_one_max. fold (Spec.quotient count usa).
  destruct (quotient_unit Hle) as [H0 H1].
  destruct (float64_of_unit H0 H1) as [F0 F1].
  destruct (round4_unit F0 F1) as [R0 R1].
  repeat split; try assumption.
  - pose proof (round4_close (float64_of (Spec.quotient count usa))) as C1.
    pose proof (float64_of_close H0 H1) as C2.
    set (x := float64_of (Spec.quotient count usa)) in *.
    set (q := Spec.quotient count usa) in *.
    setoid_replace (round4 x - q)%Q with ((round4 x - x) + (x - q))%Q by ring.
    eapply Qle_trans; [apply Qabs_triangle|].
    apply Qplus_le_compat; assumption.
  - intros ->. assert (count = 0) as -> by lia. reflexivity.
Qed.

Lemma finalize_finalized (sid : string) (c : Counters) :
  Spec.us_scoped c -> Spec.finalized (finalize sid c).
Proof.
  intros (H1 & H2 & H3 & H4 & H5).
  unfold Spec.finalized, Spec.percentages, finalize. cbn [counts pct_dated_any
    pct_dated_full pct_post_2010 pct_uncertainty_le_2km pct_captive_flagged].
  repeat constructor; now apply pct_rounded.
Qed.

Lemma accumulate_scoped (us : list bool) (m : Masks) (c : Counters) :
  Spec.us_scoped c -> Spec.us_scoped (accumulate us m c).
Proof.
  unfold Spec.us_scoped, accumulate, count_in. simpl.
  intros (H1 & H2 & H3 & H4 & H5).
  pose proof (vsum_vand_le (m_dated_any m) us).
  pose proof (vsum_vand_le (m_dated_full m) us).
  pose proof (vsum_vand_le (m_post2010 m) us).
  pose proof (vsum_vand_le (m_unc2k m) us).
  pose proof (vsum_vand_le (m_captive m) us).
  lia.
Qed.

Lemma add_total_scoped (n : nat) (c : Counters) :
  Spec.us_scoped c -> Spec.us_scoped (add_total n c).
Proof. unfold Spec.us_scoped. simpl. tauto. Qed.

Section Percentages.

Variable N : string -> float64.   (* pd.to_numeric *)
Variable P : string -> datetime.  (* pd.to_datetime *)

Lemma scan_chunks_scoped (chunks : list DataFrame) (st st' : Counters * Counters) :
  scan_chunks N P chunks st = Ok st' ->
  Spec.us_scoped (fst st) -> Spec.us_scoped (fst st').
Proof.
  revert st. induction chunks as [|chunk chunks IH]; intros st; simpl.
  - now intros [= <-].
  - unfold scan_chunk at 1.
    destruct (chunk_masks N P chunk) as [m|e]; simpl; [|discriminate].
    intros H Hs. apply (IH _ H). simpl.
    apply accumulate_scoped, add_total_scoped, Hs.
Qed.

Lemma scan_files_finalized (files : list SourceFile)
    (st st' : list SpeciesRow * Counters) :
  scan_files N P files st = Ok st' ->
  Forall Spec.finalized (fst st) -> Forall Spec.finalized (fst st').
Proof.
  revert st. induction files as [|f files IH]; intros st; simpl.
  - now intros [= <-].
  - unfold scan_file at 1.
    destruct (read_table f) as [chunks|e]; simpl; [|discriminate].
    destruct (scan_chunks N P chunks (new_species (snd st), snd st))
      as [st1|e] eqn:E; simpl; [|discriminate].
    intros H Hs. apply (IH _ H). simpl.
    apply Forall_app. split; [exact Hs|]. constructor; [|constructor].
    apply finalize_finalized. apply (scan_chunks_scoped _ _ E).
    unfold Spec.us_scoped. simpl. lia.
Qed.

(** C7 (amended): every percentage field of every species row, in
    either path, is the corresponding US-scoped counter divided by
    max(usa_records, 1) as a float64 and rounded to four decimal places;
    it differs from the exact quotient by at most 0.00005 and the
    rounding of the float64 (at most [2 ** -53]), lies in [0, 1], and is
    0 when usa_records is 0. *)
Theorem percentages_rounded_in_unit_interval :
  (forall dir rows overall,
     scan_tabular_files N P dir = Ok (Pair rows overall) ->
     Forall Spec.finalized rows) /\
  (forall dir rows overall,
     scan_excel_combined N P dir = Ok (rows, overall) ->
     Forall Spec.finalized rows).
Proof.
  split.
  - intros [entries|] rows overall; simpl; [|discriminate].
    destruct (scan_files N P _ _) as [st|e] eqn:E; simpl; [|discriminate].
    intros [= <- _]. apply (scan_files_finalized _ _ E). constructor.
  - intros dir rows overall. unfold scan_excel_combined.
    destruct (select _) as [p|]; [|intros [= <- _]; constructor].
    destruct (read_error p); [discriminate|].
    destruct (empty_fallback_error (workbook p)); [discriminate|].
    intros [= <- _]. unfold scan_workbook. cbn [fst].
    apply Forall_forall. intros row Hrow. apply in_map_iff in Hrow.
    destruct Hrow as [sid [<- _]]. unfold excel_species_row.
    apply finalize_finalized. apply accumulate_scoped.
    unfold Spec.us_scoped. simpl. lia.
Qed.

End Percentages.

(** ** Date resolution in the workbook path *)

Section Dates.

Variable N : string -> float64.   (* pd.to_numeric *)
Variable P : string -> datetime.  (* pd.to_datetime *)

(** A date, once resolved, is kept by the later candidates... *)
Lemma resolve_dates_keeps (df : DataFrame) (cand : list string)
    (dt : list datetime) (i : nat) (t : Q) :
  List.length dt = len df ->
  nth_error dt i = Some (Some t) ->
  nth_error (resolve_dates N P df cand dt) i = Some (Some t).
Proof.
  revert dt. induction cand as [|c cand IH]; intros dt Hlen Hi; simpl; [exact Hi|].
  assert (List.length (parse_candidate N P (getitem df c)) = len df) as Hpc
    by now rewrite parse_candidate_length, getitem_length.
  unfold datetime in *.
  assert (nth_error (fill dt (parse_candidate N P (getitem df c))) i = Some (Some t))
    as Hi' by (apply fill_nth_error_some; [congruence|exact Hi]).
  destruct (all _); [exact Hi'|].
  apply IH; [|exact Hi']. rewrite fill_length; congruence.
Qed.

(** ... and by the free-text stage. *)
Lemma sniff_dates_keeps (df : DataFrame) (dt : list datetime) (i : nat) (t : Q) :
  List.length dt = len df ->
  nth_error dt i = Some (Some t) ->
  nth_error (sniff_dates P df dt) i = Some (Some t).
Proof.
  intros Hlen Hi. unfold sniff_dates.
  destruct (any _); [|exact Hi].
  destruct (List.filter _ _) as [|c cs]; [exact Hi|].
  cbv zeta. unfold joined_text, datetime in *.
  apply fill_nth_error_some.
  - rewrite fill_length; rewrite ?length_map; exact Hlen.
  - apply fill_nth_error_some; [rewrite ?length_map; exact Hlen|exact Hi].
Qed.

Lemma repeat_nth_error {A} (x : A) (n i : nat) :
  i < n -> nth_error (repeat x n) i = Some x.
Proof.
  revert i. induction n as [|n IH]; intros [|i] H; simpl; try lia; [reflexivity|].
  apply IH. lia.
Qed.

(** The third stage on one cell of a candidate column. *)
Lemma parse_candidate_serial (col : list cell) (i : nat) (s : string) (q : Q) :
  nth_error col i = Some (Some s) ->
  P s = None -> P (Str.split_first "/" s) = None ->
  N s = Fin q -> (50 <= q)%Q -> (q <= 60000)%Q ->
  nth_error (parse_candidate N P col) i = Some (Some (EXCEL_EPOCH + q)%Q).
Proof.
  intros Hi Hp Hr Hn Hlo Hhi. unfold parse_candidate. cbv zeta.
  assert (nth_error (to_datetime_col P col) i = Some None) as Hparsed.
  { unfold to_datetime_col.
    rewrite (map_nth_error (datetime_cell P) i col Hi). simpl. now rewrite Hp. }
  assert (nth_error (List.map (serial_date) (to_numeric_col N col)) i
          = Some (Some (EXCEL_EPOCH + q)%Q)) as Hserial.
  { unfold to_numeric_col. rewrite map_map.
    rewrite (map_nth_error (fun x => serial_date (numeric_cell N x)) i col Hi).
    simpl. rewrite Hn. unfold serial_date. simpl.
    apply Qle_bool_iff in Hlo. apply Qle_bool_iff in Hhi.
    now rewrite Hlo, Hhi. }
  unfold datetime in *.
  apply fill_nth_error_none; [|exact Hserial].
  destruct (any _); [|exact Hparsed].
  apply fill_nth_error_none; [exact Hparsed|].
  unfold fillna. rewrite !map_map.
  rewrite (map_nth_error
             (fun x => P (Str.split_first "/" match x with Some y => y | None => "" end))
             i col Hi).
  now rewrite Hr.
Qed.

Lemma all_notna_false (dt : list datetime) (i : nat) :
  nth_error dt i = Some None -> all (notna dt) = false.
Proof.
  revert i. unfold all, notna. induction dt as [|x dt IH]; intros [|i]; simpl;
    try discriminate.
  - now intros [= ->].
  - intros H. rewrite (IH i H). apply andb_false_r.
Qed.

(** The loop reaches a candidate column as long as the columns before
    it leave the record without a date. *)
Lemma resolve_dates_reaches (df : DataFrame) (pre : list string) (c : string)
    (rest : list string) (dt : list datetime) (i : nat) (t : Q) :
  List.length dt = len df ->
  nth_error dt i = Some None ->
  (forall c', In c' pre ->
     nth_error (parse_candidate N P (getitem df c')) i = Some None) ->
  nth_error (parse_candidate N P (getitem df c)) i = Some (Some t) ->
  nth_error (resolve_dates N P df (pre ++ c :: rest) dt) i = Some (Some t).
Proof.
  revert dt. induction pre as [|c' pre IH]; intros dt Hlen Hdt Hpre Hc.
  - simpl. unfold datetime in *.
    assert (List.length (parse_candidate N P (getitem df c)) = len df) as Hpc
      by now rewrite parse_candidate_length, getitem_length.
    pose proof (fill_nth_error_none _ _ _ Hdt Hc) as H1.
    destruct (all _); [exact H1|].
    apply resolve_dates_keeps; [|exact H1].
    unfold datetime in *. rewrite fill_length; congruence.
  - simpl. unfold datetime in *.
    assert (List.length (parse_candidate N P (getitem df c')) = len df) as Hpc
      by now rewrite parse_candidate_length, getitem_length.
    pose proof (fill_nth_error_none _ _ _ Hdt (Hpre c' (or_introl eq_refl))) as H1.
    rewrite (all_notna_false _ _ H1).
    apply IH; [unfold datetime in *; rewrite fill_length; congruence|exact H1| |exact Hc].
    intros c'' Hin. apply Hpre. now right.
Qed.

(** C8 (amended): in the workbook path, the only path that has this
    stage, when the candidate date columns before column [c] leave a record without a
    date, and its text in [c] resolves neither directly nor through its
    range start but is a number within [50, 60000], the date resolved
    for the record is that many days after 1899-12-30; later candidate
    columns and the free-text stage leave it unchanged.  For the number
    42370 (the text 42370) that date lies in 2016. *)
Theorem serial_number_resolves (df : DataFrame) (pre : list string) (c : string)
    (rest : list string) (i : nat) (s : string) (q : Q) :
  candidates df = pre ++ c :: rest ->
  (forall c', In c' pre ->
     nth_error (parse_candidate N P (getitem df c')) i = Some None) ->
  nth_error (getitem df c) i = Some (Some s) ->
  P s = None -> P (Str.split_first "/" s) = None ->
  N s = Fin q -> (50 <= q)%Q -> (q <= 60000)%Q ->
  nth_error (excel_dates N P df) i = Some (Some (Timestamp 1899 12 30 + q)%Q) /\
  ((q == 42370)%Q ->
   (Timestamp 2016 1 1 <= Timestamp 1899 12 30 + q)%Q /\
   (Timestamp 1899 12 30 + q < Timestamp 2017 1 1)%Q).
Proof.
  intros Hc Hpre Hi Hp Hr Hn Hlo Hhi. split.
  - unfold excel_dates. rewrite Hc.
    pose proof (parse_candidate_serial _ _ Hi Hp Hr Hn Hlo Hhi) as Hpc.
    assert (i < len df) as Hlt.
    { rewrite <- (getitem_length df c). apply nth_error_Some. congruence. }
    apply sniff_dates_keeps.
    + apply resolve_dates_length, repeat_length.
    + apply resolve_dates_reaches; try assumption.
      * apply repeat_length.
      * now apply repeat_nth_error.
  - intros Hq. rewrite Hq. split; [discriminate|reflexivity].
Qed.

End Dates.

(** ** The flags of the record in row [i] *)

Lemma masks_of_row (l : list Flags) (i : nat) (fl : Flags) :
  nth_error l i = Some fl -> row_of (masks_of l) i fl.
Proof.
  intros H. unfold row_of, masks_of. cbn [m_us m_dated_any m_dated_full m_post2010
    m_bucket m_valid m_unc2k m_gbad m_captive m_has_media].
  repeat split; apply map_nth_error, H.
Qed.

Section RowFlags.

Variable N : string -> float64.   (* pd.to_numeric *)
Variable P : string -> datetime.  (* pd.to_datetime *)

Lemma chunk_masks_row (chunk : DataFrame) (m : Masks) (i : nat) (r : list cell) :
  chunk_masks N P chunk = Ok m ->
  nth_error (rows chunk) i = Some r ->
  row_of m i (stream_flags N P (field chunk r)).
Proof.
  intros Hm Hr. rewrite (chunk_masks_rows N P chunk Hm).
  apply masks_of_row.
  exact (map_nth_error (fun x => stream_flags N P (field chunk x)) i _ Hr).
Qed.

Lemma excel_masks_row (df : DataFrame) (i : nat) (r : list cell) :
  nth_error (rows df) i = Some r ->
  exists dt, nth_error (excel_dates N P df) i = Some dt /\
             row_of (excel_masks N P df) i (excel_flags N (alias df r) dt).
Proof.
  intros Hr. destruct (dated_rows_nth N P df i Hr) as [dt [Hd Hdr]].
  exists dt. split; [exact Hd|].
  rewrite excel_masks_rows. apply masks_of_row.
  exact (map_nth_error
           (fun p => excel_flags N (alias df (snd p)) (fst p)) i _ Hdr).
Qed.

End RowFlags.

(** ** A year found in free text *)

Lemma find_split (r : Re.regex) (s : list ascii) prev bef b rest :
  Re.find r prev bef s = Some (b, rest) ->
  exists pre s' prev', s = pre ++ s' /\ b = rev bef ++ pre /\
                       Re.match_here r prev' s' = Some rest.
Proof.
  revert prev bef. induction s as [|c s IH]; intros prev bef; simpl.
  - destruct (Re.match_here r prev []) eqn:E; [|discriminate].
    intros [= <- <-]. exists [], [], prev.
    repeat split; rewrite ?app_nil_r; auto.
  - destruct (Re.match_here r prev (c :: s)) eqn:E.
    + intros [= <- <-]. exists [], (c :: s), prev.
      repeat split; rewrite ?app_nil_r; auto.
    + intros H. destruct (IH _ _ H) as (pre & s' & prev' & -> & -> & Hm).
      exists (c :: pre), s', prev'. simpl. rewrite <- app_assoc. repeat split.
      exact Hm.
Qed.

Lemma digit_code (c : ascii) :
  Str.is_digit c = true -> 48 <= Str.code c <= 57.
Proof.
  unfold Str.is_digit, Str.in_range. rewrite andb_true_iff, !Nat.leb_le. tauto.
Qed.

(** A match of [YEAR_IN_TEXT] is four digits that read 1900 to 2099. *)
Lemma year_match prev s rest :
  Re.match_here YEAR_IN_TEXT prev s = Some rest ->
  exists a b c d v, s = a :: b :: c :: d :: rest /\
     digits_value 0 [a; b; c; d] = Some v /\ (1900 <= v <= 2099)%Z.
Proof.
  unfold Re.match_here, YEAR_IN_TEXT.
  destruct s as [|a [|b [|c [|d rest']]]];
    cbn -[Ascii.eqb Str.is_digit digits_value];
    repeat match goal with
           | |- context [Ascii.eqb ?x ?y] => destruct (Ascii.eqb_spec x y); subst
           end;
    cbn -[Ascii.eqb Str.is_digit digits_value]; try discriminate.
  all: destruct (Str.is_digit c) eqn:Hc; cbn -[Ascii.eqb Str.is_digit digits_value];
    try discriminate.
  all: destruct (Str.is_digit d) eqn:Hd; cbn -[Ascii.eqb Str.is_digit digits_value];
    try discriminate.
  all: intros [= <-]; do 4 eexists; eexists; split; [reflexivity|].
  all: unfold digits_value; rewrite Hc, Hd; cbn -[Z.of_nat Z.mul Z.add Nat.sub Str.code].
  all: apply digit_code in Hc, Hd; split; [reflexivity|].
  all: change (Str.code "1") with 49; change (Str.code "9") with 57;
    change (Str.code "2") with 50; change (Str.code "0") with 48; lia.
Qed.

Lemma extract_year (txt y : string) :
  Re.extract YEAR_IN_TEXT txt = Some y ->
  exists v, digits_value 0 (Str.chars y) = Some v /\ (1900 <= v <= 2099)%Z.
Proof.
  unfold Re.extract.
  destruct (Re.find YEAR_IN_TEXT None [] (Str.chars txt)) as [[before rest]|] eqn:E;
    [|discriminate].
  destruct (@find_split _ _ _ _ _ _ E) as (pre & s' & prev' & Hl & Hb & Hm).
  destruct (@year_match _ _ _ Hm) as (a & b & c & d & v & -> & Hv & Hr).
  simpl in Hb. subst before. rewrite Hl.
  intros [= <-]. exists v. split; [|exact Hr].
  rewrite skipn_app, skipn_all, Nat.sub_diag. simpl skipn.
  rewrite length_app. simpl List.length.
  replace (List.length pre + S (S (S (S (List.length rest)))) - List.length pre
           - List.length rest) with 4 by lia.
  simpl firstn. unfold Str.chars, Str.of_chars.
  rewrite list_ascii_of_string_of_list_ascii. exact Hv.
Qed.

Lemma any_isna (dt : list datetime) (i : nat) :
  nth_error dt i = Some None -> any (isna dt) = true.
Proof.
  intros H. unfold any, isna. apply existsb_exists. exists true. split; [|reflexivity].
  apply in_map_iff. exists None. split; [reflexivity|].
  eapply nth_error_In, H.
Qed.

Lemma known_iff (x : float64) : known x = true <-> x <> NaN.
Proof.
  destruct x; unfold known; simpl; split; intros H;
    try discriminate; try reflexivity.
  now contradiction H.
Qed.

Lemma resolved_iff (t : datetime) : resolved t = true <-> t <> None.
Proof.
  destruct t; simpl; split; intros H; try discriminate; try reflexivity.
  now contradiction H.
Qed.

Section DatedFull.

Variable N : string -> float64.   (* pd.to_numeric *)
Variable P : string -> datetime.  (* pd.to_datetime *)

(** The free-text stage dates every record whose text holds a year. *)
Lemma sniffed_year_resolves (df : DataFrame) (i : nat) (txt y : string) :
  List.filter (has_column df) TEXT_COLUMNS <> [] ->
  nth_error (joined_text df (List.filter (has_column df) TEXT_COLUMNS)) i = Some txt ->
  Re.extract YEAR_IN_TEXT txt = Some y ->
  exists t, nth_error (excel_dates N P df) i = Some (Some t).
Proof.
  intros Hcols Htxt Hy. unfold excel_dates.
  set (dt0 := resolve_dates N P df (candidates df) (repeat None (len df))).
  assert (List.length dt0 = len df) as Hlen
    by (apply resolve_dates_length, repeat_length).
  assert (i < len df) as Hi.
  { assert (i < List.length (joined_text df (List.filter (has_column df) TEXT_COLUMNS)))
      by (apply nth_error_Some; congruence).
    unfold joined_text in H. now rewrite length_map in H. }
  destruct (nth_error dt0 i) as [[t|]|] eqn:E.
  - exists t. now apply sniff_dates_keeps.
  - unfold sniff_dates. rewrite (any_isna _ _ E).
    destruct (List.filter (has_column df) TEXT_COLUMNS) as [|c cs] eqn:Ec;
      [contradiction|].
    cbv zeta. rewrite !map_map.
    set (txts := joined_text df (c :: cs)) in *.
    assert (List.length txts = len df) as Ht
      by (unfold txts, joined_text; now rewrite length_map).
    destruct (extract_year _ Hy) as (v & Hv & _).
    assert (nth_error (List.map (fun x => year_start (Re.extract YEAR_IN_TEXT x)) txts) i
            = Some (Some (Timestamp v 1 1))) as Hyear.
    { rewrite (map_nth_error (fun x => year_start (Re.extract YEAR_IN_TEXT x)) i txts Htxt).
      rewrite Hy. simpl. now rewrite Hv. }
    pose proof (map_nth_error P i txts Htxt) as Hp.
    unfold datetime in *.
    destruct (P txt) as [t|].
    + exists t. apply fill_nth_error_some.
      * rewrite fill_length; rewrite ?length_map; congruence.
      * apply (fill_nth_error_none _ _ _ E Hp).
    + exists (Timestamp v 1 1). apply fill_nth_error_none; [|exact Hyear].
      apply (fill_nth_error_none _ _ _ E Hp).
  - apply nth_error_None in E. lia.
Qed.

(** C5 (amended): dated-full means that a date was resolved for the
    record or that year, month and day are all present.  In the
    streaming path a date is resolved when the event-date text parses; in
    the workbook path when any stage resolves it, including the year
    found in free text, which stands for the first of January of that
    year: such a record is dated-full although only its year is known.
    Dated-any holds when the event-date text is not blank (streaming) or
    a date was resolved (workbook), or the year is present; so a record
    with a year field, no resolved date and no month or day is dated-any
    and not dated-full. *)
Theorem dated_full_iff_resolved_or_parts :
  (forall chunk m i r,
     chunk_masks N P chunk = Ok m ->
     nth_error (rows chunk) i = Some r ->
     let ev := field chunk r "eventDate" in
     let year := numeric_cell N (field chunk r "year") in
     let month := numeric_cell N (field chunk r "month") in
     let day := numeric_cell N (field chunk r "day") in
     exists any full,
       nth_error (m_dated_any m) i = Some any /\
       nth_error (m_dated_full m) i = Some full /\
       (any = true <-> Str.strip (text_or "" ev) <> "" \/ year <> NaN) /\
       (full = true <->
        datetime_cell P ev <> None \/ (year <> NaN /\ month <> NaN /\ day <> NaN))) /\
  (forall df i r,
     nth_error (rows df) i = Some r ->
     let year := numeric_cell N (alias df r ["year"]) in
     let month := numeric_cell N (alias df r ["month"]) in
     let day := numeric_cell N (alias df r ["day"]) in
     exists dt any full,
       nth_error (excel_dates N P df) i = Some dt /\
       nth_error (m_dated_any (excel_masks N P df)) i = Some any /\
       nth_error (m_dated_full (excel_masks N P df)) i = Some full /\
       (any = true <-> dt <> None \/ year <> NaN) /\
       (full = true <->
        dt <> None \/ (year <> NaN /\ month <> NaN /\ day <> NaN))) /\
  (forall df i txt y,
     List.filter (has_column df) TEXT_COLUMNS <> [] ->
     nth_error (joined_text df (List.filter (has_column df) TEXT_COLUMNS)) i = Some txt ->
     Re.extract YEAR_IN_TEXT txt = Some y ->
     (exists t, nth_error (excel_dates N P df) i = Some (Some t)) /\
     nth_error (m_dated_full (excel_masks N P df)) i = Some true).
Proof.
  split; [|split].
  - intros chunk m i r Hm Hr ev year month day.
    destruct (@chunk_masks_row N P chunk m i r Hm Hr) as (_ & Hany & Hfull & _).
    eexists. eexists. split; [exact Hany|]. split; [exact Hfull|].
    cbn [hasAnyDate hasFullDate stream_flags]. split.
    + rewrite orb_true_iff, negb_true_iff, String.eqb_neq, known_iff. reflexivity.
    + rewrite orb_true_iff, !andb_true_iff, resolved_iff, !known_iff. tauto.
  - intros df i r Hr year month day.
    destruct (@excel_masks_row N P df i r Hr) as (dt & Hd & _ & Hany & Hfull & _).
    exists dt. eexists. eexists.
    split; [exact Hd|]. split; [exact Hany|]. split; [exact Hfull|].
    cbn [hasAnyDate hasFullDate excel_flags]. split.
    + rewrite orb_true_iff, resolved_iff, known_iff. reflexivity.
    + rewrite orb_true_iff, !andb_true_iff, resolved_iff, !known_iff. tauto.
  - intros df i txt y Hcols Htxt Hy.
    destruct (@sniffed_year_resolves df i txt y Hcols Htxt Hy) as [t Ht].
    split; [now exists t|].
    assert (i < List.length (rows df)) as Hi.
    { pose proof (excel_dates_length N P df) as Hlen. unfold len in Hlen.
      rewrite <- Hlen. apply nth_error_Some. congruence. }
    destruct (nth_error (rows df) i) as [r|] eqn:Hr;
      [|apply nth_error_None in Hr; lia].
    destruct (@excel_masks_row N P df i r Hr) as (dt & Hd & _ & _ & Hfull & _).
    rewrite Hfull. rewrite Hd in Ht. injection Ht as ->. reflexivity.
Qed.

End DatedFull.

(** ** The two paths on one table *)




Section TwoPaths.

Variable N : string -> float64.   (* pd.to_numeric *)
Variable P : string -> datetime.  (* pd.to_datetime *)









End TwoPaths.

(** ** Basis buckets *)

Lemma basis_bucket_in (val : string) : In (basis_bucket val) BUCKETS.
Proof.
  unfold basis_bucket.
  destruct (Str.mem (Str.strip val) _) eqn:E.
  - apply mem_In in E. simpl in E. simpl. tauto.
  - repeat match goal with
           | |- context [if ?b then _ else _] => destruct b
           end; simpl; tauto.
Qed.

(** Among the six names, a bucket matches exactly one. *)
Lemma one_bucket (x : string) (u : bool) :
  In x BUCKETS ->
  fold_right (fun k acc => (if String.eqb x k && u then 1 else 0) + acc) 0 BUCKETS
  = if u then 1 else 0.
Proof.
  intros H. simpl in H.
  repeat (destruct H as [<-|H]; [destruct u; reflexivity|]). contradiction.
Qed.

Lemma count_bucket_cons (u : bool) (us : list bool) (x : string) (b : list string)
    (k : string) :
  count_bucket (u :: us) (x :: b) k =
  (if String.eqb x k && u then 1 else 0) + count_bucket us b k.
Proof.
  unfold count_bucket, vsum, vand, zipw. simpl.
  destruct (String.eqb x k && u); reflexivity.
Qed.

(** Over records that all have one of the six buckets, the six counts
    add up to the number of US records. *)
Lemma bucket_counts_sum (us : list bool) (b : list string) :
  List.length b = List.length us ->
  Forall (fun x => In x BUCKETS) b ->
  fold_right (fun k acc => count_bucket us b k + acc) 0 BUCKETS = vsum us.
Proof.
  revert us. induction b as [|x b IH]; intros [|u us] Hlen Hall;
    try discriminate; [reflexivity|].
  inversion Hall as [|? ? Hx Hb]; subst.
  injection Hlen as Hlen. specialize (IH us Hlen Hb).
  pose proof (one_bucket u Hx) as H1.
  unfold BUCKETS in *. cbn [fold_right] in *.
  rewrite !count_bucket_cons.
  assert (vsum (u :: us) = (if u then 1 else 0) + vsum us) as ->
    by (unfold vsum; simpl; destruct u; reflexivity).
  lia.
Qed.

Lemma add_buckets_total (us : list bool) (b : list string) :
  dict_total (add_buckets us b zero_basis_counts) =
  fold_right (fun k acc => count_bucket us b k + acc) 0 BUCKETS.
Proof. reflexivity. Qed.

Lemma dict_add_keys (k : string) (n : nat) (d : list (string * nat)) :
  List.map fst (dict_add k n d) = List.map fst d.
Proof.
  induction d as [|[k' v] d IH]; simpl; [reflexivity|].
  destruct (String.eqb k' k); simpl; [reflexivity|]. now rewrite IH.
Qed.

Lemma dict_add_total (k : string) (n : nat) (d : list (string * nat)) :
  In k (List.map fst d) -> dict_total (dict_add k n d) = dict_total d + n.
Proof.
  unfold dict_total. induction d as [|[k' v] d IH]; simpl; [contradiction|].
  destruct (String.eqb_spec k' k) as [->|Hne]; simpl; [lia|].
  intros [H|H]; [contradiction|]. rewrite (IH H). lia.
Qed.

Lemma add_each_total (count : string -> nat) (ks : list string)
    (d : list (string * nat)) :
  (forall k, In k ks -> In k (List.map fst d)) ->
  dict_total (fold_left (fun d k => dict_add k (count k) d) ks d) =
  dict_total d + fold_right (fun k acc => count k + acc) 0 ks.
Proof.
  revert d. induction ks as [|k ks IH]; intros d Hks; simpl; [lia|].
  rewrite IH.
  - rewrite dict_add_total; [lia|]. apply Hks. now left.
  - intros k' Hk'. rewrite dict_add_keys. apply Hks. now right.
Qed.

Lemma add_each_keys (count : string -> nat) (ks : list string)
    (d : list (string * nat)) :
  List.map fst (fold_left (fun d k => dict_add k (count k) d) ks d) = List.map fst d.
Proof.
  revert d. induction ks as [|k ks IH]; intros d; simpl; [reflexivity|].
  now rewrite IH, dict_add_keys.
Qed.

Section Buckets.

Variable N : string -> float64.   (* pd.to_numeric *)
Variable P : string -> datetime.  (* pd.to_datetime *)

(** The workbook path, for comparison: the six bucket counts of every
    species row add up to its [usa_records]. *)
Lemma workbook_bucket_counts_sum (df : DataFrame) (row : SpeciesRow) :
  In row (fst (scan_workbook N P df)) ->
  dict_total (basis_counts (counts row)) = usa_records (counts row).
Proof.
  unfold scan_workbook. cbn [fst]. intros Hrow.
  apply in_map_iff in Hrow. destruct Hrow as [sid [<- _]].
  unfold excel_species_row, finalize, accumulate, overall_init.
  cbn [counts basis_counts usa_records].
  rewrite add_buckets_total, excel_masks_rows. cbn [m_bucket m_us masks_of].
  assert (List.length (dated_rows N P df) = len df) as Hlen.
  { unfold dated_rows. rewrite length_combine, excel_dates_length. apply Nat.min_id. }
  apply bucket_counts_sum.
  - unfold vand. rewrite zipw_length; rewrite !length_map; [reflexivity|].
    unfold excel_species_id, fillna. rewrite !length_map, getcol_as_map, length_map.
    exact Hlen.
  - apply Forall_forall. intros x Hx. apply in_map_iff in Hx.
    destruct Hx as [fl [<- Hfl]]. apply in_map_iff in Hfl.
    destruct Hfl as [p [<- _]]. apply basis_bucket_in.
Qed.

(** The streaming path on one batch: the bucket counts of a dict grow,
    in total, by the number of US records of the batch. *)
Lemma scan_chunks_bucket_total (chunks : list DataFrame)
    (st st' : Counters * Counters) (base : nat) :
  scan_chunks N P chunks st = Ok st' ->
  List.map fst (basis_counts (fst st)) = BUCKETS ->
  dict_total (basis_counts (fst st)) = base + usa_records (fst st) ->
  List.map fst (basis_counts (fst st')) = BUCKETS /\
  dict_total (basis_counts (fst st')) = base + usa_records (fst st').
Proof.
  revert st. induction chunks as [|chunk chunks IH]; intros st; simpl.
  - intros [= <-]. auto.
  - unfold scan_chunk at 1.
    destruct (chunk_masks N P chunk) as [m|e] eqn:Hm; simpl; [|discriminate].
    intros H Hkeys Htotal. apply (IH _ H); cbn [fst accumulate add_total basis_counts
      usa_records]; unfold add_buckets.
    + now rewrite add_each_keys.
    + rewrite add_each_total by (intros k Hk; now rewrite Hkeys).
      rewrite (chunk_masks_rows N P chunk Hm). cbn [m_bucket m_us masks_of].
      rewrite bucket_counts_sum; [lia|now rewrite !length_map|].
      apply Forall_forall. intros x Hx. apply in_map_iff in Hx.
      destruct Hx as [fl [<- Hfl]]. apply in_map_iff in Hfl.
      destruct Hfl as [r [<- _]]. apply basis_bucket_in.
Qed.

(** The streaming path on one file: the bucket counts of the new species
    row add up to its [usa_records] plus whatever the buckets of
    [overall] held before the file. *)
Lemma scan_file_bucket_total (f : SourceFile) (species_rows rows' : list SpeciesRow)
    (overall overall' : Counters) :
  List.map fst (basis_counts overall) = BUCKETS ->
  scan_file N P f (species_rows, overall) = Ok (rows', overall') ->
  exists row,
    rows' = species_rows ++ [row] /\
    dict_total (basis_counts (counts row)) =
    dict_total (basis_counts overall) + usa_records (counts row).
Proof.
  intros Hkeys. unfold scan_file.
  destruct (read_table f) as [chunks|e]; simpl; [|discriminate].
  destruct (scan_chunks N P chunks (new_species overall, overall))
    as [st1|e] eqn:E; simpl; [|discriminate].
  intros [= <- _]. eexists. split; [reflexivity|].
  cbn [counts finalize].
  destruct (@scan_chunks_bucket_total chunks _ _
              (dict_total (basis_counts overall)) E) as [_ H].
  - exact Hkeys.
  - cbn [fst new_species basis_counts usa_records]. lia.
  - exact H.
Qed.

End Buckets.

(** C6 (code defect): in the streaming path the bucket counts of a new
    species start from a copy of the counts accumulated so far in
    [overall], not from zero.  With two species files, the first holding
    one US record and the second none, the row of the second species has
    [usa_records] 0 and bucket counts that add up to 1. *)
Theorem second_species_starts_from_overall_buckets :
  exists row_a row_b overall,
    scan_tabular_files Sample.to_numeric Sample.to_datetime Example.two_species
    = Ok (Pair [row_a; row_b] overall) /\
    species_id row_b = "b" /\
    usa_records (counts row_b) = 0 /\
    dict_get "HumanObservation" (basis_counts (counts row_b)) = 1 /\
    dict_total (basis_counts (counts row_b)) = 1 /\
    dict_total (basis_counts (counts row_a)) = usa_records (counts row_a).
Proof.
  do 3 eexists. split; [vm_compute; reflexivity|].
  repeat split.
Qed.

(** ** The properties on sample inputs *)



Lemma chunk_masks_missing_column_witness :
  In "countryCode" STREAM_COLUMNS /\
  get Example.no_country_code "countryCode" = None /\
  chunk_masks Sample.to_numeric Sample.to_datetime Example.no_country_code
  = Raise AttributeError.
Proof.
  assert (In "countryCode" STREAM_COLUMNS) as H1 by (simpl; tauto).
  assert (get Example.no_country_code "countryCode" = None) as H2 by reflexivity.
  split; [exact H1|]. split; [exact H2|].
  exact (@chunk_masks_missing_column Sample.to_numeric Sample.to_datetime
           Example.no_country_code "countryCode" H1 H2).
Defined.

(** C3, as stated, fails: with a readable file and one that cannot be
    opened, the run ends in the exception; the readable file, scanned
    before it, leaves no result. *)
Lemma locked_file_loses_every_result :
  scan_tabular_files Sample.to_numeric Sample.to_datetime Example.one_locked
  = Raise OSError /\
  main Sample.to_numeric Sample.to_datetime Example.one_locked = Raise OSError.
Proof. split; vm_compute; reflexivity. Qed.

Lemma unreadable_file_aborts_run_witness :
  In (Example.locked "b.csv")
     [Example.file "a.csv" (Example.table [Example.observed "HumanObservation" None]);
      Example.locked "b.csv"] /\
  is_source (Example.locked "b.csv") = true /\
  read_error (Example.locked "b.csv") = Some OSError /\
  exists e, main Sample.to_numeric Sample.to_datetime Example.one_locked = Raise e.
Proof.
  assert (In (Example.locked "b.csv")
            [Example.file "a.csv" (Example.table [Example.observed "HumanObservation" None]);
             Example.locked "b.csv"]) as H1 by (simpl; tauto).
  assert (is_source (Example.locked "b.csv") = true) as H2 by (vm_compute; reflexivity).
  assert (read_error (Example.locked "b.csv") = Some OSError) as H3 by reflexivity.
  split; [exact H1|]. split; [exact H2|]. split; [exact H3|].
  exact (proj1 (proj2 (@unreadable_file_aborts_run
                         Sample.to_numeric Sample.to_datetime _ _ _ H1 H2 H3))).
Defined.

(** C5, as stated, fails: a workbook record whose only date information
    is the year 1987 in its remarks is dated to 1987-01-01 and counted
    as dated-full. *)
Lemma year_in_free_text_is_dated_full :
  candidates Example.year_in_remarks = [] /\
  getcol Example.year_in_remarks ["year"] = [None] /\
  getcol Example.year_in_remarks ["month"] = [None] /\
  getcol Example.year_in_remarks ["day"] = [None] /\
  excel_dates Sample.to_numeric Sample.to_datetime Example.year_in_remarks
  = [Some (Timestamp 1987 1 1)] /\
  m_dated_full (excel_masks Sample.to_numeric Sample.to_datetime Example.year_in_remarks)
  = [true].
Proof. repeat split; vm_compute; reflexivity. Qed.

Lemma dated_full_iff_resolved_or_parts_witness :
  List.filter (has_column Example.year_in_remarks) TEXT_COLUMNS <> [] /\
  nth_error (joined_text Example.year_in_remarks
               (List.filter (has_column Example.year_in_remarks) TEXT_COLUMNS)) 0
  = Some "seen 1987" /\
  Re.extract YEAR_IN_TEXT "seen 1987" = Some "1987" /\
  nth_error
    (m_dated_full (excel_masks Sample.to_numeric Sample.to_datetime Example.year_in_remarks))
    0 = Some true.
Proof.
  assert (List.filter (has_column Example.year_in_remarks) TEXT_COLUMNS <> []) as H1
    by (vm_compute; discriminate).
  assert (nth_error (joined_text Example.year_in_remarks
                       (List.filter (has_column Example.year_in_remarks) TEXT_COLUMNS)) 0
          = Some "seen 1987") as H2 by (vm_compute; reflexivity).
  assert (Re.extract YEAR_IN_TEXT "seen 1987" = Some "1987") as H3
    by (vm_compute; reflexivity).
  split; [exact H1|]. split; [exact H2|]. split; [exact H3|].
  exact (proj2 (proj2 (proj2 (@dated_full_iff_resolved_or_parts
                                Sample.to_numeric Sample.to_datetime))
                  Example.year_in_remarks 0 "seen 1987" "1987" H1 H2 H3)).
Defined.

(** The quotient is rounded as a float64: 1/160 is 0.00625, its float64
    lies above and the field holds 0.0063; the float64 of 3/160 lies
    below 0.01875 and the field holds 0.0187; 1/20000 gives 0.0001. *)
Lemma pct_rounds_the_float64 :
  pct 1 160 = (63 # 10000)%Q /\
  pct 3 160 = (187 # 10000)%Q /\
  pct 1 (200 * 100) = (1 # 10000)%Q.
Proof. repeat split; vm_compute; reflexivity. Qed.

(** C7, as stated, fails: with three US records of which one is dated,
    the field holds 0.3333, which is not the quotient 1/3. *)
Lemma percentage_is_rounded :
  exists row overall,
    scan_tabular_files Sample.to_numeric Sample.to_datetime Example.three_records
    = Ok (Pair [row] overall) /\
    usa_records (counts row) = 3 /\
    dated_any (counts row) = 1 /\
    pct_dated_any row = (3333 # 10000)%Q /\
    ~ (pct_dated_any row == Spec.quotient 1 3)%Q.
Proof.
  do 2 eexists. split; [vm_compute; reflexivity|].
  repeat split. cbn [pct_dated_any]. intros H. vm_compute in H. discriminate.
Qed.

Lemma percentages_rounded_witness :
  exists rows overall,
    scan_tabular_files Sample.to_numeric Sample.to_datetime Example.three_records
    = Ok (Pair rows overall) /\
    Forall Spec.finalized rows.
Proof.
  destruct (scan_tabular_files Sample.to_numeric Sample.to_datetime Example.three_records)
    as [[|rows overall]|e] eqn:E.
  - vm_compute in E. discriminate.
  - exists rows, overall. split; [reflexivity|].
    exact (proj1 (@percentages_rounded_in_unit_interval
                    Sample.to_numeric Sample.to_datetime)
             Example.three_records rows overall E).
  - vm_compute in E. discriminate.
Defined.

Lemma serial_number_resolves_witness :
  candidates Example.serial_workbook = ["eventDate"] /\
  nth_error (getitem Example.serial_workbook "eventDate") 0 = Some (Some "42370") /\
  Sample.to_datetime "42370" = None /\
  Sample.to_datetime (Str.split_first "/" "42370") = None /\
  Sample.to_numeric "42370" = Fin (42370 # 1) /\
  nth_error (excel_dates Sample.to_numeric Sample.to_datetime Example.serial_workbook) 0
  = Some (Some (Timestamp 1899 12 30 + (42370 # 1))%Q) /\
  (Timestamp 2016 1 1 <= Timestamp 1899 12 30 + (42370 # 1))%Q /\
  (Timestamp 1899 12 30 + (42370 # 1) < Timestamp 2017 1 1)%Q.
Proof.
  assert (candidates Example.serial_workbook = ["eventDate"]) as H1
    by (vm_compute; reflexivity).
  assert (nth_error (getitem Example.serial_workbook "eventDate") 0
          = Some (Some "42370")) as H2 by reflexivity.
  assert (Sample.to_datetime "42370" = None) as H3 by reflexivity.
  assert (Sample.to_datetime (Str.split_first "/" "42370") = None) as H4 by reflexivity.
  assert (Sample.to_numeric "42370" = Fin (42370 # 1)) as H5 by reflexivity.
  assert (50 <= 42370 # 1)%Q as H6 by discriminate.
  assert (42370 # 1 <= 60000)%Q as H7 by discriminate.
  assert (forall c', In c' (@nil string) ->
            nth_error (parse_candidate Sample.to_numeric Sample.to_datetime
                         (getitem Example.serial_workbook c')) 0 = Some None) as H0
    by (intros c' []).
  pose proof (@serial_number_resolves Sample.to_numeric Sample.to_datetime
                Example.serial_workbook [] "eventDate" [] 0 "42370" (42370 # 1)%Q
                H1 H0 H2 H3 H4 H5 H6 H7) as [Hdate Hyear].
  split; [exact H1|]. split; [exact H2|]. split; [exact H3|]. split; [exact H4|].
  split; [exact H5|]. split; [exact Hdate|]. apply Hyear. reflexivity.
Defined.

(** C8, as stated for every record, fails: the streaming path, which
    [main] tries first, has no serial stage.  A file whose one record
    is in the US and has the event date 42370 gives a row with one dated
    record that is neither fully dated nor from 2010 on; the same table
    read as the workbook gives both. *)
Lemma serial_number_unresolved_when_streamed :
  Sample.to_numeric "42370" = Fin (42370 # 1) /\
  (exists row overall,
     main Sample.to_numeric Sample.to_datetime
       (Some [Example.file "a.csv"
                (Example.table [Example.named (Some "US") (Some "42370")])])
     = Ok (Wrote [row] overall) /\
     usa_records (counts row) = 1 /\ dated_any (counts row) = 1 /\
     dated_full (counts row) = 0 /\ post_2010 (counts row) = 0) /\
  (let workbook_result :=
     scan_workbook Sample.to_numeric Sample.to_datetime
       (Example.table [Example.named (Some "US") (Some "42370")]) in
   usa_records (snd workbook_result) = 1 /\
   dated_full (snd workbook_result) = 1 /\ post_2010 (snd workbook_result) = 1).
Proof.
  split; [vm_compute; reflexivity|]. split.
  - do 2 eexists. split; [vm_compute; reflexivity|]. repeat split.
  - vm_compute. repeat split.
Qed.

Lemma cleaned_workbook_loaded_against_preference_witness :
  option_map name (select (rank Example.three_workbooks)) = Some "y_clean.xlsx" /\
  select (rank [Example.cleaned_workbook; Example.raw_workbook])
  = Some Example.cleaned_workbook /\
  select (rank [Example.raw_workbook; Example.cleaned_workbook])
  = Some Example.cleaned_workbook.
Proof.
  split.
  - exact (f_equal (option_map name)
             (proj1 (@cleaned_workbook_loaded_against_preference
                       (Example.file "x_clean.xlsx"
                          {| columns := ["eventDate"]; rows := [] |})
                       (Example.file "y_clean.xlsx"
                          {| columns := ["eventDate"]; rows := [] |})
                       (Example.file "z.xlsx"
                          {| columns := ["eventDate"]; rows := [] |})
                       eq_refl eq_refl eq_refl) eq_refl eq_refl)).
  - apply (proj2 (@cleaned_workbook_loaded_against_preference
                    Example.cleaned_workbook Example.cleaned_workbook
                    Example.raw_workbook eq_refl eq_refl eq_refl));
      [reflexivity|vm_compute; reflexivity].
Defined.

(** C9, on sample workbooks.  The cleaned workbook and the other one have
    the same score, 6; the cleaned one has one more column, ranks first
    and is loaded, in whichever order the directory lists them.  And of
    three workbooks with the same header, two of them cleaned and listed
    first, the second cleaned one is loaded, not the one that is not
    cleaned. *)
Lemma cleaned_workbook_selected_on_equal_score :
  fst (score_excel Example.cleaned_workbook) = 6%Z /\
  fst (score_excel Example.raw_workbook) = 6%Z /\
  Str.endswith (name Example.cleaned_workbook) "_clean.xlsx" = true /\
  Str.endswith (name Example.raw_workbook) "_clean.xlsx" = false /\
  option_map name (select (rank [Example.cleaned_workbook; Example.raw_workbook]))
  = Some "records_clean.xlsx" /\
  option_map name (select (rank [Example.raw_workbook; Example.cleaned_workbook]))
  = Some "records_clean.xlsx" /\
  List.map score_excel Example.three_workbooks = [(6, 1); (6, 1); (6, 1)]%Z /\
  option_map name (select (rank Example.three_workbooks)) = Some "y_clean.xlsx".
Proof. repeat split; vm_compute; reflexivity. Qed.

Lemma inUS_iff_token_or_box_witness :
  (exists m,
     chunk_masks Sample.to_numeric Sample.to_datetime Example.three_places = Ok m /\
     nth_error (rows Example.three_places) 1 = Some (Example.located "40.0" "-75.0") /\
     m_us m = [true; true; false] /\
     exists b, nth_error (m_us m) 1 = Some b /\
       (b = true <->
        Spec.InUS None None (Sample.to_numeric "40.0") (Sample.to_numeric "-75.0"))) /\
  (m_us (excel_masks Sample.to_numeric Sample.to_datetime
            (Example.table [Example.named (Some "US") None;
                            Example.located "40.0" "-75.0";
                            Example.located "40.0" "10.0"]))
   = [true; true; false] /\
   exists b,
     nth_error
       (m_us (excel_masks Sample.to_numeric Sample.to_datetime
                (Example.table [Example.named (Some "US") None;
                                Example.located "40.0" "-75.0";
                                Example.located "40.0" "10.0"]))) 0
     = Some b /\
     (b = true <-> Spec.InUS_workbook (Some "US") NaN NaN)).
Proof.
  split.
  - destruct (chunk_masks Sample.to_numeric Sample.to_datetime Example.three_places)
      as [m|e] eqn:E; [|vm_compute in E; discriminate].
    assert (nth_error (rows Example.three_places) 1
            = Some (Example.located "40.0" "-75.0")) as Hr by reflexivity.
    exists m. split; [reflexivity|]. split; [exact Hr|]. split.
    + vm_compute in E. injection E as <-. reflexivity.
    + exact (proj1 (@inUS_iff_token_or_box Sample.to_numeric Sample.to_datetime)
               Example.three_places m 1 (Example.located "40.0" "-75.0") E Hr).
  - split; [vm_compute; reflexivity|].
    exact (proj1 (proj2 (@inUS_iff_token_or_box Sample.to_numeric Sample.to_datetime))
             (Example.table [Example.named (Some "US") None;
                             Example.located "40.0" "-75.0";
                             Example.located "40.0" "10.0"])
             0 (Example.named (Some "US") None) eq_refl).
Defined.

(** C10, as stated, fails in the workbook path: a record whose country
    code is US and whose country name is missing is in the US for the
    streaming path, and the claim's condition holds of it, but the
    workbook path reads the [country] column only and leaves it out. *)
Lemma workbook_reads_one_country_column :
  Spec.InUS (field Example.three_places (Example.record (Some "US") None) "countryCode")
            (field Example.three_places (Example.record (Some "US") None) "country")
            NaN NaN /\
  (exists m,
     chunk_masks Sample.to_numeric Sample.to_datetime
       (Example.table [Example.record (Some "US") None]) = Ok m /\
     m_us m = [true]) /\
  Spec.resolved_header STREAM_COLUMNS ["country"; "countryCode"] = Some "country" /\
  m_us (excel_masks Sample.to_numeric Sample.to_datetime
          (Example.table [Example.record (Some "US") None])) = [false].
Proof.
  split; [|split; [|split]].
  - left. exists "US". split; [reflexivity|]. simpl. tauto.
  - eexists. split; vm_compute; reflexivity.
  - vm_compute. reflexivity.
  - vm_compute. reflexivity.
Qed.

(** * Further properties of the scanner *)

(** ** Batches of a delimited file *)

Lemma batches_partition (n : nat) (fuel : nat) (l : list (list cell)) :
  1 <= n -> List.length l <= fuel ->
  List.concat (batches fuel n l) = l /\
  Forall (fun b => 1 <= List.length b <= n) (batches fuel n l).
Proof.
  intros Hn. revert l. induction fuel as [|fuel IH]; intros l Hl.
  - destruct l as [|x l]; [split; constructor|].
    exfalso. cbn [List.length] in Hl. lia.
  - destruct l as [|x l]; [split; constructor|].
    cbn [batches]. cbn [List.concat].
    destruct (IH (skipn n (x :: l))) as [Hc Hf].
    { rewrite length_skipn. cbn [List.length] in *. lia. }
    rewrite Hc, firstn_skipn. split; [reflexivity|].
    constructor; [|exact Hf].
    rewrite length_firstn. simpl List.length. lia.
Qed.

(** X1: the batches of a delimited file hold its rows, each once and in
    order; every batch has the header of the file and at most 200000
    rows, and there is at least one batch, also for a file without
    rows. *)
Theorem csv_chunks_partition (df : DataFrame) :
  List.concat (List.map rows (csv_chunks df)) = rows df /\
  csv_chunks df <> [] /\
  Forall (fun chunk => columns chunk = columns df /\
                       List.length (rows chunk) <= chunksize)
         (csv_chunks df).
Proof.
  unfold csv_chunks. destruct (rows df) as [|x l] eqn:E.
  - simpl. rewrite E. repeat split; [discriminate|].
    constructor; [|constructor]. rewrite E. split; [reflexivity|apply Nat.le_0_l].
  - destruct (@batches_partition chunksize (List.length (x :: l)) (x :: l))
      as [Hc Hf];
      [unfold chunksize; apply (Nat.mul_le_mono 1 200 1 1000); lia|lia|].
    rewrite map_map. cbn [rows]. rewrite map_id. split; [exact Hc|]. split.
    + destruct (batches _ _ _) eqn:Eb; [simpl in Hc; discriminate|discriminate].
    + apply Forall_forall. intros chunk Hin. apply in_map_iff in Hin.
      destruct Hin as [b [<- Hb]]. cbn [columns rows]. split; [reflexivity|].
      rewrite Forall_forall in Hf. apply (Hf b Hb).
Qed.

(** ** The counters do not depend on the batches *)

Lemma vsum_app (a b : list bool) : vsum (a ++ b) = vsum a + vsum b.
Proof. unfold vsum. now rewrite filter_app, length_app. Qed.

Lemma zipw_app {A B C} (f : A -> B -> C) (a a' : list A) (b b' : list B) :
  List.length a = List.length b ->
  zipw f (a ++ a') (b ++ b') = zipw f a b ++ zipw f a' b'.
Proof.
  intros H. unfold zipw.
  revert b H. induction a as [|x a IH]; intros [|y b] H; try discriminate;
    simpl; [reflexivity|].
  injection H as H. now rewrite IH.
Qed.

Lemma count_in_app (us us' flag flag' : list bool) :
  List.length flag = List.length us ->
  count_in (us ++ us') (flag ++ flag') = count_in us flag + count_in us' flag'.
Proof.
  intros H. unfold count_in, vand. now rewrite zipw_app, vsum_app.
Qed.

Lemma count_bucket_app (us us' : list bool) (b b' : list string) (k : string) :
  List.length b = List.length us ->
  count_bucket (us ++ us') (b ++ b') k = count_bucket us b k + count_bucket us' b' k.
Proof.
  intros H. unfold count_bucket, vand.
  rewrite map_app, zipw_app, vsum_app; [reflexivity|now rewrite length_map].
Qed.

Lemma dict_add_add (k : string) (n1 n2 : nat) (d : list (string * nat)) :
  dict_add k n2 (dict_add k n1 d) = dict_add k (n1 + n2) d.
Proof.
  induction d as [|[k' v] d IH]; simpl; [reflexivity|].
  destruct (String.eqb k' k) eqn:E; simpl; rewrite E.
  - now rewrite Nat.add_assoc.
  - now rewrite IH.
Qed.

Lemma dict_add_comm (k1 k2 : string) (n1 n2 : nat) (d : list (string * nat)) :
  dict_add k1 n1 (dict_add k2 n2 d) = dict_add k2 n2 (dict_add k1 n1 d).
Proof.
  induction d as [|[k' v] d IH]; simpl; [reflexivity|].
  destruct (String.eqb k' k1) eqn:E1, (String.eqb k' k2) eqn:E2; simpl;
    rewrite ?E1, ?E2; try reflexivity.
  - f_equal. f_equal. lia.
  - now rewrite IH.
Qed.

Lemma add_each_comm (count : string -> nat) (ks : list string) (k : string)
    (n : nat) (d : list (string * nat)) :
  dict_add k n (fold_left (fun d k => dict_add k (count k) d) ks d) =
  fold_left (fun d k => dict_add k (count k) d) ks (dict_add k n d).
Proof.
  revert d. induction ks as [|k' ks IH]; intros d; simpl; [reflexivity|].
  now rewrite IH, dict_add_comm.
Qed.

Lemma add_each_plus (c1 c2 : string -> nat) (ks : list string)
    (d : list (string * nat)) :
  fold_left (fun d k => dict_add k (c1 k + c2 k) d) ks d =
  fold_left (fun d k => dict_add k (c2 k) d) ks
    (fold_left (fun d k => dict_add k (c1 k) d) ks d).
Proof.
  revert d. induction ks as [|k ks IH]; intros d; simpl; [reflexivity|].
  rewrite IH, (add_each_comm c1 ks k (c2 k)), dict_add_add. reflexivity.
Qed.

Lemma fold_left_pointwise {A B} (f g : A -> B -> A) (l : list B) (a : A) :
  (forall a b, f a b = g a b) -> fold_left f l a = fold_left g l a.
Proof.
  intros H. revert a. induction l as [|b l IH]; intros a; simpl; [reflexivity|].
  now rewrite H, IH.
Qed.

Lemma add_buckets_app (us us' : list bool) (b b' : list string)
    (d : list (string * nat)) :
  List.length b = List.length us ->
  add_buckets (us ++ us') (b ++ b') d = add_buckets us' b' (add_buckets us b d).
Proof.
  intros H. unfold add_buckets.
  rewrite <- (add_each_plus (count_bucket us b) (count_bucket us' b')).
  apply fold_left_pointwise. intros d' k. now rewrite count_bucket_app.
Qed.

Section Batches.

Variable N : string -> float64.   (* pd.to_numeric *)
Variable P : string -> datetime.  (* pd.to_datetime *)

(** Whether a batch has the seventeen columns depends on its header
    only; when it has them, its columns are the flags of its rows. *)
Lemma chunk_masks_by_header (cols : list string) :
  (forall rows, chunk_masks N P {| columns := cols; rows := rows |}
                = Raise AttributeError) \/
  (forall rows, chunk_masks N P {| columns := cols; rows := rows |}
                = Ok (masks_of (List.map
                        (fun r => stream_flags N P
                                    (field {| columns := cols; rows := [] |} r))
                        rows))).
Proof.
  assert ((forall rows, exists m,
              chunk_masks N P {| columns := cols; rows := rows |} = Ok m) \/
          (forall rows, chunk_masks N P {| columns := cols; rows := rows |}
                        = Raise AttributeError)) as [H|H].
  { unfold chunk_masks, get_numeric, series, call, get. cbn [columns].
    repeat match goal with
           | |- context [index_of ?n cols] =>
               destruct (index_of n cols); cbn [option_map Py.bind];
               [|right; intros rows; reflexivity]
           end.
    left. intros rows. eexists. reflexivity. }
  - right. intros rows. destruct (H rows) as [m Hm]. rewrite Hm.
    now rewrite (chunk_masks_rows N P _ Hm).
  - now left.
Qed.

Lemma count_flags_app (a b : list Flags) (c : Counters) :
  count_flags (a ++ b) c = count_flags b (count_flags a c).
Proof.
  unfold count_flags, accumulate, add_total, masks_of.
  cbn [total_records usa_records dated_any dated_full post_2010 basis_counts
       captive_flagged valid_coords uncertainty_le_2km gbif_issue_flagged
       has_media m_us m_dated_any m_dated_full m_post2010 m_bucket m_valid
       m_unc2k m_gbad m_captive m_has_media].
  rewrite !map_app, length_app, vsum_app.
  rewrite !count_in_app by now rewrite !length_map.
  rewrite add_buckets_app by now rewrite !length_map.
  f_equal; lia.
Qed.

Lemma bind_ok {A} (m : result A) : Py.bind m (fun a => Ok a) = m.
Proof. now destruct m. Qed.

Lemma scan_chunk_flags (chunk : DataFrame) (st : Counters * Counters) (fl : list Flags) :
  chunk_masks N P chunk = Ok (masks_of fl) ->
  List.length fl = len chunk ->
  scan_chunk N P chunk st = Ok (count_flags fl (fst st), count_flags fl (snd st)).
Proof.
  intros Hm Hlen. unfold scan_chunk. rewrite Hm. cbn [Py.bind].
  unfold count_flags. now rewrite Hlen.
Qed.

Lemma scan_chunks_cons (chunk : DataFrame) (chunks : list DataFrame)
    (st : Counters * Counters) :
  scan_chunks N P (chunk :: chunks) st =
  Py.bind (scan_chunk N P chunk st) (fun st' => scan_chunks N P chunks st').
Proof. reflexivity. Qed.

Lemma scan_chunks_batches (cols : list string) (bs : list (list (list cell)))
    (st : Counters * Counters) :
  bs <> [] ->
  scan_chunks N P (List.map (fun b => {| columns := cols; rows := b |}) bs) st =
  scan_chunk N P {| columns := cols; rows := List.concat bs |} st.
Proof.
  destruct (chunk_masks_by_header cols) as [Hraise|Hok].
  - destruct bs as [|b bs]; [contradiction|]. intros _. simpl.
    unfold scan_chunk. now rewrite !Hraise.
  - assert (forall rs st,
              scan_chunk N P {| columns := cols; rows := rs |} st =
              Ok (count_flags (List.map (fun r => stream_flags N P
                                           (field {| columns := cols; rows := [] |} r)) rs)
                              (fst st),
                  count_flags (List.map (fun r => stream_flags N P
                                           (field {| columns := cols; rows := [] |} r)) rs)
                              (snd st))) as Hscan.
    { intros rs st'. apply scan_chunk_flags; [apply Hok|].
      unfold len. cbn [rows]. apply length_map. }
    revert st. induction bs as [|b bs IH]; intros st Hne; [contradiction|].
    destruct bs as [|b' bs].
    + simpl. rewrite app_nil_r. apply bind_ok.
    + rewrite map_cons, scan_chunks_cons, Hscan. cbn [Py.bind].
      rewrite IH by discriminate.
      rewrite !Hscan. cbn [List.concat fst snd].
      now rewrite !map_app, !count_flags_app.
Qed.

(** X2: the counters a delimited file adds do not depend on how it is
    cut into batches: scanning its batches one after the other is
    scanning the whole table as one batch, with the same exception when
    a column is missing. *)
Theorem scan_chunks_as_one_batch (df : DataFrame) (st : Counters * Counters) :
  scan_chunks N P (csv_chunks df) st = scan_chunk N P df st.
Proof.
  unfold csv_chunks. destruct (rows df) as [|x l] eqn:E.
  - simpl. apply bind_ok.
  - destruct (@batches_partition chunksize (List.length (x :: l)) (x :: l))
      as [Hc _];
      [unfold chunksize; apply (Nat.mul_le_mono 1 200 1 1000); lia|lia|].
    rewrite scan_chunks_batches.
    + rewrite Hc, <- E. now destruct df.
    + intros Hb. rewrite Hb in Hc. discriminate.
Qed.

End Batches.

(** ** The overall counters are the sums over the species *)

Lemma sum_rows_app (f : Counters -> nat) (a b : list SpeciesRow) :
  sum_rows f (a ++ b) = sum_rows f a + sum_rows f b.
Proof.
  unfold sum_rows. induction a as [|x a IH]; simpl; [reflexivity|].
  rewrite IH. lia.
Qed.

Section StreamingSums.

Variable N : string -> float64.   (* pd.to_numeric *)
Variable P : string -> datetime.  (* pd.to_datetime *)

(** Every batch adds the same numbers to [sp] and to [overall]. *)
Lemma scan_chunks_numbers (chunks : list DataFrame) (st st' : Counters * Counters) :
  scan_chunks N P chunks st = Ok st' ->
  forall f, In f NUMBERS ->
  f (snd st') + f (fst st) = f (snd st) + f (fst st').
Proof.
  revert st. induction chunks as [|chunk chunks IH]; intros st; simpl.
  - intros [= <-] f _. lia.
  - unfold scan_chunk at 1.
    destruct (chunk_masks N P chunk) as [m|e]; simpl; [|discriminate].
    intros H f Hf. specialize (IH _ H f Hf). cbn [fst snd] in IH.
    simpl in Hf.
    repeat (destruct Hf as [<-|Hf];
            [cbn [accumulate add_total total_records usa_records dated_any
                  dated_full post_2010 captive_flagged valid_coords
                  uncertainty_le_2km gbif_issue_flagged has_media] in IH; lia|]).
    contradiction.
Qed.

Lemma scan_chunks_overall_buckets (chunks : list DataFrame)
    (st st' : Counters * Counters) :
  scan_chunks N P chunks st = Ok st' ->
  List.map fst (basis_counts (snd st)) = BUCKETS ->
  dict_total (basis_counts (snd st)) = usa_records (snd st) ->
  List.map fst (basis_counts (snd st')) = BUCKETS /\
  dict_total (basis_counts (snd st')) = usa_records (snd st').
Proof.
  revert st. induction chunks as [|chunk chunks IH]; intros st; simpl.
  - intros [= <-]. auto.
  - unfold scan_chunk at 1.
    destruct (chunk_masks N P chunk) as [m|e] eqn:Hm; simpl; [|discriminate].
    intros H Hkeys Htotal. apply (IH _ H); cbn [snd accumulate add_total basis_counts
      usa_records]; unfold add_buckets.
    + now rewrite add_each_keys.
    + rewrite add_each_total by (intros k Hk; now rewrite Hkeys).
      rewrite (chunk_masks_rows N P chunk Hm). cbn [m_bucket m_us masks_of].
      rewrite bucket_counts_sum; [lia|now rewrite !length_map|].
      apply Forall_forall. intros x Hx. apply in_map_iff in Hx.
      destruct Hx as [fl [<- Hfl]]. apply in_map_iff in Hfl.
      destruct Hfl as [r [<- _]]. apply basis_bucket_in.
Qed.

Lemma new_species_numbers (overall : Counters) (f : Counters -> nat) :
  In f NUMBERS -> f (new_species overall) = 0.
Proof.
  intros Hf. simpl in Hf.
  repeat (destruct Hf as [<-|Hf]; [reflexivity|]). contradiction.
Qed.

Lemma scan_files_sums (files : list SourceFile)
    (st st' : list SpeciesRow * Counters) :
  scan_files N P files st = Ok st' ->
  (forall f, In f NUMBERS -> f (snd st) = sum_rows f (fst st)) ->
  List.map fst (basis_counts (snd st)) = BUCKETS ->
  dict_total (basis_counts (snd st)) = usa_records (snd st) ->
  (forall f, In f NUMBERS -> f (snd st') = sum_rows f (fst st')) /\
  dict_total (basis_counts (snd st')) = usa_records (snd st').
Proof.
  revert st. induction files as [|file files IH]; intros st; cbn [scan_files].
  - intros [= <-]. auto.
  - unfold scan_file at 1.
    destruct (read_table file) as [chunks|e]; cbn [Py.bind]; [|discriminate].
    destruct (scan_chunks N P chunks (new_species (snd st), snd st))
      as [st1|e] eqn:E; cbn [Py.bind]; [|discriminate].
    intros H Hsum Hkeys Htotal.
    destruct (@scan_chunks_overall_buckets chunks _ _ E Hkeys Htotal)
      as [Hkeys1 Htotal1].
    apply (IH _ H); cbn [fst snd]; try assumption.
    intros f Hf. rewrite sum_rows_app.
    unfold sum_rows at 2. cbn [fold_right counts finalize].
    pose proof (@scan_chunks_numbers chunks _ _ E f Hf) as Hn. cbn [fst snd] in Hn.
    rewrite (@new_species_numbers (snd st) f Hf) in Hn.
    rewrite <- (Hsum f Hf). lia.
Qed.

(** X3: after a run of the streaming path every numeric counter of
    [overall] (records, US records and the eight flag counters) is the
    sum of that counter over the species rows, and the six bucket counts
    of [overall] add up to its [usa_records]. *)
Theorem streaming_overall_is_sum (dir : Directory) (rows : list SpeciesRow)
    (overall : Counters) :
  scan_tabular_files N P dir = Ok (Pair rows overall) ->
  Forall (fun f => f overall = sum_rows f rows) NUMBERS /\
  dict_total (basis_counts overall) = usa_records overall.
Proof.
  destruct dir as [entries|]; simpl; [|discriminate].
  destruct (scan_files N P _ _) as [st|e] eqn:E; simpl; [|discriminate].
  intros [= <- <-].
  destruct (@scan_files_sums _ _ _ E) as [Hsum Htotal]; try reflexivity.
  - intros f Hf. simpl in Hf.
    repeat (destruct Hf as [<-|Hf]; [reflexivity|]). contradiction.
  - split; [|exact Htotal]. apply Forall_forall. exact Hsum.
Qed.

End StreamingSums.

(** ** The groups of the workbook path *)

Lemma insert_by_perm {A} (leb : A -> A -> bool) (x : A) (l : list A) :
  Permutation (insert_by leb x l) (x :: l).
Proof.
  induction l as [|y l IH]; simpl; [reflexivity|].
  destruct (leb x y); [reflexivity|].
  rewrite IH. apply perm_swap.
Qed.

Lemma sorted_by_perm {A} (leb : A -> A -> bool) (l : list A) :
  Permutation (sorted_by leb l) l.
Proof.
  unfold sorted_by. induction l as [|x l IH]; simpl; [reflexivity|].
  rewrite insert_by_perm. now constructor.
Qed.

Lemma string_leb_total (a b : string) : String.leb a b = false -> String.leb b a = true.
Proof. intros H. destruct (String.leb_total a b) as [H'|H']; congruence. Qed.

Lemma group_keys_nodup (ids : list string) : NoDup (group_keys ids).
Proof.
  unfold group_keys.
  apply (Permutation_NoDup (Permutation_sym (sorted_by_perm String.leb _))).
  apply NoDup_nodup.
Qed.

Lemma group_keys_in (ids : list string) (k : string) :
  In k (group_keys ids) <-> In k ids.
Proof. unfold group_keys. now rewrite sorted_by_In, nodup_In. Qed.

Lemma vsum_cons (b : bool) (l : list bool) :
  vsum (b :: l) = (if b then 1 else 0) + vsum l.
Proof. unfold vsum. simpl. now destruct b. Qed.

Lemma vsum_all_true {T} (L : list T) : vsum (List.map (fun _ => true) L) = List.length L.
Proof. induction L as [|x L IH]; [reflexivity|]. rewrite map_cons, vsum_cons, IH. reflexivity. Qed.

(** A record counts in exactly one group. *)
Lemma one_group (keys : list string) (s : string) (b : bool) :
  NoDup keys -> In s keys ->
  fold_right (fun k acc => (if b && String.eqb s k then 1 else 0) + acc) 0 keys
  = if b then 1 else 0.
Proof.
  intros Hnd. induction Hnd as [|k keys Hk Hnd IH]; intros Hin; [contradiction|].
  simpl. destruct (String.eqb_spec s k) as [->|Hne].
  - assert (fold_right (fun k0 acc => (if b && String.eqb k k0 then 1 else 0) + acc)
              0 keys = 0) as ->.
    { clear IH Hin Hnd. induction keys as [|k' keys IH]; [reflexivity|].
      simpl. destruct (String.eqb_spec k k') as [->|_].
      - exfalso. apply Hk. now left.
      - rewrite andb_false_r, IH; [reflexivity|]. intros H. apply Hk. now right. }
    rewrite andb_true_r. lia.
  - rewrite andb_false_r. destruct Hin as [->|Hin]; [contradiction|].
    now rewrite IH.
Qed.

(** Counting by group and adding up is counting once. *)
Lemma group_sum {T} (L : list T) (idf : T -> string) (q : T -> bool)
    (keys : list string) :
  NoDup keys -> (forall x, In x L -> In (idf x) keys) ->
  fold_right
    (fun k acc => vsum (List.map (fun x => q x && String.eqb (idf x) k) L) + acc)
    0 keys
  = vsum (List.map q L).
Proof.
  intros Hnd. induction L as [|x L IH]; intros Hin.
  - simpl. clear. induction keys; simpl; auto.
  - rewrite map_cons, vsum_cons. rewrite <- IH by (intros y Hy; apply Hin; now right).
    rewrite <- (@one_group keys (idf x) (q x) Hnd (Hin x (or_introl eq_refl))).
    clear. induction keys as [|k keys IHk]; [reflexivity|].
    cbn [fold_right]. rewrite map_cons, vsum_cons, IHk. lia.
Qed.

Lemma sum_rows_map (f : Counters -> nat) (R : string -> SpeciesRow) (keys : list string) :
  sum_rows f (List.map R keys) = fold_right (fun k acc => f (counts (R k)) + acc) 0 keys.
Proof.
  unfold sum_rows. induction keys as [|k keys IH]; simpl; congruence.
Qed.

Lemma fold_right_pointwise {B} (f g : B -> nat -> nat) (l : list B) :
  (forall b a, f b a = g b a) -> fold_right f 0 l = fold_right g 0 l.
Proof.
  intros H. induction l as [|b l IH]; simpl; [reflexivity|]. now rewrite H, IH.
Qed.

Section WorkbookSums.

Variable N : string -> float64.   (* pd.to_numeric *)
Variable P : string -> datetime.  (* pd.to_datetime *)

Lemma dated_rows_length (df : DataFrame) :
  List.length (dated_rows N P df) = len df.
Proof.
  unfold dated_rows. rewrite length_combine, excel_dates_length. apply Nat.min_id.
Qed.

Lemma dated_rows_snd (df : DataFrame) :
  List.map snd (dated_rows N P df) = rows df.
Proof.
  unfold dated_rows. apply map_snd_combine.
  pose proof (excel_dates_length N P df) as H. exact H.
Qed.

Lemma excel_species_id_rows (df : DataFrame) :
  excel_species_id df =
  List.map
    (fun p =>
       Re.sub WHITESPACE_RUN "_"
         (Str.strip
            (text_or ""
               (alias df (snd p)
                  ["final_species"; "taxonomy_updated_species"; "scientific_name";
                   "ScientificName"; "species"; "Species"]))))
    (dated_rows N P df).
Proof.
  unfold excel_species_id, fillna. rewrite getcol_as_map, !map_map.
  rewrite <- (dated_rows_snd df) at 1. rewrite map_map. reflexivity.
Qed.

Ltac count_rows :=
  cbv beta delta [count_in vand]; cbn [Nat.add];
  repeat (rewrite ?map_map, ?zipw_map);
  f_equal; apply map_ext; intros ?; cbv beta;
  rewrite ?andb_assoc; reflexivity.

(** X4: in the workbook path every numeric counter of [overall] is the
    sum of that counter over the species rows: every record is counted
    in the row of exactly one species. *)
Theorem workbook_overall_is_sum (df : DataFrame) :
  Forall (fun f => f (snd (scan_workbook N P df))
                   = sum_rows f (fst (scan_workbook N P df))) NUMBERS.
Proof.
  unfold scan_workbook. cbn [fst snd].
  rewrite excel_masks_rows, excel_species_id_rows.
  pose proof (dated_rows_length df) as Hlen.
  set (L := dated_rows N P df) in *.
  set (F := fun p : datetime * list cell => excel_flags N (alias df (snd p)) (fst p)).
  set (idf := fun p : datetime * list cell => _).
  assert (forall q : datetime * list cell -> bool,
            fold_right
              (fun k acc => vsum (List.map (fun x => q x && String.eqb (idf x) k) L) + acc)
              0 (group_keys (List.map idf L))
            = vsum (List.map q L)) as Hsum.
  { intros q. apply group_sum; [apply group_keys_nodup|].
    intros x Hx. apply group_keys_in. now apply in_map. }
  unfold NUMBERS.
  repeat constructor; rewrite sum_rows_map;
    unfold excel_species_row, finalize, accumulate, overall_init, masks_of;
    cbn [counts total_records usa_records dated_any dated_full post_2010
         captive_flagged valid_coords uncertainty_le_2km gbif_issue_flagged
         has_media m_us m_dated_any m_dated_full m_post2010 m_valid m_unc2k
         m_gbad m_captive m_has_media].
  1: { rewrite <- Hlen, <- (vsum_all_true L), <- (Hsum (fun _ => true)).
       apply fold_right_pointwise. intros k a. f_equal. now rewrite map_map. }
  all: match goal with
       | |- ?lhs = _ =>
           let q := fresh "q" in
           evar (q : datetime * list cell -> bool);
           transitivity (vsum (List.map q L)); subst q;
           [count_rows|]
       end.
  all: match goal with
       | |- vsum (List.map ?q _) = _ => rewrite <- (Hsum q)
       end; apply fold_right_pointwise; intros k a; f_equal; count_rows.
Qed.

End WorkbookSums.

(** ** Counters stay within the totals *)

Lemma vsum_le_length (l : list bool) : vsum l <= List.length l.
Proof. unfold vsum. apply filter_length_le. Qed.

Lemma accumulate_within (us : list bool) (m : Masks) (n : nat) (c : Counters) :
  vsum us <= n ->
  within_totals c -> within_totals (accumulate us m (add_total n c)).
Proof.
  unfold within_totals, US_COUNTERS. intros Hn [Hu Hf].
  repeat match goal with
         | H : Forall _ (_ :: _) |- _ => inversion H; clear H; subst
         end.
  cbn [accumulate add_total total_records usa_records dated_any dated_full
       post_2010 captive_flagged valid_coords uncertainty_le_2km
       gbif_issue_flagged has_media].
  unfold count_in.
  pose proof (vsum_vand_le (m_dated_any m) us).
  pose proof (vsum_vand_le (m_dated_full m) us).
  pose proof (vsum_vand_le (m_post2010 m) us).
  pose proof (vsum_vand_le (m_captive m) us).
  pose proof (vsum_vand_le (m_valid m) us).
  pose proof (vsum_vand_le (m_unc2k m) us).
  pose proof (vsum_vand_le (m_gbad m) us).
  pose proof (vsum_vand_le (m_has_media m) us).
  split; [lia|].
  repeat (apply Forall_cons;
          [cbv beta;
           cbn [accumulate add_total usa_records dated_any dated_full
                post_2010 captive_flagged valid_coords uncertainty_le_2km
                gbif_issue_flagged has_media];
           unfold count_in; lia|]).
  apply Forall_nil.
Qed.

Lemma zero_within (c : Counters) :
  total_records c = 0 -> usa_records c = 0 ->
  Forall (fun f => f c = 0) US_COUNTERS -> within_totals c.
Proof.
  unfold within_totals. intros Ht Hu Hf. split; [lia|].
  eapply Forall_impl; [|exact Hf]. intros f Hz. simpl in Hz. lia.
Qed.

Section Totals.

Variable N : string -> float64.   (* pd.to_numeric *)
Variable P : string -> datetime.  (* pd.to_datetime *)

Lemma scan_chunks_within (chunks : list DataFrame) (st st' : Counters * Counters) :
  scan_chunks N P chunks st = Ok st' ->
  within_totals (fst st) -> within_totals (snd st) ->
  within_totals (fst st') /\ within_totals (snd st').
Proof.
  revert st. induction chunks as [|chunk chunks IH]; intros st; cbn [scan_chunks].
  - intros [= <-]. auto.
  - unfold scan_chunk at 1.
    destruct (chunk_masks N P chunk) as [m|e] eqn:Hm; cbn [Py.bind]; [|discriminate].
    intros H H1 H2.
    assert (vsum (m_us m) <= len chunk) as Hle.
    { rewrite (chunk_masks_rows N P chunk Hm). cbn [m_us masks_of].
      etransitivity; [apply vsum_le_length|]. now rewrite !length_map. }
    apply (IH _ H); cbn [fst snd]; now apply accumulate_within.
Qed.

Lemma scan_files_within (files : list SourceFile)
    (st st' : list SpeciesRow * Counters) :
  scan_files N P files st = Ok st' ->
  Forall (fun row => within_totals (counts row)) (fst st) ->
  within_totals (snd st) ->
  Forall (fun row => within_totals (counts row)) (fst st') /\
  within_totals (snd st').
Proof.
  revert st. induction files as [|file files IH]; intros st; cbn [scan_files].
  - intros [= <-]. auto.
  - unfold scan_file at 1.
    destruct (read_table file) as [chunks|e]; cbn [Py.bind]; [|discriminate].
    destruct (scan_chunks N P chunks (new_species (snd st), snd st))
      as [st1|e] eqn:E; cbn [Py.bind]; [|discriminate].
    intros H Hrows Hov.
    destruct (@scan_chunks_within chunks _ _ E) as [Hsp Hov1]; cbn [fst snd].
    + apply zero_within; try reflexivity. repeat constructor.
    + exact Hov.
    + apply (IH _ H); cbn [fst snd]; [|exact Hov1].
      apply Forall_app. split; [exact Hrows|].
      constructor; [exact Hsp|constructor].
Qed.

(** X5: in the streaming path, in every species row and in [overall],
    the US records are among the records
    ([usa_records <= total_records]) and each of the eight flag
    counters counts US records only (it is at most [usa_records]). *)
Theorem streaming_counters_within_totals (dir : Directory)
    (rows : list SpeciesRow) (overall : Counters) :
  scan_tabular_files N P dir = Ok (Pair rows overall) ->
  Forall (fun row => within_totals (counts row)) rows /\ within_totals overall.
Proof.
  destruct dir as [entries|]; cbn [scan_tabular_files]; [|discriminate].
  destruct (scan_files N P _ _) as [st|e] eqn:E; cbn [Py.bind]; [|discriminate].
  intros [= <- <-]. apply (@scan_files_within _ _ _ E); cbn [fst snd].
  - constructor.
  - apply zero_within; try reflexivity. repeat constructor.
Qed.

Lemma excel_accumulate_within (df : DataFrame) (us : list bool) (n : nat) :
  vsum us <= n ->
  within_totals (accumulate us (excel_masks N P df) (overall_init n)).
Proof.
  intros Hn.
  replace (overall_init n) with (add_total n (overall_init 0)) by reflexivity.
  apply accumulate_within; [exact Hn|].
  apply zero_within; try reflexivity. repeat constructor.
Qed.

(** X6: the same bounds hold in the workbook path, for every species
    row and for [overall]: a record is counted as a US record of a
    species only if it is a record of that species, and every flag
    counter counts US records only. *)
Theorem workbook_counters_within_totals (df : DataFrame) :
  Forall (fun row => within_totals (counts row)) (fst (scan_workbook N P df)) /\
  within_totals (snd (scan_workbook N P df)).
Proof.
  unfold scan_workbook. cbn [fst snd]. split.
  - apply Forall_forall. intros row Hrow. apply in_map_iff in Hrow.
    destruct Hrow as [sid [<- _]]. unfold excel_species_row. cbn [counts finalize].
    apply excel_accumulate_within. unfold vand.
    etransitivity; [apply vsum_vand_le|]. reflexivity.
  - apply excel_accumulate_within. rewrite excel_masks_rows. cbn [m_us masks_of].
    etransitivity; [apply vsum_le_length|].
    rewrite !length_map, dated_rows_length. reflexivity.
Qed.

End Totals.

(** ** The rows that are written *)

Lemma vsum_eqb_count (ids : list string) (sid : string) :
  vsum (List.map (fun x => String.eqb x sid) ids) = count_occ string_dec ids sid.
Proof.
  induction ids as [|x ids IH]; [reflexivity|].
  rewrite map_cons, vsum_cons, IH. cbn [count_occ].
  destruct (string_dec x sid) as [->|Hne].
  - now rewrite String.eqb_refl.
  - apply String.eqb_neq in Hne. now rewrite Hne.
Qed.

Section Rows.

Variable N : string -> float64.   (* pd.to_numeric *)
Variable P : string -> datetime.  (* pd.to_datetime *)

Lemma workbook_species_ids (df : DataFrame) :
  List.map species_id (fst (scan_workbook N P df)) = group_keys (excel_species_id df).
Proof.
  unfold scan_workbook. cbn [fst]. rewrite map_map.
  erewrite map_ext; [apply map_id|]. reflexivity.
Qed.

(** X7: the workbook path writes exactly one row for every distinct
    species id of the workbook, in ascending order of the ids; the
    [total_records] of a row is the number of records with that id, so
    no row is empty. *)
Theorem workbook_one_row_per_species (df : DataFrame) :
  NoDup (List.map species_id (fst (scan_workbook N P df))) /\
  Sorted (fun a b => String.leb a b = true)
         (List.map species_id (fst (scan_workbook N P df))) /\
  (forall sid, In sid (List.map species_id (fst (scan_workbook N P df)))
               <-> In sid (excel_species_id df)) /\
  Forall (fun row =>
            total_records (counts row)
            = count_occ string_dec (excel_species_id df) (species_id row) /\
            1 <= total_records (counts row))
         (fst (scan_workbook N P df)).
Proof.
  rewrite workbook_species_ids. repeat split.
  - apply group_keys_nodup.
  - unfold group_keys. apply sorted_by_sorted, string_leb_total.
  - apply group_keys_in.
  - apply group_keys_in.
  - unfold scan_workbook. cbn [fst]. apply Forall_forall. intros row Hrow.
    apply in_map_iff in Hrow. destruct Hrow as [sid [<- Hsid]].
    apply (proj1 (group_keys_in _ _)) in Hsid.
    unfold excel_species_row.
    cbn [finalize counts species_id accumulate overall_init total_records].
    rewrite vsum_eqb_count. split; [reflexivity|].
    apply (proj1 (count_occ_In string_dec _ _)) in Hsid. lia.
Qed.

Lemma scan_files_ids (files : list SourceFile)
    (st st' : list SpeciesRow * Counters) :
  scan_files N P files st = Ok st' ->
  List.map species_id (fst st')
  = List.map species_id (fst st)
    ++ List.map (fun f => Re.sub SOURCE_EXT "" (name f)) files.
Proof.
  revert st. induction files as [|file files IH]; intros st; cbn [scan_files].
  - intros [= <-]. cbn [List.map]. now rewrite app_nil_r.
  - unfold scan_file at 1.
    destruct (read_table file) as [chunks|e]; cbn [Py.bind]; [|discriminate].
    destruct (scan_chunks N P chunks _) as [st1|e]; cbn [Py.bind]; [|discriminate].
    intros H. rewrite (IH _ H). cbn [fst]. rewrite map_app, <- app_assoc.
    reflexivity.
Qed.

(** X8: when the streaming path returns its pair, it has one row for
    every source file under the directory, also for a file without
    records, in the sorted order of the paths; the species id of a row
    is the file name without its extension.  Rows are never merged: the
    number of rows is the number of source files. *)
Theorem streaming_one_row_per_file (entries : list SourceFile)
    (rows : list SpeciesRow) (overall : Counters) :
  scan_tabular_files N P (Some entries) = Ok (Pair rows overall) ->
  List.map species_id rows
  = List.map (fun f => Re.sub SOURCE_EXT "" (name f))
      (sorted_by (fun a b => path_leb (path a) (path b))
                 (List.filter is_source entries)) /\
  List.length rows = count_if is_source entries.
Proof.
  cbn [scan_tabular_files].
  destruct (scan_files N P _ _) as [st|e] eqn:E; cbn [Py.bind]; [|discriminate].
  intros [= <- <-]. pose proof (scan_files_ids _ _ E) as H. cbn [fst List.map app] in H.
  split; [exact H|].
  apply (f_equal (@List.length string)) in H. rewrite !length_map in H.
  rewrite H. unfold count_if. apply Permutation_length, sorted_by_perm.
Qed.

(** X9: what [main] writes by species is sorted by species id and is a
    rearrangement of the rows of one path: of the streaming path when
    that path has a row, and of the workbook path only when the
    streaming path has none. *)
Theorem main_writes_sorted_rows (dir : Directory)
    (by_species : list SpeciesRow) (overall : Counters) :
  main N P dir = Ok (Wrote by_species overall) ->
  Sorted (fun a b => String.leb (species_id a) (species_id b) = true) by_species /\
  exists rows,
    Permutation by_species rows /\
    ((rows <> [] /\ scan_tabular_files N P dir = Ok (Pair rows overall)) \/
     (exists entries overall0,
        dir = Some entries /\
        scan_tabular_files N P dir = Ok (Pair [] overall0) /\
        scan_excel_combined N P entries = Ok (rows, Some overall))).
Proof.
  assert (forall rows, Sorted (fun a b => String.leb (species_id a) (species_id b) = true)
                         (sort_values rows)) as Hsorted.
  { intros rows. unfold sort_values.
    apply (@sorted_by_sorted _ (fun a b => String.leb (species_id a) (species_id b))).
    intros a b. apply string_leb_total. }
  unfold main.
  destruct (scan_tabular_files N P dir) as [[|rows ov]|e] eqn:E;
    cbn [Py.bind unpack fst snd]; try discriminate.
  destruct rows as [|row rows].
  - destruct dir as [entries|]; [|discriminate E].
    destruct (scan_excel_combined N P entries) as [[xrows [xov|]]|e] eqn:X;
      cbn [Py.bind fst snd]; try discriminate.
    intros [= <- <-]. split; [apply Hsorted|].
    exists xrows. split; [apply sorted_by_perm|].
    right. exists entries, ov. auto.
  - intros [= <- <-]. split; [apply (Hsorted (row :: rows))|].
    exists (row :: rows). split; [apply (sorted_by_perm _ (row :: rows))|].
    left. split; [discriminate|reflexivity].
Qed.

End Rows.

(** ** Dated records *)

Lemma count_in_mono {T} (p q : T -> bool) (l : list T) (us : list bool) :
  Forall (fun x => p x = true -> q x = true) l ->
  count_in us (List.map p l) <= count_in us (List.map q l).
Proof.
  unfold count_in, vand, zipw. intros H. revert us.
  induction H as [|x l Hx _ IH]; intros us; [reflexivity|].
  destruct us as [|u us]; [reflexivity|].
  cbn [List.map combine fst snd]. rewrite !vsum_cons.
  specialize (IH us). destruct (p x); [rewrite Hx by reflexivity; lia|].
  destruct (q x && u); cbn [andb]; lia.
Qed.

Lemma accumulate_dates_nested (us : list bool) (fl : list Flags) (c : Counters) :
  Forall dated_if_full_or_recent fl ->
  dates_nested c -> dates_nested (accumulate us (masks_of fl) c).
Proof.
  unfold dates_nested. intros Hfl [H1 H2].
  cbn [accumulate masks_of dated_any dated_full post_2010
       m_dated_any m_dated_full m_post2010].
  pose proof (@count_in_mono _ hasFullDate hasAnyDate fl us) as F1.
  pose proof (@count_in_mono _ isPost2010 hasAnyDate fl us) as F2.
  split.
  - enough (count_in us (List.map hasFullDate fl)
            <= count_in us (List.map hasAnyDate fl)) by lia.
    apply F1. eapply Forall_impl; [|exact Hfl]. intros x Hx. apply Hx.
  - enough (count_in us (List.map isPost2010 fl)
            <= count_in us (List.map hasAnyDate fl)) by lia.
    apply F2. eapply Forall_impl; [|exact Hfl]. intros x Hx. apply Hx.
Qed.

Lemma recent_year_known (year : float64) :
  fle (Fin (2010 # 1)) year = true -> known year = true.
Proof. now destruct year. Qed.

Lemma recent_date_resolved (dt : datetime) (t : Q) :
  dt_ge dt t = true -> resolved dt = true.
Proof. now destruct dt. Qed.

Section Dated.

Variable N : string -> float64.   (* pd.to_numeric *)
Variable P : string -> datetime.  (* pd.to_datetime *)

Lemma excel_flags_dated (g : list string -> cell) (dt : datetime) :
  dated_if_full_or_recent (excel_flags N g dt).
Proof.
  unfold dated_if_full_or_recent, excel_flags.
  cbn [hasFullDate hasAnyDate isPost2010]. split; intros H.
  - apply orb_true_iff in H. destruct H as [->|H]; [reflexivity|].
    apply andb_true_iff in H. destruct H as [H _].
    apply andb_true_iff in H. destruct H as [-> _]. apply orb_true_r.
  - apply orb_true_iff in H. destruct H as [H|H].
    + now rewrite (recent_date_resolved _ _ H).
    + rewrite (recent_year_known _ H). apply orb_true_r.
Qed.

Lemma excel_accumulate_dates_nested (df : DataFrame) (us : list bool) (n : nat) :
  dates_nested (accumulate us (excel_masks N P df) (overall_init n)).
Proof.
  rewrite excel_masks_rows. apply accumulate_dates_nested.
  - apply Forall_forall. intros fl Hfl. apply in_map_iff in Hfl.
    destruct Hfl as [p [<- _]]. apply excel_flags_dated.
  - split; apply Nat.le_refl.
Qed.

(** X10: in the workbook path, in every species row and in [overall],
    the records with a full date and the records from 2010 on are among
    the records with any date: [dated_full <= dated_any] and
    [post_2010 <= dated_any]. *)
Theorem workbook_dates_nested (df : DataFrame) :
  Forall (fun row => dates_nested (counts row)) (fst (scan_workbook N P df)) /\
  dates_nested (snd (scan_workbook N P df)).
Proof.
  unfold scan_workbook. cbn [fst snd].
  split; [|apply excel_accumulate_dates_nested].
  apply Forall_forall. intros row Hrow. apply in_map_iff in Hrow.
  destruct Hrow as [sid [<- _]]. unfold excel_species_row. cbn [counts finalize].
  apply excel_accumulate_dates_nested.
Qed.

(** The parser gives no date for a blank text. *)
Hypothesis blank_is_NaT : forall s, Str.strip s = "" -> P s = None.

Lemma stream_flags_dated (f : string -> cell) :
  dated_if_full_or_recent (stream_flags N P f).
Proof.
  unfold dated_if_full_or_recent, stream_flags.
  cbn [hasFullDate hasAnyDate isPost2010].
  assert (resolved (datetime_cell P (f "eventDate")) = true ->
          negb (String.eqb (Str.strip (text_or "" (f "eventDate"))) "") = true) as Hev.
  { destruct (f "eventDate") as [s|]; cbn [datetime_cell text_or]; [|discriminate].
    destruct (String.eqb_spec (Str.strip s) "") as [E|_]; [|reflexivity].
    now rewrite (blank_is_NaT _ E). }
  split; intros H.
  - apply orb_true_iff in H. destruct H as [H|H]; [now rewrite (Hev H)|].
    apply andb_true_iff in H. destruct H as [H _].
    apply andb_true_iff in H. destruct H as [-> _]. apply orb_true_r.
  - apply orb_true_iff in H. destruct H as [H|H].
    + now rewrite (Hev (recent_date_resolved _ _ H)).
    + rewrite (recent_year_known _ H). apply orb_true_r.
Qed.

Lemma scan_chunks_dates_nested (chunks : list DataFrame)
    (st st' : Counters * Counters) :
  scan_chunks N P chunks st = Ok st' ->
  dates_nested (fst st) -> dates_nested (snd st) ->
  dates_nested (fst st') /\ dates_nested (snd st').
Proof.
  revert st. induction chunks as [|chunk chunks IH]; intros st; cbn [scan_chunks].
  - intros [= <-]. auto.
  - unfold scan_chunk at 1.
    destruct (chunk_masks N P chunk) as [m|e] eqn:Hm; cbn [Py.bind]; [|discriminate].
    intros H H1 H2. rewrite (chunk_masks_rows N P chunk Hm) in H.
    assert (Forall dated_if_full_or_recent
              (List.map (fun r => stream_flags N P (field chunk r)) (rows chunk)))
      as Hfl.
    { apply Forall_forall. intros fl Hfl. apply in_map_iff in Hfl.
      destruct Hfl as [r [<- _]]. apply stream_flags_dated. }
    apply (IH _ H); cbn [fst snd]; now apply accumulate_dates_nested.
Qed.

Lemma scan_files_dates_nested (files : list SourceFile)
    (st st' : list SpeciesRow * Counters) :
  scan_files N P files st = Ok st' ->
  Forall (fun row => dates_nested (counts row)) (fst st) ->
  dates_nested (snd st) ->
  Forall (fun row => dates_nested (counts row)) (fst st') /\
  dates_nested (snd st').
Proof.
  revert st. induction files as [|file files IH]; intros st; cbn [scan_files].
  - intros [= <-]. auto.
  - unfold scan_file at 1.
    destruct (read_table file) as [chunks|e]; cbn [Py.bind]; [|discriminate].
    destruct (scan_chunks N P chunks (new_species (snd st), snd st))
      as [st1|e] eqn:E; cbn [Py.bind]; [|discriminate].
    intros H Hrows Hov.
    destruct (@scan_chunks_dates_nested chunks _ _ E) as [Hsp Hov1]; cbn [fst snd].
    + split; apply Nat.le_refl.
    + exact Hov.
    + apply (IH _ H); cbn [fst snd]; [|exact Hov1].
      apply Forall_app. split; [exact Hrows|].
      constructor; [exact Hsp|constructor].
Qed.

(** X11: in the streaming path the same holds whenever the date parser
    gives no date for a blank text: in every species row and in
    [overall], [dated_full <= dated_any] and [post_2010 <= dated_any]. *)
Theorem streaming_dates_nested (dir : Directory)
    (rows : list SpeciesRow) (overall : Counters) :
  scan_tabular_files N P dir = Ok (Pair rows overall) ->
  Forall (fun row => dates_nested (counts row)) rows /\ dates_nested overall.
Proof.
  destruct dir as [entries|]; cbn [scan_tabular_files]; [|discriminate].
  destruct (scan_files N P _ _) as [st|e] eqn:E; cbn [Py.bind]; [|discriminate].
  intros [= <- <-]. apply (@scan_files_dates_nested _ _ _ E); cbn [fst snd].
  - constructor.
  - split; apply Nat.le_refl.
Qed.

End Dated.

(** ** Records in the US by their coordinates *)

Lemma within_widen (lo hi lo' hi' : Q) (x : float64) :
  (lo' <= lo)%Q -> (hi <= hi')%Q ->
  within lo hi x = true -> within lo' hi' x = true.
Proof.
  unfold within. intros Hlo Hhi H.
  apply andb_true_iff in H. destruct H as [H1 H2].
  destruct x as [| | |q]; try discriminate.
  cbn [fle] in *. apply Qle_bool_iff in H1, H2.
  apply andb_true_iff. split; apply Qle_bool_iff; lra.
Qed.

Lemma box_is_valid (lat lon : float64) :
  within (18 # 1) (72 # 1) lat && within (- (359 # 2)) (- (66 # 1)) lon = true ->
  within (- (90 # 1)) (90 # 1) lat && within (- (180 # 1)) (180 # 1) lon = true.
Proof.
  intros H. apply andb_true_iff in H. destruct H as [H1 H2].
  apply andb_true_iff. split.
  - apply (@within_widen (18 # 1) (72 # 1)); [lra|lra|exact H1].
  - apply (@within_widen (- (359 # 2)) (- (66 # 1))); [lra|lra|exact H2].
Qed.

Section Coordinates.

Variable N : string -> float64.   (* pd.to_numeric *)
Variable P : string -> datetime.  (* pd.to_datetime *)

(** X12: in the streaming path a record that is in the US without a US
    token in its country code or its country name has valid
    coordinates: the bounding box of the US lies within the valid
    range. *)
Theorem us_by_coordinates_is_valid (f : string -> cell) :
  inUS (stream_flags N P f) = true ->
  us_token (f "countryCode") || us_token (f "country") = false ->
  validCoordinates (stream_flags N P f) = true.
Proof.
  unfold stream_flags. cbn [inUS validCoordinates].
  intros H Htok. rewrite Htok in H. cbn [orb] in H. now apply box_is_valid.
Qed.

(** X13: the same in the workbook path, for the one country column it
    resolves. *)
Theorem workbook_us_by_coordinates_is_valid (g : list string -> cell)
    (dt : datetime) :
  inUS (excel_flags N g dt) = true ->
  us_token (g ["country"; "countryCode"]) = false ->
  validCoordinates (excel_flags N g dt) = true.
Proof.
  unfold excel_flags. cbn [inUS validCoordinates].
  intros H Htok. rewrite Htok in H. cbn [orb] in H. now apply box_is_valid.
Qed.

End Coordinates.

(** ** The basis of record *)

(** X14: [basis_bucket] always answers one of the six bucket names, and
    a bucket name is its own bucket: bucketing twice is bucketing
    once. *)
Theorem basis_bucket_idempotent (val : string) :
  In (basis_bucket val) BUCKETS /\
  basis_bucket (basis_bucket val) = basis_bucket val.
Proof.
  pose proof (basis_bucket_in val) as H. split; [exact H|].
  unfold BUCKETS in H.
  repeat (destruct H as [<-|H]; [reflexivity|]). contradiction.
Qed.

(** ** The names of the source files *)

Lemma chars_append (a b : string) :
  Str.chars (String.append a b) = Str.chars a ++ Str.chars b.
Proof.
  unfold Str.chars. induction a as [|c a IH]; [reflexivity|].
  cbn [String.append list_ascii_of_string app]. now rewrite IH.
Qed.

Lemma source_ext_needs_dot (prev : option ascii) (c : ascii) (s : list ascii) :
  Ascii.eqb c "." = false -> Re.match_here SOURCE_EXT prev (c :: s) = None.
Proof.
  intros H. unfold Re.match_here, SOURCE_EXT, Re.chr. cbn [Re.run].
  rewrite Ascii.eqb_sym, H. reflexivity.
Qed.

Lemma source_ext_find_skip (l suffix rest : list ascii) :
  forallb (fun c => negb (Ascii.eqb c ".")) l = true ->
  (forall prev before,
     Re.find SOURCE_EXT prev before suffix = Some (rev before, rest)) ->
  forall prev before,
    Re.find SOURCE_EXT prev before (l ++ suffix) = Some (rev before ++ l, rest).
Proof.
  intros H Hs. induction l as [|c l IH]; intros prev before.
  - rewrite app_nil_r. apply Hs.
  - cbn [forallb] in H. apply andb_true_iff in H. destruct H as [Hc Hl].
    apply negb_true_iff in Hc.
    cbn [app Re.find]. rewrite (@source_ext_needs_dot prev c (l ++ suffix) Hc).
    rewrite (IH Hl (Some c) (c :: before)). cbn [rev].
    now rewrite <- app_assoc.
Qed.

Lemma source_ext_matches (ext : string) (prev : option ascii) (before : list ascii) :
  In ext EXTENSIONS ->
  Re.find SOURCE_EXT prev before (Str.chars ext) = Some (rev before, []).
Proof.
  intros H. repeat (destruct H as [<-|H]; [reflexivity|]). contradiction.
Qed.

(** X15: a file name made of a stem without a full stop and one of the
    eight extensions is the name of a source file, and the species id
    made of it is the stem. *)
Theorem source_name_round_trip (stem ext : string) :
  In ext EXTENSIONS -> no_dot stem = true ->
  Re.search SOURCE_EXT (String.append stem ext) = true /\
  Re.sub SOURCE_EXT "" (String.append stem ext) = stem.
Proof.
  intros Hext Hstem. unfold no_dot in Hstem.
  pose proof (@source_ext_find_skip (Str.chars stem) (Str.chars ext) [] Hstem
                (fun prev before => @source_ext_matches ext prev before Hext))
    as Hfind.
  unfold Re.search, Re.sub. rewrite chars_append. split.
  - now rewrite Hfind.
  - assert (exists n, List.length (Str.chars stem ++ Str.chars ext) = S n) as [n ->].
    { rewrite length_app.
      assert (List.length (Str.chars ext) <> 0) as Hne.
      { repeat (destruct Hext as [<-|Hext]; [discriminate|]). contradiction. }
      destruct (List.length (Str.chars ext)); [contradiction|].
      rewrite Nat.add_succ_r. eauto. }
    cbn [Re.sub_chars]. rewrite Hfind.
    cbn [rev app List.length].
    assert (forall fuel prev, Re.sub_chars fuel SOURCE_EXT (Str.chars "") prev [] = [])
      as ->.
    { intros [|fuel] prev; reflexivity. }
    cbn [Str.chars list_ascii_of_string app]. rewrite app_nil_r.
    apply string_of_list_ascii_of_string.
Qed.

(** ** Line-delimited files *)

Lemma ndjson_chunks_rows (lines : list NdLine) :
  List.length (List.concat (List.map rows (ndjson_chunks lines)))
  = records_in lines.
Proof.
  unfold records_in, list_sum.
  induction lines as [|[| |keys values|keys records] lines IH];
    cbn [ndjson_chunks List.map List.concat fold_right line_records rows];
    rewrite ?length_app; cbn [List.length]; lia.
Qed.

Section Lines.

Variable N : string -> float64.   (* pd.to_numeric *)
Variable P : string -> datetime.  (* pd.to_datetime *)

Lemma scan_chunks_total (chunks : list DataFrame) (st st' : Counters * Counters) :
  scan_chunks N P chunks st = Ok st' ->
  total_records (fst st')
  = total_records (fst st) + List.length (List.concat (List.map rows chunks)) /\
  total_records (snd st')
  = total_records (snd st) + List.length (List.concat (List.map rows chunks)).
Proof.
  revert st. induction chunks as [|chunk chunks IH]; intros st; cbn [scan_chunks].
  - intros [= <-]. cbn [List.map List.concat List.length]. lia.
  - unfold scan_chunk at 1.
    destruct (chunk_masks N P chunk) as [m|e]; cbn [Py.bind]; [|discriminate].
    intros H. destruct (IH _ H) as [H1 H2].
    cbn [fst snd accumulate add_total total_records] in H1, H2.
    cbn [List.map List.concat]. rewrite length_app. unfold len in *. lia.
Qed.

(** X16: when the batches of a line-delimited file are scanned, the
    records counted for the species and for [overall] are the records
    of its lines: one for a line that holds an object, one for each
    element of a line that holds an array of objects, none for a blank
    line or a line that does not parse. *)
Theorem ndjson_total_is_records_of_lines (lines : list NdLine)
    (st st' : Counters * Counters) :
  scan_chunks N P (ndjson_chunks lines) st = Ok st' ->
  total_records (fst st') = total_records (fst st) + records_in lines /\
  total_records (snd st') = total_records (snd st) + records_in lines.
Proof.
  intros H. rewrite <- ndjson_chunks_rows. now apply scan_chunks_total.
Qed.

End Lines.

(** ** The workbook that is loaded *)


Lemma select_rank_some (files : list SourceFile) :
  files <> [] -> exists p, select (rank files) = Some p.
Proof.
  intros Hne. pose proof (rank_In files) as Hin.
  destruct (rank files) as [|[k0 p0] [|[k1 p1] rest]] eqn:E; cbn [select].
  - destruct files as [|f files]; [contradiction|].
    exfalso. apply (proj2 (Hin (score_excel f) f)). split; [now left|reflexivity].
  - eauto.
  - destruct (_ && _); eauto.
Qed.


Section Loading.

Variable N : string -> float64.   (* pd.to_numeric *)
Variable P : string -> datetime.  (* pd.to_datetime *)


End Loading.

(** ** The candidate date columns *)

Lemma candidates_loop (cols cand : list string) (c : string) :
  In c (fold_left
          (fun cand c =>
             if negb (Str.mem c cand) && Re.search DATE_REGEX c
             then cand ++ [c] else cand)
          cols cand)
  <-> In c cand \/ (In c cols /\ Re.search DATE_REGEX c = true).
Proof.
  revert cand. induction cols as [|c0 cols IH]; intros cand; cbn [fold_left].
  - cbn [In]. tauto.
  - rewrite IH. destruct (Str.mem c0 cand) eqn:M; cbn [negb andb].
    + apply mem_In in M. cbn [In]. split; [tauto|].
      intros [H|[[->|H] Hs]]; tauto.
    + destruct (Re.search DATE_REGEX c0) eqn:S.
      * rewrite in_app_iff. cbn [In]. split; [|intros [H|[[->|H] Hs]]; tauto].
        intros [[H|[->|[]]]|H]; tauto.
      * cbn [In]. split; [tauto|].
        intros [H|[[->|H] Hs]]; [tauto|congruence|tauto].
Qed.

Lemma candidates_loop_nodup (cols cand : list string) :
  NoDup cand ->
  NoDup (fold_left
           (fun cand c =>
              if negb (Str.mem c cand) && Re.search DATE_REGEX c
              then cand ++ [c] else cand)
           cols cand).
Proof.
  revert cand. induction cols as [|c0 cols IH]; intros cand Hnd; cbn [fold_left];
    [exact Hnd|].
  apply IH. destruct (Str.mem c0 cand) eqn:M; cbn [negb andb]; [exact Hnd|].
  destruct (Re.search DATE_REGEX c0); [|exact Hnd].
  apply NoDup_app; [exact Hnd|repeat constructor; intros []|].
  intros x Hx [<-|[]]. apply mem_In in Hx. congruence.
Qed.

(** X18: the candidate date columns of a workbook are headers of the
    workbook, so that reading one never fails; no header is a candidate
    twice; and a header is a candidate exactly when it is one of the
    priority names or matches the date pattern. *)
Theorem candidates_are_date_headers (df : DataFrame) :
  NoDup (candidates df) /\
  forall c, In c (candidates df)
            <-> In c (columns df) /\
                (In c DATE_PRIORITIES \/ Re.search DATE_REGEX c = true).
Proof.
  unfold candidates. split.
  - apply candidates_loop_nodup, NoDup_filter.
    assert (nodup string_dec DATE_PRIORITIES = DATE_PRIORITIES) as <- by reflexivity.
    apply NoDup_nodup.
  - intros c. rewrite candidates_loop, filter_In, mem_In. tauto.
Qed.

(** ** Serial numbers and text dates *)

Lemma serial_date_inside (q : Q) :
  (50 <= q)%Q -> (q <= 60000)%Q -> serial_date (Fin q) = Some (EXCEL_EPOCH + q)%Q.
Proof.
  intros H1 H2. unfold serial_date. cbn [fle].
  apply Qle_bool_iff in H1. apply Qle_bool_iff in H2. now rewrite H1, H2.
Qed.

Lemma serial_date_outside (q : Q) :
  (q < 50)%Q \/ (60000 < q)%Q -> serial_date (Fin q) = None.
Proof.
  intros H. unfold serial_date. cbn [fle].
  destruct (Qle_bool (50 # 1) q) eqn:E1; [|reflexivity].
  destruct (Qle_bool q (60000 # 1)) eqn:E2; [|reflexivity].
  apply Qle_bool_iff in E1. apply Qle_bool_iff in E2. exfalso. lra.
Qed.

(** X19: a number is read as a serial date exactly when it lies within
    [50, 60000]; the date is then in 2010 or later exactly when the
    number is at least 40179, the serial number of 2010-01-01. *)
Theorem serial_date_post_2010 (q : Q) :
  (resolved (serial_date (Fin q)) = true <-> (50 <= q)%Q /\ (q <= 60000)%Q) /\
  (dt_ge (serial_date (Fin q)) T2010 = true
   <-> (40179 <= q)%Q /\ (q <= 60000)%Q).
Proof.
  assert (T2010 == EXCEL_EPOCH + 40179)%Q as HT by reflexivity.
  destruct (Qlt_le_dec q 50) as [Hlo|Hlo].
  - rewrite serial_date_outside by now left. cbn [resolved dt_ge].
    split; split; try discriminate; intros [H1 H2]; exfalso; lra.
  - destruct (Qlt_le_dec 60000 q) as [Hhi|Hhi].
    + rewrite serial_date_outside by now right. cbn [resolved dt_ge].
      split; split; try discriminate; intros [H1 H2]; exfalso; lra.
    + rewrite serial_date_inside by assumption. cbn [resolved dt_ge].
      split; [tauto|]. rewrite Qle_bool_iff, HT. split.
      * intros H. split; lra.
      * intros [H _]. lra.
Qed.

Lemma any_nth_error (l : list bool) (i : nat) :
  nth_error l i = Some true -> any l = true.
Proof.
  intros H. unfold any. apply existsb_exists. exists true. split; [|reflexivity].
  eapply nth_error_In, H.
Qed.

Section TextDates.

Variable N : string -> float64.   (* pd.to_numeric *)
Variable P : string -> datetime.  (* pd.to_datetime *)

(** The first two stages on one cell of a candidate column. *)
Lemma parse_candidate_text (col : list cell) (i : nat) (s : string) (t : Q) :
  nth_error col i = Some (Some s) ->
  P s = Some t \/
  (P s = None /\ Str.contains "/" s = true /\ P (Str.split_first "/" s) = Some t) ->
  nth_error (parse_candidate N P col) i = Some (Some t).
Proof.
  intros Hi H. unfold parse_candidate. cbv zeta.
  assert (nth_error (to_datetime_col P col) i = Some (P s)) as Hparsed.
  { unfold to_datetime_col. now rewrite (map_nth_error (datetime_cell P) i col Hi). }
  assert (nth_error
            (List.map P (List.map (Str.split_first "/") (fillna "" col))) i
          = Some (P (Str.split_first "/" s))) as Hstart.
  { unfold fillna. rewrite !map_map.
    now rewrite (map_nth_error
                   (fun x => P (Str.split_first "/"
                                  match x with Some y => y | None => "" end))
                   i col Hi). }
  unfold datetime in *.
  apply fill_nth_error_some.
  { destruct (any _); unfold to_datetime_col, to_numeric_col, fillna;
      repeat (rewrite ?fill_length, ?length_map; try reflexivity). }
  destruct H as [Hp|[Hp [Hc Hr]]].
  - rewrite Hp in Hparsed. destruct (any _); [|exact Hparsed].
    apply fill_nth_error_some; [|exact Hparsed].
    unfold to_datetime_col, fillna. now rewrite !length_map.
  - rewrite Hp in Hparsed. rewrite Hr in Hstart.
    rewrite (@any_nth_error _ i).
    + now apply fill_nth_error_none.
    + unfold vand.
      rewrite (@zipw_nth_error _ _ _ andb _ _ i true true); [reflexivity| |].
      * unfold isna. now rewrite (map_nth_error _ i _ Hparsed).
      * unfold fillna. rewrite map_map.
        rewrite (map_nth_error
                   (fun x => Str.contains "/" match x with Some y => y | None => "" end)
                   i col Hi).
        now rewrite Hc.
Qed.

(** X20: in the workbook path, when the candidate columns before column
    [c] leave a record without a date and its text in [c] parses as a
    date, or is a range whose start parses, that date is the one
    resolved for the record, also when the text is a number that the
    serial stage would accept. *)
Theorem text_date_precedes_serial (df : DataFrame) (pre : list string) (c : string)
    (rest : list string) (i : nat) (s : string) (t : Q) :
  candidates df = pre ++ c :: rest ->
  (forall c', In c' pre ->
     nth_error (parse_candidate N P (getitem df c')) i = Some None) ->
  nth_error (getitem df c) i = Some (Some s) ->
  P s = Some t \/
  (P s = None /\ Str.contains "/" s = true /\ P (Str.split_first "/" s) = Some t) ->
  nth_error (excel_dates N P df) i = Some (Some t).
Proof.
  intros Hc Hpre Hi H. unfold excel_dates. rewrite Hc.
  assert (i < len df) as Hlt.
  { rewrite <- (getitem_length df c). apply nth_error_Some. congruence. }
  apply sniff_dates_keeps.
  - apply resolve_dates_length, repeat_length.
  - apply resolve_dates_reaches; try assumption.
    + apply repeat_length.
    + now apply repeat_nth_error.
    + now apply parse_candidate_text with (s := s).
Qed.

End TextDates.

(** ** Quality issues *)

Lemma upper_lower_char (c : ascii) :
  Str.upper_char (Str.lower_char c) = Str.upper_char c.
Proof.
  destruct c as [[] [] [] [] [] [] [] []]; reflexivity.
Qed.

Lemma upper_lower (s : string) : Str.upper (Str.lower s) = Str.upper s.
Proof.
  unfold Str.upper, Str.lower, Str.map_chars, Str.of_chars, Str.chars.
  rewrite list_ascii_of_string_of_list_ascii, map_map. f_equal.
  apply map_ext, upper_lower_char.
Qed.

(** X21: the quality-issue flag does not depend on the case of the
    issues text: two texts that differ in case only are flagged
    alike. *)
Theorem quality_issue_ignores_case (s t : string) :
  Str.lower s = Str.lower t ->
  issue_flagged (Str.upper s) = issue_flagged (Str.upper t).
Proof.
  intros H. now rewrite <- (upper_lower s), <- (upper_lower t), H.
Qed.

(** ** A run without input *)

Section NoInput.

Variable N : string -> float64.   (* pd.to_numeric *)
Variable P : string -> datetime.  (* pd.to_datetime *)

(** X22: a run ends with the message that no occurrence file was found,
    writing nothing, exactly when the directory exists and holds neither
    a source file nor a workbook. *)
Theorem main_no_input_iff (dir : Directory) :
  main N P dir = Ok NoInput
  <-> exists entries,
        dir = Some entries /\
        List.filter is_source entries = [] /\
        List.filter is_workbook entries = [].
Proof.
  split.
  - destruct dir as [entries|]; [|discriminate].
    intros H. exists entries. split; [reflexivity|].
    unfold main in H. cbn [scan_tabular_files] in H.
    destruct (scan_files N P _ _) as [st|e] eqn:E; cbn [Py.bind unpack fst snd] in H;
      [|discriminate].
    pose proof (scan_files_ids _ _ _ _ E) as Hids. cbn [fst List.map app] in Hids.
    destruct (fst st) as [|row rows]; [|discriminate].
    assert (List.filter is_source entries = []) as Hs.
    { apply length_zero_iff_nil.
      rewrite <- (Permutation_length
                    (sorted_by_perm (fun a b => path_leb (path a) (path b))
                                    (List.filter is_source entries))).
      cbn [List.map] in Hids. symmetry in Hids. apply map_eq_nil in Hids.
      now rewrite Hids. }
    split; [exact Hs|].
    destruct (List.filter is_workbook entries) as [|w ws] eqn:W; [reflexivity|].
    exfalso. unfold scan_excel_combined in H. rewrite W in H.
    destruct (@select_rank_some (w :: ws)) as [p Hp]; [discriminate|].
    rewrite Hp in H. destruct (read_error p); [discriminate|].
    destruct (empty_fallback_error (workbook p)); discriminate.
  - intros [entries [-> [Hs Hw]]].
    unfold main, scan_tabular_files, scan_excel_combined.
    rewrite Hs, Hw. reflexivity.
Qed.

End NoInput.


(** ** The species ids of the workbook path *)

Lemma star_space (s : list ascii) (prev : option ascii) :
  Re.run (Re.Star Re.space) prev s (fun _ rest => Some rest)
  = Some (Str.lstrip_chars s).
Proof.
  revert prev. induction s as [|c s IH]; intros prev; [reflexivity|].
  pose proof (IH (Some c)) as IH'. cbn [Re.run] in IH'.
  cbn [Re.run Re.space List.length Str.lstrip_chars].
  destruct (Str.is_space c); [|reflexivity].
  rewrite (proj2 (Nat.ltb_lt _ _) (Nat.lt_succ_diag_r _)).
  match goal with
  | |- Re.orelse ?X _ = _ =>
      replace X with (Some (Str.lstrip_chars s)) by (symmetry; exact IH')
  end.
  reflexivity.
Qed.

Lemma lstrip_length (s : list ascii) :
  List.length (Str.lstrip_chars s) <= List.length s.
Proof.
  induction s as [|c s IH]; [reflexivity|]. cbn [Str.lstrip_chars].
  destruct (Str.is_space c); cbn [List.length]; lia.
Qed.

Lemma whitespace_run_here (prev : option ascii) (s : list ascii) :
  Re.match_here WHITESPACE_RUN prev s
  = match s with
    | c :: s' => if Str.is_space c then Some (Str.lstrip_chars s') else None
    | [] => None
    end.
Proof.
  unfold Re.match_here, WHITESPACE_RUN, Re.Plus.
  destruct s as [|c s]; [reflexivity|].
  change (Re.run (Re.Seq Re.space (Re.Star Re.space)) prev (c :: s)
            (fun _ rest => Some rest))
    with (if Str.is_space c
          then Re.run (Re.Star Re.space) (Some c) s (fun _ rest => Some rest)
          else None).
  now rewrite star_space.
Qed.

Lemma underscored_run (l : list ascii) :
  underscored true l = underscored false (Str.lstrip_chars l).
Proof.
  induction l as [|c l IH]; [reflexivity|].
  cbn [underscored Str.lstrip_chars].
  destruct (Str.is_space c) eqn:E; [exact IH|].
  cbn [underscored]. now rewrite E.
Qed.

Lemma underscored_no_space (b : bool) (l : list ascii) :
  no_space (underscored b l) = true.
Proof.
  revert b. induction l as [|c l IH]; intros b; [reflexivity|].
  cbn [underscored]. destruct (Str.is_space c) eqn:E.
  - destruct b; [apply IH|]. cbn [no_space forallb]. apply (IH true).
  - cbn [no_space forallb]. rewrite E. apply (IH false).
Qed.

Lemma no_space_underscored (l : list ascii) :
  no_space l = true -> underscored false l = l.
Proof.
  induction l as [|c l IH]; [reflexivity|].
  cbn [no_space forallb underscored]. intros H.
  apply andb_true_iff in H. destruct H as [Hc Hl].
  apply negb_true_iff in Hc. rewrite Hc. now rewrite (IH Hl).
Qed.

(** The leftmost run of whitespace: what stands before it has none, and
    what follows it is shorter. *)
Lemma whitespace_run_find (s before : list ascii) (prev : option ascii) :
  match Re.find WHITESPACE_RUN prev before s with
  | Some (b, rest) =>
      exists pre, b = rev before ++ pre /\ no_space pre = true /\
                  List.length rest < List.length s /\
                  underscored false s = pre ++ "_"%char :: underscored false rest
  | None => no_space s = true
  end.
Proof.
  revert before prev. induction s as [|c s IH]; intros before prev.
  - reflexivity.
  - cbn [Re.find]. rewrite whitespace_run_here.
    destruct (Str.is_space c) eqn:E.
    + exists []. rewrite app_nil_r. repeat split.
      * pose proof (lstrip_length s). cbn [List.length]. lia.
      * cbn [underscored app]. now rewrite E, underscored_run.
    + specialize (IH (c :: before) (Some c)).
      destruct (Re.find WHITESPACE_RUN (Some c) (c :: before) s) as [[b rest]|].
      * destruct IH as [pre [-> [Hpre [Hlen Hu]]]]. exists (c :: pre).
        cbn [rev]. rewrite <- app_assoc. repeat split.
        -- cbn [no_space forallb]. rewrite E. exact Hpre.
        -- cbn [List.length]. lia.
        -- cbn [underscored app]. now rewrite E, Hu.
      * cbn [no_space forallb]. rewrite E. exact IH.
Qed.

Lemma sub_whitespace_underscored (fuel : nat) (s : list ascii) (prev : option ascii) :
  List.length s <= fuel ->
  Re.sub_chars fuel WHITESPACE_RUN (Str.chars "_") prev s = underscored false s.
Proof.
  revert s prev. induction fuel as [|fuel IH]; intros s prev Hlen.
  - destruct s; [reflexivity|cbn [List.length] in Hlen; lia].
  - cbn [Re.sub_chars].
    pose proof (whitespace_run_find s [] prev) as Hf.
    destruct (Re.find WHITESPACE_RUN prev [] s) as [[b rest]|].
    + destruct Hf as [pre [-> [Hpre [Hrest Hu]]]]. cbn [rev app].
      rewrite Hu, IH by lia. reflexivity.
    + now rewrite no_space_underscored.
Qed.

Lemma chars_of_chars (l : list ascii) : Str.chars (Str.of_chars l) = l.
Proof. apply list_ascii_of_string_of_list_ascii. Qed.

(** [re.sub(r"\s+", "_", s)] *)
Lemma sub_whitespace (s : string) :
  Re.sub WHITESPACE_RUN "_" s = Str.of_chars (underscored false (Str.chars s)).
Proof.
  unfold Re.sub. f_equal. now apply sub_whitespace_underscored.
Qed.

Section SpeciesIds.

Variable N : string -> float64.   (* pd.to_numeric *)
Variable P : string -> datetime.  (* pd.to_datetime *)

(** X23: every species id of the workbook path is the species text of
    one of its records (empty when missing) without the whitespace at
    its two ends and with every run of whitespace that remains made one
    underscore; so no species id holds a whitespace character. *)
Theorem workbook_species_ids_underscored (df : DataFrame) :
  Forall
    (fun row =>
       (exists s,
          In s (species_text df) /\
          species_id row
          = Str.of_chars (underscored false (Str.chars (Str.strip s)))) /\
       no_space (Str.chars (species_id row)) = true)
    (fst (scan_workbook N P df)).
Proof.
  apply Forall_forall. intros row Hrow.
  assert (In (species_id row) (excel_species_id df)) as Hid.
  { apply group_keys_in. rewrite <- (workbook_species_ids N P df).
    now apply in_map. }
  unfold excel_species_id in Hid. fold (species_text df) in Hid.
  apply in_map_iff in Hid. destruct Hid as [s [<- Hs]].
  rewrite sub_whitespace. split.
  - now exists s.
  - rewrite chars_of_chars. apply underscored_no_space.
Qed.

End SpeciesIds.

(** ** The order of the percentages *)

Lemma round4_mono (q1 q2 : Q) : (q1 <= q2)%Q -> (round4 q1 <= round4 q2)%Q.
Proof.
  intros H. unfold round4.
  assert (round_half_even (q1 * inject_Z 10000) <= round_half_even (q2 * inject_Z 10000))%Z
    as Hz.
  { apply round_half_even_mono. change (inject_Z 10000) with (10000 # 1)%Q. lra. }
  rewrite Zle_Qle in Hz. change (inject_Z 10000) with (10000 # 1)%Q.
  apply Qle_shift_div_l; [reflexivity|].
  set (a := inject_Z (round_half_even (q1 * (10000 # 1)))) in *.
  set (b := inject_Z (round_half_even (q2 * (10000 # 1)))) in *.
  setoid_replace (a / (10000 # 1) * (10000 # 1))%Q with a by field. exact Hz.
Qed.

Lemma pct_mono (a b d : nat) : a <= b -> (pct a (or_one d) <= pct b (or_one d))%Q.
Proof.
  intros H. unfold pct. apply round4_mono, float64_of_mono.
  assert (0 < inject_Z (Z.of_nat (or_one d)))%Q as Hpos.
  { change 0%Q with (inject_Z 0). rewrite <- Zlt_Qlt. rewrite or_one_max. lia. }
  apply Qle_shift_div_l; [exact Hpos|].
  set (x := inject_Z (Z.of_nat (or_one d))) in *.
  setoid_replace (inject_Z (Z.of_nat a) / x * x)%Q with (inject_Z (Z.of_nat a))
    by (field; lra).
  rewrite <- Zle_Qle. lia.
Qed.

Lemma finalize_percentages_nested (sid : string) (c : Counters) :
  dates_nested c -> percentages_nested (finalize sid c).
Proof.
  intros [H1 H2]. unfold percentages_nested, finalize.
  cbn [pct_dated_full pct_dated_any pct_post_2010]. split; now apply pct_mono.
Qed.

Section PercentageOrder.

Variable N : string -> float64.   (* pd.to_numeric *)
Variable P : string -> datetime.  (* pd.to_datetime *)

(** X24: rounding keeps the order of the counters: in every species row
    of the workbook path the percentage of fully dated records and the
    percentage of records from 2010 on are at most the percentage of
    dated records. *)
Theorem workbook_percentages_nested (df : DataFrame) :
  Forall percentages_nested (fst (scan_workbook N P df)).
Proof.
  unfold scan_workbook. cbn [fst].
  apply Forall_forall. intros row Hrow. apply in_map_iff in Hrow.
  destruct Hrow as [sid [<- _]]. unfold excel_species_row.
  apply finalize_percentages_nested, excel_accumulate_dates_nested.
Qed.

(** The parser gives no date for a blank text. *)
Hypothesis blank_is_NaT : forall s, Str.strip s = "" -> P s = None.

Lemma scan_files_percentages_nested (files : list SourceFile)
    (st st' : list SpeciesRow * Counters) :
  scan_files N P files st = Ok st' ->
  Forall percentages_nested (fst st) -> dates_nested (snd st) ->
  Forall percentages_nested (fst st') /\ dates_nested (snd st').
Proof.
  revert st. induction files as [|file files IH]; intros st; cbn [scan_files].
  - intros [= <-]. auto.
  - unfold scan_file at 1.
    destruct (read_table file) as [chunks|e]; cbn [Py.bind]; [|discriminate].
    destruct (scan_chunks N P chunks (new_species (snd st), snd st))
      as [st1|e] eqn:E; cbn [Py.bind]; [|discriminate].
    intros H Hrows Hov.
    destruct (@scan_chunks_dates_nested N P blank_is_NaT chunks _ _ E)
      as [Hsp Hov1]; cbn [fst snd].
    + split; apply Nat.le_refl.
    + exact Hov.
    + apply (IH _ H); cbn [fst snd]; [|exact Hov1].
      apply Forall_app. split; [exact Hrows|].
      constructor; [|constructor]. now apply finalize_percentages_nested.
Qed.

(** X25: the same in the streaming path, whenever the date parser gives
    no date for a blank text. *)
Theorem streaming_percentages_nested (dir : Directory)
    (rows : list SpeciesRow) (overall : Counters) :
  scan_tabular_files N P dir = Ok (Pair rows overall) ->
  Forall percentages_nested rows.
Proof.
  destruct dir as [entries|]; cbn [scan_tabular_files]; [|discriminate].
  destruct (scan_files N P _ _) as [st|e] eqn:E; cbn [Py.bind]; [|discriminate].
  intros [= <- <-]. apply (@scan_files_percentages_nested _ _ _ E); cbn [fst snd].
  - constructor.
  - split; apply Nat.le_refl.
Qed.

End PercentageOrder.

(** ** The row-level helper and the column expression *)

Section RowHelper.

Variable N : string -> float64.   (* pd.to_numeric *)
Variable P : string -> datetime.  (* pd.to_datetime *)

(** X26: the row-level helper [gbif_issue_flagged] and the column
    expression of the streaming path flag the same records, also where
    the issues field is nan or absent: the text [NAN] holds no issue
    code. *)
Theorem gbif_issue_flagged_row_agrees (row : string -> value) :
  gbif_issue_flagged_row row
  = hasQualityIssue (stream_flags N P (fun k => cell_of (row k))).
Proof.
  unfold gbif_issue_flagged_row, stream_flags. cbn [hasQualityIssue].
  destruct (row "issues") as [| |s]; reflexivity.
Qed.

(** X27: the row-level helper [has_any_date] accepts every record the
    column expression of the streaming path counts as dated (it also
    accepts a nan event date, which prints as [nan], and a year that is
    no number). *)
Theorem has_any_date_accepts_dated (row : string -> value) :
  hasAnyDate (stream_flags N P (fun k => cell_of (row k))) = true ->
  has_any_date row = true.
Proof.
  unfold has_any_date, stream_flags. cbn [hasAnyDate].
  intros H. apply orb_true_iff in H. apply orb_true_iff.
  destruct H as [H|H].
  - left. destruct (row "eventDate") as [| |s]; cbn [cell_of text_or str_or_empty] in *;
      try exact H; discriminate H.
  - right. destruct (row "year") as [| |s]; cbn [cell_of numeric_cell] in H;
      try discriminate H. reflexivity.
Qed.

End RowHelper.

(** ** The properties at sample inputs *)

Lemma digit_not_space (c : ascii) : Str.is_digit c = true -> Str.is_space c = false.
Proof.
  unfold Str.is_digit, Str.is_space, Str.in_range. intros H.
  apply andb_true_iff in H. destruct H as [H1 H2].
  apply Nat.leb_le in H1, H2.
  repeat match goal with
         | |- context [(?a <=? ?b)%nat] => destruct (Nat.leb_spec a b)
         end; cbn [andb orb]; try reflexivity; lia.
Qed.

Lemma lstrip_nil (l : list ascii) :
  Str.lstrip_chars l = [] -> forallb Str.is_space l = true.
Proof.
  induction l as [|c l IH]; [reflexivity|]. cbn [Str.lstrip_chars forallb].
  destruct (Str.is_space c); [exact IH|discriminate].
Qed.

Lemma strip_blank (s : string) :
  Str.strip s = "" -> forallb Str.is_space (Str.chars s) = true.
Proof.
  unfold Str.strip, Str.of_chars, Str.chars. intros H.
  assert (rev (Str.lstrip_chars (rev (Str.lstrip_chars (list_ascii_of_string s)))) = []) as H1.
  { destruct (rev _) as [|c l]; [reflexivity|discriminate H]. }
  apply (f_equal (@rev ascii)) in H1. rewrite rev_involutive in H1. cbn [rev] in H1.
  apply lstrip_nil in H1. rewrite forallb_forall in H1.
  remember (list_ascii_of_string s) as l eqn:El. clear El H.
  induction l as [|c l IH]; [reflexivity|]. cbn [Str.lstrip_chars forallb] in *.
  destruct (Str.is_space c) eqn:E.
  - apply IH, H1.
  - exfalso. assert (Str.is_space c = true) as E'.
    { apply H1. apply -> in_rev. now left. }
    congruence.
Qed.

Lemma sample_blank_is_NaT (s : string) :
  Str.strip s = "" -> Sample.to_datetime s = None.
Proof.
  intros H. apply strip_blank in H. unfold Sample.to_datetime.
  destruct (Str.chars s) as [|y1 l]; [reflexivity|].
  cbn [forallb] in H. apply andb_true_iff in H. destruct H as [H _].
  assert (Str.is_digit y1 = false) as D.
  { destruct (Str.is_digit y1) eqn:D; [|reflexivity].
    apply digit_not_space in D. congruence. }
  repeat (cbn [digits_value]; rewrite ?D;
          match goal with
          | |- match ?l with [] => _ | _ :: _ => _ end = _ => destruct l
          | |- match ?c with Ascii _ _ _ _ _ _ _ _ => _ end = _ => destruct c
          | |- (if ?b then _ else _) = _ => destruct b
          end; try reflexivity).
Qed.

Lemma streaming_overall_is_sum_witness :
  exists rows overall,
    scan_tabular_files Sample.to_numeric Sample.to_datetime Example.two_species
    = Ok (Pair rows overall) /\
    Forall (fun f => f overall = sum_rows f rows) NUMBERS /\
    dict_total (basis_counts overall) = usa_records overall.
Proof.
  destruct (scan_tabular_files Sample.to_numeric Sample.to_datetime Example.two_species)
    as [[|rows overall]|e] eqn:E.
  - vm_compute in E. discriminate.
  - exists rows, overall. split; [reflexivity|].
    exact (@streaming_overall_is_sum Sample.to_numeric Sample.to_datetime
             Example.two_species rows overall E).
  - vm_compute in E. discriminate.
Defined.

Lemma streaming_counters_within_totals_witness :
  exists rows overall,
    scan_tabular_files Sample.to_numeric Sample.to_datetime Example.three_records
    = Ok (Pair rows overall) /\
    Forall (fun row => within_totals (counts row)) rows /\ within_totals overall.
Proof.
  destruct (scan_tabular_files Sample.to_numeric Sample.to_datetime Example.three_records)
    as [[|rows overall]|e] eqn:E.
  - vm_compute in E. discriminate.
  - exists rows, overall. split; [reflexivity|].
    exact (@streaming_counters_within_totals Sample.to_numeric Sample.to_datetime
             Example.three_records rows overall E).
  - vm_compute in E. discriminate.
Defined.

Lemma streaming_one_row_per_file_witness :
  exists rows overall,
    scan_tabular_files Sample.to_numeric Sample.to_datetime
      (Some [Example.file "b.csv" (Example.table []);
             Example.file "a.csv.gz"
               (Example.table [Example.observed "HumanObservation" None])])
    = Ok (Pair rows overall) /\
    List.map species_id rows = ["a"; "b"] /\ List.length rows = 2.
Proof.
  destruct (scan_tabular_files Sample.to_numeric Sample.to_datetime
              (Some [Example.file "b.csv" (Example.table []);
                     Example.file "a.csv.gz"
                       (Example.table [Example.observed "HumanObservation" None])]))
    as [[|rows overall]|e] eqn:E.
  - vm_compute in E. discriminate.
  - exists rows, overall. split; [reflexivity|].
    exact (@streaming_one_row_per_file Sample.to_numeric Sample.to_datetime
             _ rows overall E).
  - vm_compute in E. discriminate.
Defined.

Lemma main_writes_sorted_rows_witness :
  exists by_species overall,
    main Sample.to_numeric Sample.to_datetime Example.two_species
    = Ok (Wrote by_species overall) /\
    Sorted (fun a b => String.leb (species_id a) (species_id b) = true) by_species.
Proof.
  destruct (main Sample.to_numeric Sample.to_datetime Example.two_species)
    as [[|by_species overall]|e] eqn:E.
  - vm_compute in E. discriminate.
  - exists by_species, overall. split; [reflexivity|].
    exact (proj1 (@main_writes_sorted_rows Sample.to_numeric Sample.to_datetime
                    Example.two_species by_species overall E)).
  - vm_compute in E. discriminate.
Defined.

Lemma streaming_dates_nested_witness :
  exists rows overall,
    scan_tabular_files Sample.to_numeric Sample.to_datetime Example.three_records
    = Ok (Pair rows overall) /\
    Forall (fun row => dates_nested (counts row)) rows /\ dates_nested overall.
Proof.
  destruct (scan_tabular_files Sample.to_numeric Sample.to_datetime Example.three_records)
    as [[|rows overall]|e] eqn:E.
  - vm_compute in E. discriminate.
  - exists rows, overall. split; [reflexivity|].
    exact (@streaming_dates_nested Sample.to_numeric Sample.to_datetime
             sample_blank_is_NaT Example.three_records rows overall E).
  - vm_compute in E. discriminate.
Defined.

Lemma us_by_coordinates_is_valid_witness :
  inUS (stream_flags Sample.to_numeric Sample.to_datetime
          (field (Example.table []) (Example.located "40.0" "-75.0"))) = true /\
  validCoordinates
    (stream_flags Sample.to_numeric Sample.to_datetime
       (field (Example.table []) (Example.located "40.0" "-75.0"))) = true.
Proof.
  split; [reflexivity|].
  apply (@us_by_coordinates_is_valid Sample.to_numeric Sample.to_datetime);
    reflexivity.
Defined.

Lemma workbook_us_by_coordinates_is_valid_witness :
  inUS (excel_flags Sample.to_numeric
          (alias (Example.table []) (Example.located "40.0" "-75.0")) None) = true /\
  validCoordinates
    (excel_flags Sample.to_numeric
       (alias (Example.table []) (Example.located "40.0" "-75.0")) None) = true.
Proof.
  split; [reflexivity|].
  apply (@workbook_us_by_coordinates_is_valid Sample.to_numeric); reflexivity.
Defined.

Lemma source_name_round_trip_witness :
  Re.search SOURCE_EXT "Crotalus_atrox.csv.gz" = true /\
  Re.sub SOURCE_EXT "" "Crotalus_atrox.csv.gz" = "Crotalus_atrox".
Proof.
  apply (@source_name_round_trip "Crotalus_atrox" ".csv.gz").
  - right; right; right; right; left; reflexivity.
  - reflexivity.
Defined.

Lemma ndjson_total_is_records_of_lines_witness :
  exists st',
    scan_chunks Sample.to_numeric Sample.to_datetime
      (ndjson_chunks
         [Blank; Object STREAM_COLUMNS (Example.record (Some "US") None);
          Malformed;
          Array STREAM_COLUMNS
            [Example.located "40.0" "-75.0"; Example.record None None]])
      (overall_init 0, overall_init 0)
    = Ok st' /\
    total_records (fst st') = 3 /\ total_records (snd st') = 3.
Proof.
  destruct (scan_chunks Sample.to_numeric Sample.to_datetime
              (ndjson_chunks
                 [Blank; Object STREAM_COLUMNS (Example.record (Some "US") None);
                  Malformed;
                  Array STREAM_COLUMNS
                    [Example.located "40.0" "-75.0"; Example.record None None]])
              (overall_init 0, overall_init 0)) as [st'|e] eqn:E.
  - exists st'. split; [reflexivity|].
    exact (@ndjson_total_is_records_of_lines Sample.to_numeric Sample.to_datetime
             _ _ st' E).
  - vm_compute in E. discriminate.
Defined.


Lemma text_date_precedes_serial_witness :
  nth_error
    (excel_dates Sample.to_numeric Sample.to_datetime
       {| columns := ["species"; "eventDate"];
          rows := [[Some "Crotalus atrox"; Some "2015-06-01/2015-06-14"]] |}) 0
  = Some (Some (Timestamp 2015 6 1)).
Proof.
  apply (@text_date_precedes_serial Sample.to_numeric Sample.to_datetime
           {| columns := ["species"; "eventDate"];
              rows := [[Some "Crotalus atrox"; Some "2015-06-01/2015-06-14"]] |}
           [] "eventDate" [] 0 "2015-06-01/2015-06-14" (Timestamp 2015 6 1)).
  - reflexivity.
  - intros c' [].
  - reflexivity.
  - right. repeat split; reflexivity.
Defined.

Lemma quality_issue_ignores_case_witness :
  issue_flagged (Str.upper "country_mismatch") = issue_flagged (Str.upper "Country_Mismatch").
Proof.
  apply (@quality_issue_ignores_case "country_mismatch" "Country_Mismatch").
  reflexivity.
Defined.

Lemma streaming_percentages_nested_witness :
  exists rows overall,
    scan_tabular_files Sample.to_numeric Sample.to_datetime Example.three_records
    = Ok (Pair rows overall) /\
    Forall percentages_nested rows.
Proof.
  destruct (scan_tabular_files Sample.to_numeric Sample.to_datetime Example.three_records)
    as [[|rows overall]|e] eqn:E.
  - vm_compute in E. discriminate.
  - exists rows, overall. split; [reflexivity|].
    exact (@streaming_percentages_nested Sample.to_numeric Sample.to_datetime
             sample_blank_is_NaT Example.three_records rows overall E).
  - vm_compute in E. discriminate.
Defined.

Lemma has_any_date_accepts_dated_witness :
  hasAnyDate
    (stream_flags Sample.to_numeric Sample.to_datetime
       (fun k => cell_of (if String.eqb k "year" then Text "2015" else NaNValue)))
  = true /\
  has_any_date (fun k => if String.eqb k "year" then Text "2015" else NaNValue) = true.
Proof.
  split; [reflexivity|].
  apply (@has_any_date_accepts_dated Sample.to_numeric Sample.to_datetime).
  reflexivity.
Defined.
